(** * DeepPoseRobot: the dataset build pipeline

    A shallow embedding of [robotpose/building.py] (the [Builder] class:
    full build, subset, weld) and of the dataset lookup and validation of
    [robotpose/dataset.py], with the properties of the specification that
    are about them; then of the build and the loading of a compiled dataset
    in [robotpose/dataset.py] ([build], [Dataset.load], [setSkeleton],
    [makeDeepPoseDS]), with further properties of the code.

    Conventions of the embedding.
    - A raised Python exception is the [Err] case of [result]; the
      exception classes are the constructors of [exn].
    - Methods that touch the disk run in the monad [M], a state monad over
      the disk with exceptions: the effects made before an exception stay.
    - A numpy array or h5py dataset with a leading frame axis is the list of
      its rows; [arr[i]] is list lookup, [arr[i] = v] is list insert, both
      raising [IndexError] out of range as numpy does.
    - [file.attrs] and the datasets of a container are finite maps keyed by
      name. *)

From Stdlib Require Import ZArith QArith String Ascii.
From stdpp Require Import base option list gmap strings.

Open Scope string_scope.
Open Scope list_scope.

(** ** Exceptions and the error monad *)

Inductive exn : Type :=
  | AssertionError (msg : string)
  | KeyError (key : string)
  | IndexError
  | TypeError (msg : string)
  | AttributeError (msg : string)
  | ValueError (msg : string)
  | FileNotFoundError (path : string).

Inductive result (A : Type) : Type :=
  | Ok (x : A)
  | Err (e : exn).
Arguments Ok {A} x.
Arguments Err {A} e.

Global Instance result_ret : MRet result := fun A x => Ok x.
Global Instance result_bind : MBind result := fun A B f m =>
  match m with
  | Ok x => f x
  | Err e => Err e
  end.
Global Instance result_fmap : FMap result := fun A B f m =>
  match m with
  | Ok x => Ok (f x)
  | Err e => Err e
  end.

(** [o ?! e]: the value of [o], raising [e] when there is none. *)
Definition or_raise {A} (o : option A) (e : exn) : result A :=
  match o with
  | Some x => Ok x
  | None => Err e
  end.
Infix "?!" := or_raise (at level 45).

(** The [assert] statement. *)
Definition py_assert (b : bool) (msg : string) : result unit :=
  if b then Ok tt else Err (AssertionError msg).

(** [arr[i]] on a list. *)
Definition getitem {A} (l : list A) (i : nat) : result A :=
  l !! i ?! IndexError.

(** [arr[i] = v] on a list of fixed length. *)
Definition setitem {A} (l : list A) (i : nat) (v : A) : result (list A) :=
  if decide (i < length l) then Ok (<[i := v]> l) else Err IndexError.

(** A [for] loop over [l] threading the state [s]. *)
Fixpoint for_each {A S} (l : list A) (body : A -> S -> result S) (s : S)
    : result S :=
  match l with
  | [] => Ok s
  | x :: l' => s' ← body x s; for_each l' body s'
  end.

(** ** Python built-ins *)

(** [range(start, stop, step)] for a positive [step]: the values
    [start, start+step, ...] below [stop]. At most [stop] values exist, which
    bounds the recursion. *)
Fixpoint range_from (fuel start stop step : nat) : list nat :=
  match fuel with
  | 0 => []
  | S fuel' =>
      if decide (start < stop)
      then start :: range_from fuel' (start + step) stop step
      else []
  end.

Definition py_range3 (start stop step : nat) : result (list nat) :=
  if decide (step = 0) then Err (ValueError "range() arg 3 must not be zero")
  else Ok (range_from stop start stop step).

(** [range(start, stop)]. *)
Definition py_range (start stop : nat) : list nat := seq start (stop - start).

(** [s.startswith(p)] and [s.endswith(p)]. *)
Fixpoint startswith (p s : string) : bool :=
  match p, s with
  | EmptyString, _ => true
  | String a p', String b s' => if decide (a = b) then startswith p' s' else false
  | String _ _, EmptyString => false
  end.

Fixpoint str_drop (n : nat) (s : string) : string :=
  match n, s with
  | 0, _ => s
  | S n', String _ s' => str_drop n' s'
  | S _, EmptyString => EmptyString
  end.

Definition endswith (p s : string) : bool :=
  bool_decide (String.length p <= String.length s) &&
  bool_decide (str_drop (String.length s - String.length p) s = p).

(** [sub in s] on strings. *)
Fixpoint str_contains (sub s : string) : bool :=
  startswith sub s ||
  match s with
  | EmptyString => false
  | String _ s' => str_contains sub s'
  end.

(** [s.replace(old, new)]: every non-overlapping occurrence, left to right.
    With an empty [old], Python puts [new] before every character and at
    the end. *)
Fixpoint replace_from (fuel : nat) (old new s : string) : string :=
  match fuel with
  | 0 => s
  | S fuel' =>
      match s with
      | EmptyString => if decide (old = EmptyString) then new else EmptyString
      | String c s' =>
          if decide (old = EmptyString)
          then new +:+ String c (replace_from fuel' old new s')
          else if startswith old s
          then new +:+ replace_from fuel' old new (str_drop (String.length old) s)
          else String c (replace_from fuel' old new s')
      end
  end.

Definition str_replace (old new s : string) : string :=
  replace_from (S (String.length s)) old new s.

(** [sorted(l)] on strings: the order of the code points. *)
Fixpoint insert_sorted (x : string) (l : list string) : list string :=
  match l with
  | [] => [x]
  | y :: l' => if String.leb x y then x :: l else y :: insert_sorted x l'
  end.

Definition py_sorted (l : list string) : list string :=
  foldr insert_sorted [] l.

(** [int(x)] on a float: truncation toward zero. A float is given by the
    rational it denotes. *)
Definition py_int (x : Q) : Z := Z.quot (Qnum x) (Z.pos (Qden x)).

(** ** State with exceptions

    [ST S A]: a computation over a mutable [S] that returns an [A] or raises.
    The state reached when the exception is raised is kept. *)

Definition ST (S A : Type) : Type := S -> result A * S.

Global Instance ST_ret {S} : MRet (ST S) := fun A x s => (Ok x, s).
Global Instance ST_bind {S} : MBind (ST S) := fun A B f m s =>
  match m s with
  | (Ok x, s') => f x s'
  | (Err e, s') => (Err e, s')
  end.

Definition st_lift {S A} (r : result A) : ST S A := fun s => (r, s).
Definition st_get {S} : ST S S := fun s => (Ok s, s).
Definition st_modify {S} (f : S -> S) : ST S unit := fun s => (Ok tt, f s).

(** ** What the pipeline takes from its libraries

    Rows of arrays are opaque: the pipeline never looks inside a frame, it
    moves frames along the leading axis. What numpy does to a row is an
    operation of [Numpy]; every property below holds for any such
    operations. *)

Inductive dtype : Type := float_ | float64 | uint8 | bool_.

(** A scalar attribute of a container: a string, an integer, a float or a
    shape tuple. *)
Inductive attr_val (F : Type) : Type :=
  | AStr (s : string)
  | AInt (z : Z)
  | AFloat (x : F)
  | AShape (dims : list nat).
Arguments AStr {F} s.
Arguments AInt {F} z.
Arguments AFloat {F} x.
Arguments AShape {F} dims.

Global Instance attr_val_eq_dec {F} `{EqDecision F} : EqDecision (attr_val F).
Proof. solve_decision. Defined.

Class Numpy := {
  (** Python and JSON numbers, compared with [==]. *)
  scalar : Type;
  scalar_eq_dec :: EqDecision scalar;
  scalar_countable :: Countable scalar;
  (** [a - b] on floats. *)
  fsub : scalar -> scalar -> scalar;
  (** One frame of an array, or a value numpy can store in one. *)
  ndarray : Type;
  (** [np.zeros(shape, dtype)]. *)
  np_zeros : list nat -> dtype -> ndarray;
  (** [a.shape]. *)
  np_shape : ndarray -> list nat;
  (** [slot[...] = v]: the new content of [slot], [None] when numpy raises
      (the shapes cannot be broadcast). *)
  np_assign : ndarray -> ndarray -> option ndarray;
  (** [row[j] = v]. *)
  np_setitem : ndarray -> nat -> ndarray -> option ndarray;
  (** [a *= x] for an attribute value [x]; [None] when numpy raises. *)
  np_imul : ndarray -> attr_val scalar -> option ndarray;
  (** [a.astype(int)]. *)
  np_astype_int : ndarray -> ndarray;
  (** [np.vstack((a, b))] of two arrays of two or more axes, given by their
      rows; [Err] when numpy raises, as it does when the rows of [a] and of
      [b] differ in shape. *)
  np_vstack : list ndarray -> list ndarray -> result (list ndarray);
  (** [a + b] on two attribute values. *)
  py_add : attr_val scalar -> attr_val scalar -> result (attr_val scalar);
  (** The truth value of [a == b] on two attribute values that are not two
      scalars of one kind and not two arrays of the same length of one or
      more elements: what numpy answers then depends on broadcasting and
      on its version. *)
  np_eq_other : attr_val scalar -> attr_val scalar -> result bool;
}.

(** The collaborators of [building.py] that live in other modules of the
    repository, in the operating system or in OpenCV. *)
Class Collaborators `{Numpy} := {
  (** [multithread.crop]. *)
  crop : ndarray -> ndarray -> ndarray -> ndarray -> ndarray * ndarray;
  (** [RobotSegmenter.segmentImage], [.height()], [.width()]. *)
  segmentImage : ndarray -> ndarray * ndarray;
  segmenter_height : nat;
  segmenter_width : nat;
  (** [utils.workerCount()]. *)
  workerCount : nat;
  (** The content of a video file, and what [cv2.VideoWriter(path, XVID,
      15, size)] leaves at [path] once the frames are written and the
      writer is released: the encoded frames, or [None] when the writer
      could not be opened. The writer does not raise then, and the code
      does not ask [isOpened]. *)
  video : Type;
  cv2_VideoWriter : string -> list ndarray -> option video;
}.

(** The path functions of the operating system and the dataset directory
    of the [paths] module ([paths.DATASETS], [paths.datasets]). *)
Class Paths := {
  os_path_join : string -> string -> string;
  os_path_basename : string -> string;
  os_path_normpath : string -> string;
  DATASETS : string;
}.

Module Building.
Section Building.
Context `{Collaborators} `{Paths}.

(** ** The data model *)

(** A container file: scalar attributes, groups, one dataset per per-frame
    array (numeric rows, or strings for the path manifests) and the
    attributes attached to a dataset. *)
Record h5file := {
  attrs : gmap string (attr_val scalar);
  groups : gset string;
  arrays : gmap string (list ndarray);
  strings : gmap string (list string);
  array_attrs : gmap (string * string) (attr_val scalar);
}.

Definition h5_empty : h5file :=
  {| attrs := ∅; groups := ∅; arrays := ∅; strings := ∅; array_attrs := ∅ |}.

(** What the pipeline writes: directories, container files, preview videos. *)
Record disk := {
  dirs : gset string;
  h5 : gmap string h5file;
  videos : gmap string video;
}.

Definition M := ST disk.
Definition H5 := ST h5file.

(** One joint of [objects[0].joints] and one per-frame JSON file. *)
Record joint := { angle : ndarray; position : ndarray }.

Record frame_json := {
  rs_depth_scale : scalar;
  rs_intrin_depth : string;
  rs_intrin_color : string;
  joints : list joint;
}.

(** A raw capture as the build reads it: what [os.walk(data_path)] yields
    (root, directory names, file names, in the order of the operating
    system) and the content of the files by path. *)
Record capture := {
  os_walk : list (string * list string * list string);
  json_files : gmap string frame_json;
  npy_files : gmap string ndarray;
  png_files : gmap string ndarray;
}.

(** The clock readings of one run: [time.time()] in [__init__] and in
    [_save_full], and the two [str(datetime.datetime.now())]. *)
Record clock := {
  time_init : scalar;
  now_build : string;
  now_compile : string;
  time_save : scalar;
}.

(** What [self] holds of a container after [_read_full]. The attributes
    [name] and [length] are the values read, whatever their type. The
    attribute [attrs] and the ten attributes [ang_arr], ..., [imgs] are
    h5py objects of the file [view_path]; the [with] block of [_read_full]
    has closed that file, so reading through one of them raises. The fields
    [self_name], [self_length] and the array fields of [Builder] then no
    longer describe the object. *)
Record h5view := {
  view_path : string;
  view_name : attr_val scalar;
  view_length : attr_val scalar;
}.

(** The attributes of [self]. *)
Record Builder := {
  build_start_time : scalar;
  dest_path : string;
  self_name : string;
  jsons_p : list string;
  maps_p : list string;
  imgs_p : list string;
  jsons : list string;
  maps : list string;
  imgs : list string;
  self_length : nat;
  ang_arr : list ndarray;
  pos_arr : list ndarray;
  depth_scale : attr_val scalar;
  intrin_depth : attr_val scalar;
  intrin_color : attr_val scalar;
  img_height : nat;
  img_width : nat;
  orig_img_arr : list ndarray;
  depthmap_arr : list ndarray;
  segmented_img_arr : list ndarray;
  pointmap : list ndarray;
  mask_arr : list ndarray;
  rois : list ndarray;
  file_view : option h5view;
}.

(** [Builder()]. *)
Definition Builder_init (t : scalar) : Builder :=
  {| build_start_time := t; dest_path := ""; self_name := "";
     jsons_p := []; maps_p := []; imgs_p := [];
     jsons := []; maps := []; imgs := []; self_length := 0;
     ang_arr := []; pos_arr := [];
     depth_scale := AInt 0; intrin_depth := AInt 0; intrin_color := AInt 0;
     img_height := 0; img_width := 0;
     orig_img_arr := []; depthmap_arr := [];
     segmented_img_arr := []; pointmap := []; mask_arr := []; rois := [];
     file_view := None |}.

(** [self.f = v], one setter per attribute. *)

Definition set_dest_path (v : string) (self : Builder) : Builder :=
  {| build_start_time := build_start_time self; dest_path := v;
     self_name := self_name self; jsons_p := jsons_p self;
     maps_p := maps_p self; imgs_p := imgs_p self; jsons := jsons self;
     maps := maps self; imgs := imgs self; self_length := self_length self;
     ang_arr := ang_arr self; pos_arr := pos_arr self;
     depth_scale := depth_scale self; intrin_depth := intrin_depth self;
     intrin_color := intrin_color self; img_height := img_height self;
     img_width := img_width self; orig_img_arr := orig_img_arr self;
     depthmap_arr := depthmap_arr self;
     segmented_img_arr := segmented_img_arr self; pointmap := pointmap self;
     mask_arr := mask_arr self; rois := rois self;
     file_view := file_view self |}.

Definition set_self_name (v : string) (self : Builder) : Builder :=
  {| build_start_time := build_start_time self; dest_path := dest_path self;
     self_name := v; jsons_p := jsons_p self; maps_p := maps_p self;
     imgs_p := imgs_p self; jsons := jsons self; maps := maps self;
     imgs := imgs self; self_length := self_length self;
     ang_arr := ang_arr self; pos_arr := pos_arr self;
     depth_scale := depth_scale self; intrin_depth := intrin_depth self;
     intrin_color := intrin_color self; img_height := img_height self;
     img_width := img_width self; orig_img_arr := orig_img_arr self;
     depthmap_arr := depthmap_arr self;
     segmented_img_arr := segmented_img_arr self; pointmap := pointmap self;
     mask_arr := mask_arr self; rois := rois self;
     file_view := file_view self |}.

Definition set_jsons_p (v : list string) (self : Builder) : Builder :=
  {| build_start_time := build_start_time self; dest_path := dest_path self;
     self_name := self_name self; jsons_p := v; maps_p := maps_p self;
     imgs_p := imgs_p self; jsons := jsons self; maps := maps self;
     imgs := imgs self; self_length := self_length self;
     ang_arr := ang_arr self; pos_arr := pos_arr self;
     depth_scale := depth_scale self; intrin_depth := intrin_depth self;
     intrin_color := intrin_color self; img_height := img_height self;
     img_width := img_width self; orig_img_arr := orig_img_arr self;
     depthmap_arr := depthmap_arr self;
     segmented_img_arr := segmented_img_arr self; pointmap := pointmap self;
     mask_arr := mask_arr self; rois := rois self;
     file_view := file_view self |}.

Definition set_maps_p (v : list string) (self : Builder) : Builder :=
  {| build_start_time := build_start_time self; dest_path := dest_path self;
     self_name := self_name self; jsons_p := jsons_p self; maps_p := v;
     imgs_p := imgs_p self; jsons := jsons self; maps := maps self;
     imgs := imgs self; self_length := self_length self;
     ang_arr := ang_arr self; pos_arr := pos_arr self;
     depth_scale := depth_scale self; intrin_depth := intrin_depth self;
     intrin_color := intrin_color self; img_height := img_height self;
     img_width := img_width self; orig_img_arr := orig_img_arr self;
     depthmap_arr := depthmap_arr self;
     segmented_img_arr := segmented_img_arr self; pointmap := pointmap self;
     mask_arr := mask_arr self; rois := rois self;
     file_view := file_view self |}.

Definition set_imgs_p (v : list string) (self : Builder) : Builder :=
  {| build_start_time := build_start_time self; dest_path := dest_path self;
     self_name := self_name self; jsons_p := jsons_p self;
     maps_p := maps_p self; imgs_p := v; jsons := jsons self;
     maps := maps self; imgs := imgs self; self_length := self_length self;
     ang_arr := ang_arr self; pos_arr := pos_arr self;
     depth_scale := depth_scale self; intrin_depth := intrin_depth self;
     intrin_color := intrin_color self; img_height := img_height self;
     img_width := img_width self; orig_img_arr := orig_img_arr self;
     depthmap_arr := depthmap_arr self;
     segmented_img_arr := segmented_img_arr self; pointmap := pointmap self;
     mask_arr := mask_arr self; rois := rois self;
     file_view := file_view self |}.

Definition set_jsons (v : list string) (self : Builder) : Builder :=
  {| build_start_time := build_start_time self; dest_path := dest_path self;
     self_name := self_name self; jsons_p := jsons_p self;
     maps_p := maps_p self; imgs_p := imgs_p self; jsons := v;
     maps := maps self; imgs := imgs self; self_length := self_length self;
     ang_arr := ang_arr self; pos_arr := pos_arr self;
     depth_scale := depth_scale self; intrin_depth := intrin_depth self;
     intrin_color := intrin_color self; img_height := img_height self;
     img_width := img_width self; orig_img_arr := orig_img_arr self;
     depthmap_arr := depthmap_arr self;
     segmented_img_arr := segmented_img_arr self; pointmap := pointmap self;
     mask_arr := mask_arr self; rois := rois self;
     file_view := file_view self |}.

Definition set_maps (v : list string) (self : Builder) : Builder :=
  {| build_start_time := build_start_time self; dest_path := dest_path self;
     self_name := self_name self; jsons_p := jsons_p self;
     maps_p := maps_p self; imgs_p := imgs_p self; jsons := jsons self;
     maps := v; imgs := imgs self; self_length := self_length self;
     ang_arr := ang_arr self; pos_arr := pos_arr self;
     depth_scale := depth_scale self; intrin_depth := intrin_depth self;
     intrin_color := intrin_color self; img_height := img_height self;
     img_width := img_width self; orig_img_arr := orig_img_arr self;
     depthmap_arr := depthmap_arr self;
     segmented_img_arr := segmented_img_arr self; pointmap := pointmap self;
     mask_arr := mask_arr self; rois := rois self;
     file_view := file_view self |}.

Definition set_imgs (v : list string) (self : Builder) : Builder :=
  {| build_start_time := build_start_time self; dest_path := dest_path self;
     self_name := self_name self; jsons_p := jsons_p self;
     maps_p := maps_p self; imgs_p := imgs_p self; jsons := jsons self;
     maps := maps self; imgs := v; self_length := self_length self;
     ang_arr := ang_arr self; pos_arr := pos_arr self;
     depth_scale := depth_scale self; intrin_depth := intrin_depth self;
     intrin_color := intrin_color self; img_height := img_height self;
     img_width := img_width self; orig_img_arr := orig_img_arr self;
     depthmap_arr := depthmap_arr self;
     segmented_img_arr := segmented_img_arr self; pointmap := pointmap self;
     mask_arr := mask_arr self; rois := rois self;
     file_view := file_view self |}.

Definition set_self_length (v : nat) (self : Builder) : Builder :=
  {| build_start_time := build_start_time self; dest_path := dest_path self;
     self_name := self_name self; jsons_p := jsons_p self;
     maps_p := maps_p self; imgs_p := imgs_p self; jsons := jsons self;
     maps := maps self; imgs := imgs self; self_length := v;
     ang_arr := ang_arr self; pos_arr := pos_arr self;
     depth_scale := depth_scale self; intrin_depth := intrin_depth self;
     intrin_color := intrin_color self; img_height := img_height self;
     img_width := img_width self; orig_img_arr := orig_img_arr self;
     depthmap_arr := depthmap_arr self;
     segmented_img_arr := segmented_img_arr self; pointmap := pointmap self;
     mask_arr := mask_arr self; rois := rois self;
     file_view := file_view self |}.

Definition set_ang_arr (v : list ndarray) (self : Builder) : Builder :=
  {| build_start_time := build_start_time self; dest_path := dest_path self;
     self_name := self_name self; jsons_p := jsons_p self;
     maps_p := maps_p self; imgs_p := imgs_p self; jsons := jsons self;
     maps := maps self; imgs := imgs self; self_length := self_length self;
     ang_arr := v; pos_arr := pos_arr self; depth_scale := depth_scale self;
     intrin_depth := intrin_depth self; intrin_color := intrin_color self;
     img_height := img_height self; img_width := img_width self;
     orig_img_arr := orig_img_arr self; depthmap_arr := depthmap_arr self;
     segmented_img_arr := segmented_img_arr self; pointmap := pointmap self;
     mask_arr := mask_arr self; rois := rois self;
     file_view := file_view self |}.

Definition set_pos_arr (v : list ndarray) (self : Builder) : Builder :=
  {| build_start_time := build_start_time self; dest_path := dest_path self;
     self_name := self_name self; jsons_p := jsons_p self;
     maps_p := maps_p self; imgs_p := imgs_p self; jsons := jsons self;
     maps := maps self; imgs := imgs self; self_length := self_length self;
     ang_arr := ang_arr self; pos_arr := v; depth_scale := depth_scale self;
     intrin_depth := intrin_depth self; intrin_color := intrin_color self;
     img_height := img_height self; img_width := img_width self;
     orig_img_arr := orig_img_arr self; depthmap_arr := depthmap_arr self;
     segmented_img_arr := segmented_img_arr self; pointmap := pointmap self;
     mask_arr := mask_arr self; rois := rois self;
     file_view := file_view self |}.

Definition set_depth_scale (v : attr_val scalar) (self : Builder) : Builder :=
  {| build_start_time := build_start_time self; dest_path := dest_path self;
     self_name := self_name self; jsons_p := jsons_p self;
     maps_p := maps_p self; imgs_p := imgs_p self; jsons := jsons self;
     maps := maps self; imgs := imgs self; self_length := self_length self;
     ang_arr := ang_arr self; pos_arr := pos_arr self; depth_scale := v;
     intrin_depth := intrin_depth self; intrin_color := intrin_color self;
     img_height := img_height self; img_width := img_width self;
     orig_img_arr := orig_img_arr self; depthmap_arr := depthmap_arr self;
     segmented_img_arr := segmented_img_arr self; pointmap := pointmap self;
     mask_arr := mask_arr self; rois := rois self;
     file_view := file_view self |}.

Definition set_intrin_depth (v : attr_val scalar) (self : Builder) : Builder :=
  {| build_start_time := build_start_time self; dest_path := dest_path self;
     self_name := self_name self; jsons_p := jsons_p self;
     maps_p := maps_p self; imgs_p := imgs_p self; jsons := jsons self;
     maps := maps self; imgs := imgs self; self_length := self_length self;
     ang_arr := ang_arr self; pos_arr := pos_arr self;
     depth_scale := depth_scale self; intrin_depth := v;
     intrin_color := intrin_color self; img_height := img_height self;
     img_width := img_width self; orig_img_arr := orig_img_arr self;
     depthmap_arr := depthmap_arr self;
     segmented_img_arr := segmented_img_arr self; pointmap := pointmap self;
     mask_arr := mask_arr self; rois := rois self;
     file_view := file_view self |}.

Definition set_intrin_color (v : attr_val scalar) (self : Builder) : Builder :=
  {| build_start_time := build_start_time self; dest_path := dest_path self;
     self_name := self_name self; jsons_p := jsons_p self;
     maps_p := maps_p self; imgs_p := imgs_p self; jsons := jsons self;
     maps := maps self; imgs := imgs self; self_length := self_length self;
     ang_arr := ang_arr self; pos_arr := pos_arr self;
     depth_scale := depth_scale self; intrin_depth := intrin_depth self;
     intrin_color := v; img_height := img_height self;
     img_width := img_width self; orig_img_arr := orig_img_arr self;
     depthmap_arr := depthmap_arr self;
     segmented_img_arr := segmented_img_arr self; pointmap := pointmap self;
     mask_arr := mask_arr self; rois := rois self;
     file_view := file_view self |}.

Definition set_img_height (v : nat) (self : Builder) : Builder :=
  {| build_start_time := build_start_time self; dest_path := dest_path self;
     self_name := self_name self; jsons_p := jsons_p self;
     maps_p := maps_p self; imgs_p := imgs_p self; jsons := jsons self;
     maps := maps self; imgs := imgs self; self_length := self_length self;
     ang_arr := ang_arr self; pos_arr := pos_arr self;
     depth_scale := depth_scale self; intrin_depth := intrin_depth self;
     intrin_color := intrin_color self; img_height := v;
     img_width := img_width self; orig_img_arr := orig_img_arr self;
     depthmap_arr := depthmap_arr self;
     segmented_img_arr := segmented_img_arr self; pointmap := pointmap self;
     mask_arr := mask_arr self; rois := rois self;
     file_view := file_view self |}.

Definition set_img_width (v : nat) (self : Builder) : Builder :=
  {| build_start_time := build_start_time self; dest_path := dest_path self;
     self_name := self_name self; jsons_p := jsons_p self;
     maps_p := maps_p self; imgs_p := imgs_p self; jsons := jsons self;
     maps := maps self; imgs := imgs self; self_length := self_length self;
     ang_arr := ang_arr self; pos_arr := pos_arr self;
     depth_scale := depth_scale self; intrin_depth := intrin_depth self;
     intrin_color := intrin_color self; img_height := img_height self;
     img_width := v; orig_img_arr := orig_img_arr self;
     depthmap_arr := depthmap_arr self;
     segmented_img_arr := segmented_img_arr self; pointmap := pointmap self;
     mask_arr := mask_arr self; rois := rois self;
     file_view := file_view self |}.

Definition set_orig_img_arr (v : list ndarray) (self : Builder) : Builder :=
  {| build_start_time := build_start_time self; dest_path := dest_path self;
     self_name := self_name self; jsons_p := jsons_p self;
     maps_p := maps_p self; imgs_p := imgs_p self; jsons := jsons self;
     maps := maps self; imgs := imgs self; self_length := self_length self;
     ang_arr := ang_arr self; pos_arr := pos_arr self;
     depth_scale := depth_scale self; intrin_depth := intrin_depth self;
     intrin_color := intrin_color self; img_height := img_height self;
     img_width := img_width self; orig_img_arr := v;
     depthmap_arr := depthmap_arr self;
     segmented_img_arr := segmented_img_arr self; pointmap := pointmap self;
     mask_arr := mask_arr self; rois := rois self;
     file_view := file_view self |}.

Definition set_depthmap_arr (v : list ndarray) (self : Builder) : Builder :=
  {| build_start_time := build_start_time self; dest_path := dest_path self;
     self_name := self_name self; jsons_p := jsons_p self;
     maps_p := maps_p self; imgs_p := imgs_p self; jsons := jsons self;
     maps := maps self; imgs := imgs self; self_length := self_length self;
     ang_arr := ang_arr self; pos_arr := pos_arr self;
     depth_scale := depth_scale self; intrin_depth := intrin_depth self;
     intrin_color := intrin_color self; img_height := img_height self;
     img_width := img_width self; orig_img_arr := orig_img_arr self;
     depthmap_arr := v; segmented_img_arr := segmented_img_arr self;
     pointmap := pointmap self; mask_arr := mask_arr self; rois := rois self;
     file_view := file_view self |}.

Definition set_segmented_img_arr (v : list ndarray) (self : Builder) : Builder :=
  {| build_start_time := build_start_time self; dest_path := dest_path self;
     self_name := self_name self; jsons_p := jsons_p self;
     maps_p := maps_p self; imgs_p := imgs_p self; jsons := jsons self;
     maps := maps self; imgs := imgs self; self_length := self_length self;
     ang_arr := ang_arr self; pos_arr := pos_arr self;
     depth_scale := depth_scale self; intrin_depth := intrin_depth self;
     intrin_color := intrin_color self; img_height := img_height self;
     img_width := img_width self; orig_img_arr := orig_img_arr self;
     depthmap_arr := depthmap_arr self; segmented_img_arr := v;
     pointmap := pointmap self; mask_arr := mask_arr self; rois := rois self;
     file_view := file_view self |}.

Definition set_pointmap (v : list ndarray) (self : Builder) : Builder :=
  {| build_start_time := build_start_time self; dest_path := dest_path self;
     self_name := self_name self; jsons_p := jsons_p self;
     maps_p := maps_p self; imgs_p := imgs_p self; jsons := jsons self;
     maps := maps self; imgs := imgs self; self_length := self_length self;
     ang_arr := ang_arr self; pos_arr := pos_arr self;
     depth_scale := depth_scale self; intrin_depth := intrin_depth self;
     intrin_color := intrin_color self; img_height := img_height self;
     img_width := img_width self; orig_img_arr := orig_img_arr self;
     depthmap_arr := depthmap_arr self;
     segmented_img_arr := segmented_img_arr self; pointmap := v;
     mask_arr := mask_arr self; rois := rois self;
     file_view := file_view self |}.

Definition set_mask_arr (v : list ndarray) (self : Builder) : Builder :=
  {| build_start_time := build_start_time self; dest_path := dest_path self;
     self_name := self_name self; jsons_p := jsons_p self;
     maps_p := maps_p self; imgs_p := imgs_p self; jsons := jsons self;
     maps := maps self; imgs := imgs self; self_length := self_length self;
     ang_arr := ang_arr self; pos_arr := pos_arr self;
     depth_scale := depth_scale self; intrin_depth := intrin_depth self;
     intrin_color := intrin_color self; img_height := img_height self;
     img_width := img_width self; orig_img_arr := orig_img_arr self;
     depthmap_arr := depthmap_arr self;
     segmented_img_arr := segmented_img_arr self; pointmap := pointmap self;
     mask_arr := v; rois := rois self; file_view := file_view self |}.

Definition set_rois (v : list ndarray) (self : Builder) : Builder :=
  {| build_start_time := build_start_time self; dest_path := dest_path self;
     self_name := self_name self; jsons_p := jsons_p self;
     maps_p := maps_p self; imgs_p := imgs_p self; jsons := jsons self;
     maps := maps self; imgs := imgs self; self_length := self_length self;
     ang_arr := ang_arr self; pos_arr := pos_arr self;
     depth_scale := depth_scale self; intrin_depth := intrin_depth self;
     intrin_color := intrin_color self; img_height := img_height self;
     img_width := img_width self; orig_img_arr := orig_img_arr self;
     depthmap_arr := depthmap_arr self;
     segmented_img_arr := segmented_img_arr self; pointmap := pointmap self;
     mask_arr := mask_arr self; rois := v; file_view := file_view self |}.

Definition set_file_view (v : option h5view) (self : Builder) : Builder :=
  {| build_start_time := build_start_time self; dest_path := dest_path self;
     self_name := self_name self; jsons_p := jsons_p self;
     maps_p := maps_p self; imgs_p := imgs_p self; jsons := jsons self;
     maps := maps self; imgs := imgs self; self_length := self_length self;
     ang_arr := ang_arr self; pos_arr := pos_arr self;
     depth_scale := depth_scale self; intrin_depth := intrin_depth self;
     intrin_color := intrin_color self; img_height := img_height self;
     img_width := img_width self; orig_img_arr := orig_img_arr self;
     depthmap_arr := depthmap_arr self;
     segmented_img_arr := segmented_img_arr self; pointmap := pointmap self;
     mask_arr := mask_arr self; rois := rois self; file_view := v |}.

(** Setters of the container file and of the disk. *)
Definition set_attrs (v : gmap string (attr_val scalar)) (f : h5file) : h5file :=
  {| attrs := v; groups := groups f; arrays := arrays f; strings := strings f;
     array_attrs := array_attrs f |}.
Definition set_groups (v : gset string) (f : h5file) : h5file :=
  {| attrs := attrs f; groups := v; arrays := arrays f; strings := strings f;
     array_attrs := array_attrs f |}.
Definition set_arrays (v : gmap string (list ndarray)) (f : h5file) : h5file :=
  {| attrs := attrs f; groups := groups f; arrays := v; strings := strings f;
     array_attrs := array_attrs f |}.
Definition set_strings (v : gmap string (list string)) (f : h5file) : h5file :=
  {| attrs := attrs f; groups := groups f; arrays := arrays f; strings := v;
     array_attrs := array_attrs f |}.
Definition set_array_attrs (v : gmap (string * string) (attr_val scalar))
    (f : h5file) : h5file :=
  {| attrs := attrs f; groups := groups f; arrays := arrays f;
     strings := strings f; array_attrs := v |}.

Definition set_dirs (v : gset string) (d : disk) : disk :=
  {| dirs := v; h5 := h5 d; videos := videos d |}.
Definition set_h5 (v : gmap string h5file) (d : disk) : disk :=
  {| dirs := dirs d; h5 := v; videos := videos d |}.
Definition set_videos (v : gmap string video) (d : disk) : disk :=
  {| dirs := dirs d; h5 := h5 d; videos := v |}.

(** ** h5py

    [h5py.File(path, 'a')] opens the file read-write when it exists and
    creates it otherwise; [h5py.File(path, 'r')] needs the file to exist.
    Writes go to the file as they are made. [create_dataset] and
    [create_group] raise when the name is already linked in the file;
    assigning an attribute replaces it. *)

Definition with_File_a {A} (path : string) (body : H5 A) : M A := fun d =>
  let file := default h5_empty (h5 d !! path) in
  let '(r, file') := body file in
  (r, set_h5 (<[path := file']> (h5 d)) d).

Definition File_r (path : string) : M h5file := fun d =>
  (h5 d !! path ?! FileNotFoundError path, d).

Definition attrs_setitem (k : string) (v : attr_val scalar) : H5 unit :=
  st_modify (fun f => set_attrs (<[k := v]> (attrs f)) f).

Definition attrs_getitem (f : h5file) (k : string) : result (attr_val scalar) :=
  attrs f !! k ?! KeyError k.

Definition name_exists (k : string) (f : h5file) : bool :=
  bool_decide (k ∈ groups f) || bool_decide (is_Some (arrays f !! k))
  || bool_decide (is_Some (strings f !! k)).

Definition create_group (k : string) : H5 unit := fun f =>
  if name_exists k f
  then (Err (ValueError "Unable to create group (name already exists)"), f)
  else (Ok tt, set_groups ({[k]} ∪ groups f) f).

Definition create_dataset (k : string) (data : list ndarray) : H5 unit := fun f =>
  if name_exists k f
  then (Err (ValueError "Unable to create dataset (name already exists)"), f)
  else (Ok tt, set_arrays (<[k := data]> (arrays f)) f).

(** [create_dataset(k, data = np.array(data, dtype = h5py.string_dtype()))]. *)
Definition create_string_dataset (k : string) (data : list string) : H5 unit :=
  fun f =>
  if name_exists k f
  then (Err (ValueError "Unable to create dataset (name already exists)"), f)
  else (Ok tt, set_strings (<[k := data]> (strings f)) f).

Definition dataset_attrs_setitem (ds k : string) (v : attr_val scalar) : H5 unit :=
  st_modify (fun f => set_array_attrs (<[(ds, k) := v]> (array_attrs f)) f).

(** [file[k]] for a numeric dataset and for a dataset of strings. *)
Definition file_getitem (f : h5file) (k : string) : result (list ndarray) :=
  arrays f !! k ?! KeyError k.
Definition file_getitem_str (f : h5file) (k : string) : result (list string) :=
  strings f !! k ?! KeyError k.

(** [arr[idxs]] with a list of indices: the rows at these indices, in the
    order of the list. *)
Fixpoint take_rows {A} (arr : list A) (idxs : list nat) : result (list A) :=
  match idxs with
  | [] => Ok []
  | i :: idxs' =>
      x ← getitem arr i;
      rest ← take_rows arr idxs';
      Ok (x :: rest)
  end.

(** [np.vstack((a, b))] of two arrays of one axis, as the path manifests
    are: the array of the two rows [a] and [b]; numpy raises when their
    lengths differ. *)
Definition np_vstack_1d {A} (a b : list A) : result (list (list A)) :=
  if decide (length a = length b) then Ok [a; b]
  else Err (ValueError
              "all the input array dimensions except for the concatenation axis must match exactly").

(** The truth value of [a == b], as [assert a == b] takes it. Two scalars
    of one kind compare as Python does. Two arrays of the same length
    compare element by element: numpy gives an array of booleans, whose
    truth value is that of its element when it has one and raises
    [ValueError] when it has more. *)
Definition py_eq_truth (a b : attr_val scalar) : result bool :=
  match a, b with
  | AStr x, AStr y => Ok (bool_decide (x = y))
  | AInt x, AInt y => Ok (bool_decide (x = y))
  | AFloat x, AFloat y => Ok (bool_decide (x = y))
  | AShape l1, AShape l2 =>
      if decide (length l1 = length l2) then
        match l1 with
        | [] => np_eq_other a b
        | [_] => Ok (bool_decide (l1 = l2))
        | _ :: _ :: _ =>
            Err (ValueError
                   "The truth value of an array with more than one element is ambiguous. Use a.any() or a.all()")
        end
      else np_eq_other a b
  | _, _ => np_eq_other a b
  end.

(** ** The [Builder] methods *)

(** [save_video(path, img_arr)]: the frames go to the writer, in order.
    When the writer could not be opened nothing is written and the disk is
    as before. *)
Definition save_video (path : string) (img_arr : list ndarray) : M unit :=
  st_modify (fun d =>
    match cv2_VideoWriter path img_arr with
    | Some v => set_videos (<[path := v]> (videos d)) d
    | None => d
    end).

Definition _set_dest_path (self : Builder) (data_path : string)
    (name : option string) : M Builder :=
  let name :=
    match name with
    | None => os_path_basename (os_path_normpath data_path)
    | Some n => n
    end in
  let self := set_dest_path (os_path_join DATASETS name) self in
  let self := set_self_name name self in
  d ← st_get;
  (if decide (dest_path self ∈ dirs d) then mret tt
   else st_modify (fun d => set_dirs ({[dest_path self]} ∪ dirs d) d));;
  mret self.

(** [[os.path.join(r,x) for r,d,y in os.walk(data_path) for x in y
     if x.endswith(ext)]]. *)
Definition walk_files (cap : capture) (ext : string) : list string :=
  '(r, d, y) ← os_walk cap;
  os_path_join r <$> filter (fun x => endswith ext x) y.

Definition _get_filepaths_from_data_dir (cap : capture) (self : Builder)
    (data_path : string) : result Builder :=
  let self := set_jsons_p (walk_files cap ".json") self in
  let self := set_maps_p (walk_files cap ".npy") self in
  let self := set_imgs_p (walk_files cap ".png") self in
  let self := set_jsons (str_replace data_path "" <$> jsons_p self) self in
  let self := set_maps (str_replace data_path "" <$> maps_p self) self in
  let self := set_imgs (str_replace data_path "" <$> imgs_p self) self in
  let self := set_self_length (length (imgs self)) self in
  py_assert
    (bool_decide (length (jsons self) = length (maps self)) &&
     bool_decide (length (maps self) = self_length self))
    "Unequal number of images, jsons, or maps";;
  Ok self.

(** [arr[idx, sub_idx] = v]. *)
Definition setitem2 (arr : list ndarray) (idx sub_idx : nat) (v : ndarray)
    : result (list ndarray) :=
  row ← getitem arr idx;
  row' ← np_setitem row sub_idx v ?! ValueError "setting an array element";
  setitem arr idx row'.

(** [arr[idx] = v]. *)
Definition setrow (arr : list ndarray) (idx : nat) (v : ndarray)
    : result (list ndarray) :=
  slot ← getitem arr idx;
  row ← np_assign slot v ?! ValueError "could not broadcast input array";
  setitem arr idx row.

(** The three sets of camera settings of [_load_json_data]. *)
Record camera_sets := {
  seen_depth_scale : gset scalar;
  seen_intrin_depth : gset string;
  seen_intrin_color : gset string;
}.

(** [s.pop()]. *)
Definition set_pop `{Countable A} (s : gset A) : result A :=
  head (elements s) ?! KeyError "pop from an empty set".

(** The body of the loop over the JSON files. *)
Definition parse_json (cap : capture) (ip : nat * string)
    (st : Builder * camera_sets) : result (Builder * camera_sets) :=
  let '(idx, path) := ip in
  let '(self, cams) := st in
  d ← json_files cap !! path ?! FileNotFoundError path;
  let cams :=
    {| seen_depth_scale := {[rs_depth_scale d]} ∪ seen_depth_scale cams;
       seen_intrin_depth := {[rs_intrin_depth d]} ∪ seen_intrin_depth cams;
       seen_intrin_color := {[rs_intrin_color d]} ∪ seen_intrin_color cams |} in
  self ← for_each (py_range 0 6) (fun sub_idx self =>
      j ← getitem (joints d) sub_idx;
      ang ← setitem2 (ang_arr self) idx sub_idx (angle j);
      let self := set_ang_arr ang self in
      pos ← setitem2 (pos_arr self) idx sub_idx (position j);
      Ok (set_pos_arr pos self)) self;
  Ok (self, cams).

(** Lines 79-98 of [_load_json_data]: the allocation and the loop. *)
Definition parse_jsons (cap : capture) (self : Builder)
    : result (Builder * camera_sets) :=
  let self :=
    set_ang_arr (replicate (self_length self) (np_zeros [6] float_)) self in
  let self :=
    set_pos_arr (replicate (self_length self) (np_zeros [6; 3] float_)) self in
  let cams :=
    {| seen_depth_scale := ∅; seen_intrin_depth := ∅; seen_intrin_color := ∅ |} in
  for_each (zip (py_range 0 (self_length self)) (jsons_p self))
    (parse_json cap) (self, cams).

Definition _load_json_data (cap : capture) (self : Builder) : result Builder :=
  '(self, cams) ← parse_jsons cap self;
  py_assert
    (bool_decide (size (seen_depth_scale cams) = size (seen_intrin_depth cams)) &&
     bool_decide (size (seen_intrin_depth cams) = size (seen_intrin_color cams)) &&
     bool_decide (size (seen_intrin_color cams) = 1))
    "Camera settings must be uniform over the dataset.";;
  ds ← set_pop (seen_depth_scale cams);
  idp ← set_pop (seen_intrin_depth cams);
  icl ← set_pop (seen_intrin_color cams);
  Ok (set_intrin_color (AStr icl)
        (set_intrin_depth (AStr idp) (set_depth_scale (AFloat ds) self))).

(** [cv2.imread(path)] gives [None] for a file it cannot read. *)
Definition imread (cap : capture) (path : string) : option ndarray :=
  png_files cap !! path.

Definition np_load (cap : capture) (path : string) : result ndarray :=
  npy_files cap !! path ?! FileNotFoundError path.

Definition _load_imgs_and_depthmaps (cap : capture) (self : Builder)
    : result Builder :=
  path0 ← getitem (imgs_p self) 0;
  img ← imread cap path0 ?! TypeError "'NoneType' object has no attribute 'shape'";
  '(h, w) ← match np_shape img with
            | h :: w :: _ => Ok (h, w)
            | _ => Err (ValueError "not enough values to unpack")
            end;
  let self := set_img_width w (set_img_height h self) in
  let self :=
    set_orig_img_arr (replicate (self_length self) (np_zeros [h; w; 3] uint8))
      self in
  let self :=
    set_depthmap_arr (replicate (self_length self) (np_zeros [h; w] float64))
      self in
  self ← for_each (zip (py_range 0 (self_length self)) (imgs_p self))
    (fun '(idx, path) self =>
       img ← imread cap path ?! TypeError "cannot store None in an array";
       arr ← setrow (orig_img_arr self) idx img;
       Ok (set_orig_img_arr arr self)) self;
  self ← for_each (zip (py_range 0 (self_length self)) (maps_p self))
    (fun '(idx, path) self =>
       map ← np_load cap path;
       arr ← setrow (depthmap_arr self) idx map;
       Ok (set_depthmap_arr arr self)) self;
  arr ← for_each (depthmap_arr self) (fun row acc =>
       row' ← np_imul row (depth_scale self) ?! TypeError "unsupported operand";
       Ok (acc ++ [row'])) [];
  Ok (set_depthmap_arr arr self).

(** *** The cropping pool *)

(** [Pool.starmap] cuts its input into chunks, hands the chunks to the
    workers and puts the results of each chunk at the place of the chunk.
    The chunk size is the one [multiprocessing] takes when none is given. *)
Fixpoint chunks_of {A} (fuel size : nat) (l : list A) : list (list A) :=
  match fuel with
  | 0 => []
  | S fuel' =>
      match l with
      | [] => []
      | _ :: _ => take size l :: chunks_of fuel' size (drop size l)
      end
  end.

Definition pool_chunksize (workers len : nat) : nat :=
  let chunksize := len / (workers * 4) in
  if decide (len mod (workers * 4) = 0) then chunksize else S chunksize.

Definition pool_starmap {A B} (workers : nat) (f : A -> B) (inputs : list A)
    : result (list B) :=
  if decide (workers < 1)
  then Err (ValueError "Number of processes must be at least 1")
  else
    let size := pool_chunksize workers (length inputs) in
    Ok (concat (map (map f) (chunks_of (length inputs) size inputs))).

(** [crop] applied to one tuple of [crop_inputs], as [starmap] does. *)
Definition crop_args (args : ndarray * ndarray * ndarray * ndarray)
    : ndarray * ndarray :=
  let '(depthmap, img, mask, roi) := args in crop depthmap img mask roi.

(** The tuple of frame [idx]. *)
Definition crop_input (self : Builder) (idx : nat)
    : result (ndarray * ndarray * ndarray * ndarray) :=
  depthmap ← getitem (depthmap_arr self) idx;
  img ← getitem (orig_img_arr self) idx;
  mask ← getitem (mask_arr self) idx;
  roi ← getitem (rois self) idx;
  Ok (depthmap, img, mask, roi).

(** One batch: the inputs of the frames [start .. start+batch_size-1], the
    pool, and the outputs written back at [start + offset]. *)
Definition crop_batch (workers : nat) (self : Builder) (start batch_size : nat)
    : result Builder :=
  crop_inputs ← for_each (py_range start (start + batch_size))
    (fun idx acc => args ← crop_input self idx; Ok (acc ++ [args])) [];
  crop_outputs ← pool_starmap workers crop_args crop_inputs;
  for_each (py_range start (start + batch_size))
    (fun idx self =>
       out ← getitem crop_outputs (idx - start);
       seg ← setrow (segmented_img_arr self) idx out.1;
       let self := set_segmented_img_arr seg self in
       pm ← setrow (pointmap self) idx out.2;
       Ok (set_pointmap pm self)) self.

(** The loop over the batch starts; [batch_size] is a variable of the
    enclosing function that the last batch shortens. *)
Fixpoint crop_batches (workers : nat) (starts : list nat) (batch_size : nat)
    (self : Builder) : result Builder :=
  match starts with
  | [] => Ok self
  | start :: starts' =>
      let batch_size :=
        if decide (self_length self <= start + batch_size)
        then self_length self - start
        else batch_size in
      self ← crop_batch workers self start batch_size;
      crop_batches workers starts' batch_size self
  end.

(** Lines 124-135: the arrays are allocated and the segmenter runs on
    every frame. *)
Definition segment_frames (self : Builder) : result Builder :=
  let n := self_length self in
  let self :=
    set_segmented_img_arr
      (replicate n (np_zeros [segmenter_height; segmenter_width; 3] uint8))
      self in
  let self :=
    set_pointmap
      (replicate n (np_zeros [segmenter_height; segmenter_width; 3] float64))
      self in
  let self :=
    set_mask_arr
      (replicate n (np_zeros [img_height self; img_width self] bool_)) self in
  let self := set_rois (replicate n (np_zeros [4] float_)) self in
  self ← for_each (py_range 0 n) (fun idx self =>
      img ← getitem (orig_img_arr self) idx;
      let '(mask, roi) := segmentImage img in
      masks ← setrow (mask_arr self) idx mask;
      let self := set_mask_arr masks self in
      rs ← setrow (rois self) idx roi;
      Ok (set_rois rs self)) self;
  Ok (set_rois (np_astype_int <$> rois self) self).

(** [_segment_images_and_maps] with the batch size and the number of
    workers as arguments; the method itself takes 100 and
    [workerCount()]. *)
Definition segment_images_and_maps_with (batch_size workers : nat)
    (self : Builder) : result Builder :=
  self ← segment_frames self;
  starts ← py_range3 0 (self_length self) batch_size;
  crop_batches workers starts batch_size self.

Definition _segment_images_and_maps (self : Builder) : result Builder :=
  segment_images_and_maps_with 100 workerCount self.

(** The sequential cropping the batched one is compared with: [crop] on
    the inputs of every frame, in frame order. *)
Definition crop_sequential (depthmaps imgs masks rs : list ndarray)
    : list (ndarray * ndarray) :=
  crop_args <$> zip (zip (zip depthmaps imgs) masks) rs.

(** The inputs of all frames, as [crop_inputs] would hold them with one
    batch for the whole capture. *)
Definition inputs_of (self : Builder)
    : list (ndarray * ndarray * ndarray * ndarray) :=
  zip (zip (zip (depthmap_arr self) (orig_img_arr self)) (mask_arr self))
    (rois self).

(** [self] with the two output arrays of the cropping stage set. *)
Definition with_outputs (seg pm : list ndarray) (self : Builder) : Builder :=
  set_pointmap pm (set_segmented_img_arr seg self).

(** The rows [segmented_img_arr] and [pointmap] are allocated with. *)
Definition zero_seg : ndarray :=
  np_zeros [segmenter_height; segmenter_width; 3] uint8.
Definition zero_pm : ndarray :=
  np_zeros [segmenter_height; segmenter_width; 3] float64.

(** The output arrays hold what [crop] returns: numpy stores an output of
    [crop] unchanged in a row allocated for it (the outputs have the
    resolution of the segmenter). *)
Definition crop_fits : Prop :=
  forall d i m r,
    np_assign zero_seg (crop d i m r).1 = Some (crop d i m r).1 /\
    np_assign zero_pm (crop d i m r).2 = Some (crop d i m r).2.

(** *** Writing and reading containers *)

Definition _save_reference_videos (self : Builder) : M unit :=
  save_video (os_path_join (dest_path self) "og_vid.avi") (orig_img_arr self);;
  save_video (os_path_join (dest_path self) "seg_vid.avi")
    (segmented_img_arr self).

Definition _save_full (clk : clock) (self : Builder) (ver : attr_val scalar)
    : M string :=
  let dest := os_path_join (dest_path self) (self_name self +:+ ".h5") in
  with_File_a dest (
    attrs_setitem "name" (AStr (self_name self));;
    attrs_setitem "version" ver;;
    attrs_setitem "length" (AInt (Z.of_nat (self_length self)));;
    attrs_setitem "build_date" (AStr (now_build clk));;
    attrs_setitem "compile_date" (AStr (now_compile clk));;
    attrs_setitem "compile_time"
      (AFloat (fsub (time_save clk) (build_start_time self)));;
    attrs_setitem "type" (AStr "full");;
    orig0 ← st_lift (getitem (orig_img_arr self) 0);
    attrs_setitem "original_resolution" (AShape (np_shape orig0));;
    seg0 ← st_lift (getitem (segmented_img_arr self) 0);
    attrs_setitem "segmented_resolution" (AShape (np_shape seg0));;
    attrs_setitem "depth_intrinsics" (intrin_depth self);;
    attrs_setitem "color_intrinsics" (intrin_color self);;
    attrs_setitem "depth_scale" (depth_scale self);;
    create_dataset "angles" (ang_arr self);;
    create_dataset "positions" (pos_arr self);;
    create_group "coordinates";;
    create_dataset "coordinates/depthmaps" (depthmap_arr self);;
    dataset_attrs_setitem "coordinates/depthmaps" "depth_scale"
      (depth_scale self);;
    create_dataset "coordinates/pointmaps" (pointmap self);;
    create_group "images";;
    create_dataset "images/original" (orig_img_arr self);;
    create_dataset "images/segmented" (segmented_img_arr self);;
    create_dataset "images/rois" (rois self);;
    create_group "paths";;
    create_string_dataset "paths/jsons" (jsons self);;
    create_string_dataset "paths/depthmaps" (maps self);;
    create_string_dataset "paths/images" (imgs self));;
  mret dest.

(** [_read_full(path)]. Every lookup is made while the file is open, so
    a missing attribute or dataset raises [KeyError]; the values of the
    five attributes are taken as they are. What [self] keeps of the ten
    datasets and of [file.attrs] are the h5py objects, which the end of the
    [with] block closes: see [h5view]. *)
Definition _read_full (self : Builder) (path : string) : M Builder :=
  file ← File_r path;
  st_lift (
    name ← attrs_getitem file "name";
    len ← attrs_getitem file "length";
    intrin_depth ← attrs_getitem file "depth_intrinsics";
    let self := set_intrin_depth intrin_depth self in
    intrin_color ← attrs_getitem file "color_intrinsics";
    let self := set_intrin_color intrin_color self in
    depth_scale ← attrs_getitem file "depth_scale";
    let self := set_depth_scale depth_scale self in
    file_getitem file "angles";;
    file_getitem file "positions";;
    file_getitem file "coordinates/depthmaps";;
    file_getitem file "coordinates/pointmaps";;
    file_getitem file "images/original";;
    file_getitem file "images/segmented";;
    file_getitem file "images/rois";;
    file_getitem_str file "paths/jsons";;
    file_getitem_str file "paths/depthmaps";;
    file_getitem_str file "paths/images";;
    Ok (set_file_view
          (Some {| view_path := path; view_name := name; view_length := len |})
          self)).

(** [arr[idxs]] on an attribute of [self]: the rows of the array in
    memory, or an exception when the attribute is a dataset of a closed
    file. *)
Definition self_rows {A} (self : Builder) (arr : list A) (idxs : list nat)
    : result (list A) :=
  match file_view self with
  | Some _ => Err (ValueError "Invalid dataset identifier")
  | None => take_rows arr idxs
  end.

(** [file.attrs = self.attrs]: [attrs] is a property of [h5py.File] without
    a setter, so the assignment raises [AttributeError] whatever
    [self.attrs] is. *)
Definition file_attrs_assign : H5 unit :=
  st_lift (Err (AttributeError "can't set attribute")).

(** [_write_subset(path, sub_type, idxs)]; [now] is
    [str(datetime.datetime.now())]. The file is opened, and created when it
    does not exist, before the first statement of the block raises; the
    statements after it are not reached. *)
Definition _write_subset (now : string) (self : Builder) (path sub_type : string)
    (idxs : list nat) : M unit :=
  with_File_a path (
    file_attrs_assign;;
    attrs_setitem "length" (AInt (Z.of_nat (length idxs)));;
    attrs_setitem "compile_date" (AStr now);;
    attrs_setitem "compile_time" (AInt 0);;
    attrs_setitem "type" (AStr sub_type);;
    (st_lift (self_rows self (ang_arr self) idxs) ≫= create_dataset "angles");;
    (st_lift (self_rows self (pos_arr self) idxs) ≫= create_dataset "positions");;
    create_group "coordinates";;
    (st_lift (self_rows self (depthmap_arr self) idxs)
       ≫= create_dataset "coordinates/depthmaps");;
    dataset_attrs_setitem "coordinates/depthmaps" "depth_scale"
      (depth_scale self);;
    (st_lift (self_rows self (pointmap self) idxs)
       ≫= create_dataset "coordinates/pointmaps");;
    create_group "images";;
    (st_lift (self_rows self (orig_img_arr self) idxs)
       ≫= create_dataset "images/original");;
    (st_lift (self_rows self (segmented_img_arr self) idxs)
       ≫= create_dataset "images/segmented");;
    (st_lift (self_rows self (rois self) idxs) ≫= create_dataset "images/rois");;
    create_group "paths";;
    (st_lift (self_rows self (jsons self) idxs)
       ≫= create_string_dataset "paths/jsons");;
    (st_lift (self_rows self (maps self) idxs)
       ≫= create_string_dataset "paths/depthmaps");;
    (st_lift (self_rows self (imgs self) idxs)
       ≫= create_string_dataset "paths/images")).

(** *** What a container holds *)

(** The names of the per-frame datasets: the numeric arrays and the path
    manifests. *)
Definition per_frame_arrays : list string :=
  ["angles"; "positions"; "coordinates/depthmaps"; "coordinates/pointmaps";
   "images/original"; "images/segmented"; "images/rois"].

Definition per_frame_paths : list string :=
  ["paths/jsons"; "paths/depthmaps"; "paths/images"].

(** Every per-frame dataset is there and has as many rows as the recorded
    [length]. *)
Definition length_invariant (f : h5file) : Prop :=
  exists n : nat,
    attrs f !! "length" = Some (AInt (Z.of_nat n)) /\
    (forall k, k ∈ per_frame_arrays ->
       exists rows, arrays f !! k = Some rows /\ length rows = n) /\
    (forall k, k ∈ per_frame_paths ->
       exists rows, strings f !! k = Some rows /\ length rows = n).

(** The per-frame datasets of [f] are the arrays of [self]. *)
Definition holds_arrays_of (f : h5file) (self : Builder) : Prop :=
  arrays f !! "angles" = Some (ang_arr self) /\
  arrays f !! "positions" = Some (pos_arr self) /\
  arrays f !! "coordinates/depthmaps" = Some (depthmap_arr self) /\
  arrays f !! "coordinates/pointmaps" = Some (pointmap self) /\
  arrays f !! "images/original" = Some (orig_img_arr self) /\
  arrays f !! "images/segmented" = Some (segmented_img_arr self) /\
  arrays f !! "images/rois" = Some (rois self) /\
  strings f !! "paths/jsons" = Some (jsons self) /\
  strings f !! "paths/depthmaps" = Some (maps self) /\
  strings f !! "paths/images" = Some (imgs self).

(** A file [_read_full] can read: it has the five attributes and the ten
    datasets. *)
Definition readable (f : h5file) : Prop :=
  (forall k, k ∈ ["name"; "length"; "depth_intrinsics"; "color_intrinsics";
                  "depth_scale"] -> is_Some (attrs f !! k)) /\
  (forall k, k ∈ per_frame_arrays -> is_Some (arrays f !! k)) /\
  (forall k, k ∈ per_frame_paths -> is_Some (strings f !! k)).

(** The disk after [h5py.File(path, 'a')] on a path: the file is created,
    empty, when it does not exist. *)
Definition with_file (path : string) (d : disk) : disk :=
  set_h5 (<[path := default h5_empty (h5 d !! path)]> (h5 d)) d.

(** The path [build_subset] writes to. *)
Definition subset_path (src sub_type : string) : string :=
  str_replace ".h5" ("_" +:+ sub_type +:+ ".h5") src.

(** The name a build takes and the path of the container it writes. *)
Definition build_name (data_path : string) (name : option string) : string :=
  match name with
  | None => os_path_basename (os_path_normpath data_path)
  | Some n => n
  end.

Definition container_path (data_path : string) (name : option string) : string :=
  os_path_join (os_path_join DATASETS (build_name data_path name))
    (build_name data_path name +:+ ".h5").

(** *** The three operations *)

Definition build_full (cap : capture) (clk : clock) (self : Builder)
    (data_path : string) (dataset_ver : attr_val scalar) (name : option string)
    : M string :=
  self ← _set_dest_path self data_path name;
  self ← st_lift (_get_filepaths_from_data_dir cap self data_path);
  self ← st_lift (_load_json_data cap self);
  self ← st_lift (_load_imgs_and_depthmaps cap self);
  self ← st_lift (_segment_images_and_maps self);
  _save_reference_videos self;;
  _save_full clk self dataset_ver.

(** The steps of [build_full] between [_set_dest_path] and the writing:
    they read the capture and do not touch the disk. *)
Definition load_frames (cap : capture) (self : Builder) (data_path : string)
    : result Builder :=
  self ← _get_filepaths_from_data_dir cap self data_path;
  self ← _load_json_data cap self;
  self ← _load_imgs_and_depthmaps cap self;
  _segment_images_and_maps self.

(** [self] after [_set_dest_path]. *)
Definition with_dest (self : Builder) (data_path : string)
    (name : option string) : Builder :=
  set_self_name (build_name data_path name)
    (set_dest_path (os_path_join DATASETS (build_name data_path name)) self).

(** Two JSON files record the same camera. *)
Definition same_camera (a b : frame_json) : Prop :=
  rs_depth_scale a = rs_depth_scale b /\
  rs_intrin_depth a = rs_intrin_depth b /\
  rs_intrin_color a = rs_intrin_color b.

(** The disk after [os.mkdir] when the directory is missing, and after the
    two reference videos. *)
Definition with_dir (path : string) (d : disk) : disk :=
  if decide (path ∈ dirs d) then d else set_dirs ({[path]} ∪ dirs d) d.

Definition with_video (path : string) (img_arr : list ndarray) (d : disk)
    : disk :=
  match cv2_VideoWriter path img_arr with
  | Some v => set_videos (<[path := v]> (videos d)) d
  | None => d
  end.

Definition with_videos (self : Builder) (d : disk) : disk :=
  with_video (os_path_join (dest_path self) "seg_vid.avi")
    (segmented_img_arr self)
    (with_video (os_path_join (dest_path self) "og_vid.avi")
       (orig_img_arr self) d).

Definition build_subset (now : string) (self : Builder) (src sub_type : string)
    (idxs : list nat) : M unit :=
  self ← _read_full self src;
  let dst := str_replace ".h5" ("_" +:+ sub_type +:+ ".h5") src in
  _write_subset now self dst sub_type idxs.

Definition weld_attributes : list string :=
  ["version"; "original_resolution"; "segmented_resolution";
   "depth_intrinsics"; "color_intrinsics"; "depth_scale"].

(** The check of one attribute in the loop of [weld]. *)
Definition weld_check (a b : h5file) (attribute : string) (_ : unit)
    : result unit :=
  va ← attrs_getitem a attribute;
  vb ← attrs_getitem b attribute;
  t ← py_eq_truth va vb;
  py_assert t (attribute +:+ " must be equal to join datasets").

(** Lines 264-280 of [weld]: the length and the stacked arrays. They are
    assigned to attributes of [self] that nothing reads before [weld]
    raises, so only their exceptions are kept. *)
Definition weld_arrays (a b : h5file) : result unit :=
  a_len ← attrs_getitem a "length";
  b_len ← attrs_getitem b "length";
  py_add a_len b_len;;
  x ← file_getitem a "angles"; y ← file_getitem b "angles";
  np_vstack x y;;
  x ← file_getitem a "positions"; y ← file_getitem b "positions";
  np_vstack x y;;
  x ← file_getitem a "coordinates/depthmaps";
  y ← file_getitem b "coordinates/depthmaps";
  np_vstack x y;;
  x ← file_getitem a "coordinates/pointmaps";
  y ← file_getitem b "coordinates/pointmaps";
  np_vstack x y;;
  x ← file_getitem a "images/original"; y ← file_getitem b "images/original";
  np_vstack x y;;
  x ← file_getitem a "images/segmented"; y ← file_getitem b "images/segmented";
  np_vstack x y;;
  x ← file_getitem a "images/rois"; y ← file_getitem b "images/rois";
  np_vstack x y;;
  x ← file_getitem_str a "paths/jsons"; y ← file_getitem_str b "paths/jsons";
  np_vstack_1d x y;;
  x ← file_getitem_str a "paths/depthmaps";
  y ← file_getitem_str b "paths/depthmaps";
  np_vstack_1d x y;;
  x ← file_getitem_str a "paths/images"; y ← file_getitem_str b "paths/images";
  np_vstack_1d x y;;
  Ok tt.

(** [weld] opens its three files for reading and never closes or writes
    them. It ends with [self._save_full()], a call without the argument
    [ver] that [_save_full(self, ver)] requires: Python raises [TypeError]
    before the body of [_save_full] runs. *)
Definition weld (self : Builder) (path_a path_b dst_dir name : string)
    : M string :=
  a ← File_r path_a;
  b ← File_r path_b;
  dst ← File_r path_a;
  st_lift (for_each weld_attributes (weld_check a b) tt);;
  st_lift (weld_arrays a b);;
  st_lift
    (Err (TypeError
            "_save_full() missing 1 required positional argument: 'ver'")).

End Building.
End Building.

(** * [robotpose/dataset.py]: validation and lookup of a compiled dataset *)

Module DatasetPy.

(** [dataset_version = 1.0]. *)
Definition dataset_version : Q := 1.

(** The content of [ds.json] as [build] writes it; [ds_ver] is absent in
    datasets compiled before versioning. *)
Record ds_info := {
  ds_ver : option Q;
  frames : nat;
}.

Inductive file_content : Type :=
  | JsonFile (d : ds_info)
  | DataFile.

(** An entry of [os.scandir]: [f.path] and [f.is_dir()]. *)
Record dir_entry := {
  entry_path : string;
  entry_is_dir : bool;
}.

(** The file system as the lookup sees it: the files by path and, for
    every directory, its entries in the order [os.scandir] yields them. *)
Record fs := {
  files : gmap string file_content;
  listing : gmap string (list dir_entry);
}.

Section Lookup.
Context `{Paths}.

(** [dataset.build], the rebuild from the raw capture. The lookup only
    calls it; it is an arbitrary operation on the file system here. *)
Variable build : string -> ST fs unit.

Definition isfile (fsys : fs) (path : string) : bool :=
  bool_decide (is_Some (files fsys !! path)).

(** [json.load(open(path))]. *)
Definition load_json (fsys : fs) (path : string) : result ds_info :=
  match files fsys !! path with
  | Some (JsonFile d) => Ok d
  | Some DataFile => Err (ValueError "Expecting value")
  | None => Err (FileNotFoundError path)
  end.

Definition validate (path : string) : ST fs bool := fun fsys =>
  let ang := isfile fsys (os_path_join path "ang.npy") in
  let ds := isfile fsys (os_path_join path "ds.json") in
  let ply := isfile fsys (os_path_join path "ply.npy") in
  let seg_img := isfile fsys (os_path_join path "seg_img.npy") in
  let og_img := isfile fsys (os_path_join path "og_img.npy") in
  let seg_vid := isfile fsys (os_path_join path "seg_vid.avi") in
  let og_vid := isfile fsys (os_path_join path "og_vid.avi") in
  match load_json fsys (os_path_join path "ds.json") with
  | Err e => (Err e, fsys)
  | Ok d =>
      match ds_ver d with
      | Some v =>
          if decide (py_int v ≠ py_int dataset_version) then (Ok false, fsys)
          else (Ok (ang && ds && ply && seg_img && og_img && seg_vid && og_vid),
                fsys)
      | None => (Ok false, fsys)
      end
  end.

(** [[f.path for f in os.scandir(d) if f.is_dir()]]. *)
Definition scan_dirs (d : string) : ST fs (list string) := fun fsys =>
  match listing fsys !! d with
  | Some entries =>
      (Ok (entry_path <$> filter (fun f => entry_is_dir f) entries), fsys)
  | None => (Err (FileNotFoundError d), fsys)
  end.

Definition dir_names (paths : list string) : list string :=
  (fun x => os_path_basename (os_path_normpath x)) <$> paths.

(** The first loop of [__init__], up to its [break]: the compiled
    datasets. The result is [self.path] and [self.name]. *)
Fixpoint search_compiled (name : string) (l : list (string * string))
    : ST fs (option (string * string)) :=
  match l with
  | [] => mret None
  | (ds, nm) :: l' =>
      if str_contains name nm then
        valid ← validate ds;
        if valid : bool then mret (Some (ds, nm))
        else
          build (os_path_join (os_path_join DATASETS "raw") nm);;
          mret (Some (ds, nm))
      else search_compiled name l'
  end.

(** The second loop: the raw captures. *)
Fixpoint search_raw (name : string) (l : list (string * string))
    : ST fs (option (string * string)) :=
  match l with
  | [] => mret None
  | (ds, nm) :: l' =>
      if str_contains name nm then
        build ds;;
        mret (Some (os_path_join DATASETS nm, nm))
      else search_raw name l'
  end.

(** [Dataset.__init__] up to [assert ds_found]: the lookup of the dataset
    directory. *)
Definition Dataset_lookup (name : string) : ST fs (string * string) :=
  datasets ← scan_dirs DATASETS;
  found ← search_compiled name (zip datasets (dir_names datasets));
  found ← match found with
          | Some r => mret (Some r)
          | None =>
              datasets ← scan_dirs (os_path_join DATASETS "raw");
              search_raw name (zip datasets (dir_names datasets))
          end;
  match found with
  | Some r => mret r
  | None =>
      st_lift (Err (AssertionError
                      ("No matching dataset found for '" +:+ name +:+ "'")))
  end.

End Lookup.
End DatasetPy.

(** * A small instance of the interfaces

    Integers for numbers, lists of integers for frames, POSIX-like paths.
    It is the instance the properties are exercised on. *)

Module Toy.

Definition toy_setitem (row : list Z) (j : nat) (v : list Z) : option (list Z) :=
  if decide (j < length row) then Some (<[j := default 0%Z (head v)]> row)
  else None.

Definition toy_imul (a : list Z) (x : attr_val Z) : option (list Z) :=
  match x with
  | AInt k | AFloat k => Some (Z.mul k <$> a)
  | _ => None
  end.

Global Instance toy_numpy : Numpy := {|
  scalar := Z;
  fsub := Z.sub;
  ndarray := list Z;
  np_zeros := fun shape _ => replicate (foldr Nat.mul 1 shape) 0%Z;
  np_shape := fun a => [length a; 1; 3];
  np_assign := fun _ v => Some v;
  np_setitem := toy_setitem;
  np_imul := toy_imul;
  np_astype_int := fun a => a;
  np_vstack := fun a b => Ok (a ++ b);
  py_add := fun a b =>
    match a, b with
    | AInt x, AInt y => Ok (AInt (x + y))
    | _, _ => Err (TypeError "unsupported operand type(s) for +")
    end;
  np_eq_other := fun a b => Ok false;
|}.

Global Instance toy_collaborators : Collaborators := {|
  crop := fun depthmap img mask roi => (img ++ mask, depthmap ++ roi);
  segmentImage := fun img => (Z.succ <$> img, [0; 0; 2; 2]%Z);
  segmenter_height := 1;
  segmenter_width := 1;
  workerCount := 2;
  video := list (list Z);
  cv2_VideoWriter := fun path img_arr => Some img_arr;
|}.

(** The part of a path after its last separator. *)
Fixpoint toy_basename (s : string) : string :=
  match s with
  | EmptyString => EmptyString
  | String c s' =>
      if str_contains "/" s' then toy_basename s' else
      if decide (c = "/"%char) then s' else s
  end.

Global Instance toy_paths : Paths := {|
  os_path_join := fun a b => a +:+ "/" +:+ b;
  os_path_basename := toy_basename;
  os_path_normpath := fun s => s;
  DATASETS := "data";
|}.

Import Building.

Definition toy_joint (a : Z) : joint :=
  {| angle := [a]; position := [a; a; a]%Z |}.

Definition toy_json (depth_scale : Z) (a : Z) : frame_json :=
  {| rs_depth_scale := depth_scale; rs_intrin_depth := "d640";
     rs_intrin_color := "c640"; joints := toy_joint <$> replicate 6 a |}.

(** A capture of two frames in one directory. The operating system lists
    [b.png] before [a.png]. *)
Definition toy_capture : capture :=
  {| os_walk :=
       [("raw/set1", [], ["a.json"; "a.npy"; "b.png"; "a.png"; "b.json"; "b.npy"])];
     json_files :=
       {["raw/set1/a.json" := toy_json 2 10; "raw/set1/b.json" := toy_json 2 20]};
     npy_files := {["raw/set1/a.npy" := [1; 2]%Z; "raw/set1/b.npy" := [3; 4]%Z]};
     png_files := {["raw/set1/a.png" := [5; 6]%Z; "raw/set1/b.png" := [7; 8]%Z]} |}.

(** The same capture with a different depth scale in the second frame. *)
Definition toy_capture_mixed : capture :=
  {| os_walk := os_walk toy_capture;
     json_files :=
       {["raw/set1/a.json" := toy_json 2 10; "raw/set1/b.json" := toy_json 3 20]};
     npy_files := npy_files toy_capture;
     png_files := png_files toy_capture |}.

(** The same capture with one image missing. *)
Definition toy_capture_odd : capture :=
  {| os_walk :=
       [("raw/set1", [], ["a.json"; "a.npy"; "a.png"; "b.json"; "b.npy"])];
     json_files := json_files toy_capture;
     npy_files := npy_files toy_capture;
     png_files := png_files toy_capture |}.

Definition toy_clock : clock :=
  {| time_init := 100%Z; now_build := "2021-03-07 10:00:00";
     now_compile := "2021-03-07 10:00:01"; time_save := 160%Z |}.

Definition toy_clock' : clock :=
  {| time_init := 200%Z; now_build := "2021-03-08 10:00:00";
     now_compile := "2021-03-08 10:00:01"; time_save := 260%Z |}.

Definition empty_disk : disk := {| dirs := ∅; h5 := ∅; videos := ∅ |}.

(** A builder made at the time [t]. *)
Definition toy_self (t : Z) : Builder := Builder_init t.

Definition toy_build (clk : clock) : M string :=
  build_full toy_capture clk (toy_self (time_init clk)) "raw/set1"
    (AFloat 1%Z) None.

(** [self] when the toy capture is loaded, before the segmentation. *)
Definition toy_loaded : Builder :=
  let self := toy_self 100 in
  let r :=
    self ← _get_filepaths_from_data_dir toy_capture self "raw/set1";
    self ← _load_json_data toy_capture self;
    _load_imgs_and_depthmaps toy_capture self in
  match r with
  | Ok self => self
  | Err _ => self
  end.

(** The disk after the full build of the toy capture. *)
Definition toy_built : disk := (toy_build toy_clock empty_disk).2.

(** The container the full build of the toy capture writes, under a name
    and with a depth scale. *)
Definition toy_file (name : string) (scale : Z) : h5file :=
  {| attrs :=
       {["name" := AStr name; "version" := AFloat 1%Z; "length" := AInt 2;
         "build_date" := AStr "2021-03-07 10:00:00";
         "compile_date" := AStr "2021-03-07 10:00:01";
         "compile_time" := AFloat 60%Z; "type" := AStr "full";
         "original_resolution" := AShape [2; 1; 3];
         "segmented_resolution" := AShape [4; 1; 3];
         "depth_intrinsics" := AStr "d640"; "color_intrinsics" := AStr "c640";
         "depth_scale" := AFloat scale]};
     groups := {["coordinates"; "images"; "paths"]};
     arrays :=
       {["angles" := [replicate 6 10; replicate 6 20]%Z;
         "positions" := [replicate 6 10 ++ replicate 12 0;
                         replicate 6 20 ++ replicate 12 0]%Z;
         "coordinates/depthmaps" := [[2; 4]; [6; 8]]%Z;
         "coordinates/pointmaps" := [[2; 4; 0; 0; 2; 2]; [6; 8; 0; 0; 2; 2]]%Z;
         "images/original" := [[7; 8]; [5; 6]]%Z;
         "images/segmented" := [[7; 8; 8; 9]; [5; 6; 6; 7]]%Z;
         "images/rois" := [[0; 0; 2; 2]; [0; 0; 2; 2]]%Z]};
     strings :=
       {["paths/jsons" := ["/a.json"; "/b.json"];
         "paths/depthmaps" := ["/a.npy"; "/b.npy"];
         "paths/images" := ["/b.png"; "/a.png"]]};
     array_attrs := {[("coordinates/depthmaps", "depth_scale") := AFloat scale]} |}.

Definition toy_container : h5file := toy_file "set1" 2.

(** A disk with three containers: the third has another depth scale. *)
Definition toy_disk : disk :=
  {| dirs := {["data/set1"; "data/set2"; "data/set3"]};
     h5 := {["data/set1/set1.h5" := toy_container;
             "data/set2/set2.h5" := toy_file "set2" 2;
             "data/set3/set3.h5" := toy_file "set3" 3]};
     videos := ∅ |}.

(** The toy container under the format version 2, and a disk with it. *)
Definition toy_file_v2 : h5file :=
  {| attrs := <["version" := AFloat 2%Z]> (attrs (toy_file "set4" 2));
     groups := groups (toy_file "set4" 2);
     arrays := arrays (toy_file "set4" 2);
     strings := strings (toy_file "set4" 2);
     array_attrs := array_attrs (toy_file "set4" 2) |}.

Definition toy_disk_v2 : disk :=
  {| dirs := {["data/set1"; "data/set4"]};
     h5 := {["data/set1/set1.h5" := toy_container;
             "data/set4/set4.h5" := toy_file_v2]};
     videos := ∅ |}.

(** A dataset directory with a compiled dataset 'set10' of version 1.4, a
    compiled dataset 'old' of version 0.9, and the raw captures. *)
Definition toy_ds_files (dir : string) (ver : option Q)
    : list (string * DatasetPy.file_content) :=
  [(dir +:+ "/ds.json", DatasetPy.JsonFile {| DatasetPy.ds_ver := ver;
                                              DatasetPy.frames := 2 |});
   (dir +:+ "/ang.npy", DatasetPy.DataFile);
   (dir +:+ "/ply.npy", DatasetPy.DataFile);
   (dir +:+ "/seg_img.npy", DatasetPy.DataFile);
   (dir +:+ "/og_img.npy", DatasetPy.DataFile);
   (dir +:+ "/seg_vid.avi", DatasetPy.DataFile);
   (dir +:+ "/og_vid.avi", DatasetPy.DataFile)].

Definition toy_entry (path : string) : DatasetPy.dir_entry :=
  {| DatasetPy.entry_path := path; DatasetPy.entry_is_dir := true |}.

Definition toy_fs : DatasetPy.fs :=
  {| DatasetPy.files :=
       list_to_map (toy_ds_files "data/set10" (Some (14 # 10))
                    ++ toy_ds_files "data/old" (Some (9 # 10)));
     DatasetPy.listing :=
       {["data" := [toy_entry "data/raw"; toy_entry "data/old";
                    toy_entry "data/set10"];
         "data/raw" := [toy_entry "data/raw/old"; toy_entry "data/raw/set2"]]} |}.

(** A rebuild that leaves a marker in the file system. *)
Definition toy_rebuild (path : string) : ST DatasetPy.fs unit := fun fsys =>
  (Ok tt,
   {| DatasetPy.files := <[path +:+ "/rebuilt" := DatasetPy.DataFile]>
                           (DatasetPy.files fsys);
      DatasetPy.listing := DatasetPy.listing fsys |}).

End Toy.

(** * [robotpose/dataset.py]: the build of a compiled dataset and its loading *)

(** [os.path.splitext(name)[0]] for a name without separators, as
    [os.listdir] gives them: the name up to its last dot, or the whole name
    when it has no dot or only dots before its last dot. *)
Fixpoint rfind_dot (s : string) : option nat :=
  match s with
  | EmptyString => None
  | String c s' =>
      match rfind_dot s' with
      | Some i => Some (S i)
      | None => if decide (c = "."%char) then Some 0 else None
      end
  end.

Fixpoint only_dots (s : string) : bool :=
  match s with
  | EmptyString => true
  | String c s' => if decide (c = "."%char) then only_dots s' else false
  end.

Definition splitext_root (p : string) : string :=
  match rfind_dot p with
  | Some i =>
      if only_dots (String.substring 0 i p) then p else String.substring 0 i p
  | None => p
  end.

Module DatasetBuild.
Import Building DatasetPy.

(** ** Exceptions, outcomes and the state monad

    [dataset.py] can raise [AttributeError] besides the exceptions of
    [exn]: on [img.shape] when [cv2.imread] gave [None], and on an attribute
    of [Dataset] that was never assigned. *)

Inductive pyexn : Type :=
  | Builtin (e : exn)
  | AttributeError (msg : string).

Inductive outcome (A : Type) : Type :=
  | Done (x : A)
  | Raise (e : pyexn).
Arguments Done {A} x.
Arguments Raise {A} e.

Global Instance outcome_ret : MRet outcome := fun A x => Done x.
Global Instance outcome_bind : MBind outcome := fun A B f m =>
  match m with
  | Done x => f x
  | Raise e => Raise e
  end.

Definition of_result {A} (r : result A) : outcome A :=
  match r with
  | Ok x => Done x
  | Err e => Raise (Builtin e)
  end.

(** A computation over a mutable [S]; the state reached when the exception
    is raised is kept. *)
Definition PY (S A : Type) : Type := S -> outcome A * S.

Global Instance PY_ret {S} : MRet (PY S) := fun A x s => (Done x, s).
Global Instance PY_bind {S} : MBind (PY S) := fun A B f m s =>
  match m s with
  | (Done x, s') => f x s'
  | (Raise e, s') => (Raise e, s')
  end.

Definition py_lift {S A} (r : outcome A) : PY S A := fun s => (r, s).
Definition py_get {S} : PY S S := fun s => (Done s, s).
Definition py_modify {S} (f : S -> S) : PY S unit := fun s => (Done tt, f s).

(** [RobotSegmenter.segmentImage(image, ply_path)] as [dataset.build] calls
    it: the segmented image and the points of the frame. *)
Class PlySegmenter `{Numpy} := {
  segmentImagePly : ndarray -> string -> ndarray * ndarray;
}.

Section Build.
Context `{Collaborators} `{Paths} `{!PlySegmenter}.

(** ** The data model *)

(** The raw capture directories as [build] reads them: [os.listdir], the
    images [cv2.imread] can read, and for every JSON file the values
    [d['objects'][0]['joint_angles'][k]['angle']] in the order of [k]. *)
Record raw_files := {
  raw_listdir : gmap string (list string);
  raw_png : gmap string ndarray;
  raw_json : gmap string (list ndarray);
}.

(** The three readings of the clock: [time.time()] at the start and when
    [info] is made, and [str(datetime.datetime.now())]. *)
Record build_clock := {
  t_start : scalar;
  t_info : scalar;
  now_info : string;
}.

(** An array as [np.save] stores it: its shape and its rows along the
    first axis. *)
Record npy := {
  npy_shape : list nat;
  npy_rows : list ndarray;
}.

(** The fields of [info] that [ds_info] does not have. *)
Record info_rest := {
  info_name : string;
  info_build_time : scalar;
  info_last_build : string;
}.

(** The disk as [build] writes it and [Dataset] reads it: the
    directories, the files by path as [Dataset.validate] sees them, and the
    content of the array files, of the videos, of [ply.npy] and of the rest
    of [ds.json]. *)
Record dsdisk := {
  ds_dirs : gset string;
  ds_files : gmap string file_content;
  ds_npy : gmap string npy;
  ds_avi : gmap string video;
  ds_ply : gmap string (list ndarray);
  ds_rest : gmap string info_rest;
}.

(** The file system [Dataset.validate] runs on, with the scan results
    [l]. *)
Definition fs_of (l : gmap string (list dir_entry)) (d : dsdisk) : fs :=
  {| files := ds_files d; listing := l |}.

(** [os.mkdir(path)], for a path whose parent exists. *)
Definition mkdir (path : string) (d : dsdisk) : dsdisk :=
  {| ds_dirs := {[path]} ∪ ds_dirs d; ds_files := ds_files d;
     ds_npy := ds_npy d; ds_avi := ds_avi d; ds_ply := ds_ply d;
     ds_rest := ds_rest d |}.

(** [np.save(path, arr)]. *)
Definition np_save (path : string) (a : npy) : PY dsdisk unit :=
  py_modify (fun d =>
    {| ds_dirs := ds_dirs d; ds_files := <[path := DataFile]> (ds_files d);
       ds_npy := <[path := a]> (ds_npy d); ds_avi := ds_avi d;
       ds_ply := ds_ply d; ds_rest := ds_rest d |}).

(** [np.save(path, np.array(ply_data, dtype=object))]. *)
Definition np_save_ply (path : string) (a : list ndarray) : PY dsdisk unit :=
  py_modify (fun d =>
    {| ds_dirs := ds_dirs d; ds_files := <[path := DataFile]> (ds_files d);
       ds_npy := ds_npy d; ds_avi := ds_avi d;
       ds_ply := <[path := a]> (ds_ply d); ds_rest := ds_rest d |}).

(** The disk after a video writer on [path] got the frames [frames] and
    was released: when the writer could not be opened nothing is written
    and the disk is as before. *)
Definition with_video_file (path : string) (frames : list ndarray) (d : dsdisk)
    : dsdisk :=
  match cv2_VideoWriter path frames with
  | Some v =>
      {| ds_dirs := ds_dirs d; ds_files := <[path := DataFile]> (ds_files d);
         ds_npy := ds_npy d; ds_avi := <[path := v]> (ds_avi d);
         ds_ply := ds_ply d; ds_rest := ds_rest d |}
  | None => d
  end.

(** [cv2.VideoWriter(path, ...)], [out.write(arr[idx])] for every [idx]
    of [range(length)], [out.release()]. *)
Definition write_video (path : string) (arr : list ndarray) (length : nat)
    : PY dsdisk unit :=
  frames ← py_lift (of_result
    (for_each (py_range 0 length)
       (fun idx acc => f ← getitem arr idx; Ok (acc ++ [f])) []));
  py_modify (with_video_file path frames).

(** [json.dump(info, open(path, 'w'))]. *)
Definition json_dump (path : string) (info : ds_info) (rest : info_rest)
    : PY dsdisk unit :=
  py_modify (fun d =>
    {| ds_dirs := ds_dirs d; ds_files := <[path := JsonFile info]> (ds_files d);
       ds_npy := ds_npy d; ds_avi := ds_avi d; ds_ply := ds_ply d;
       ds_rest := <[path := rest]> (ds_rest d) |}).

(** ** [build(data_path, dest_path = None)] *)

(** The loop that reads the images into [orig_img_arr]. [cv2.imread] gives
    [None] for a file it cannot read, and numpy refuses to store [None] in
    the array with a [TypeError]; the text of its message is not modelled. *)
Definition read_images (raw : raw_files) (paths : list string) (length : nat)
    (arr : list ndarray) : result (list ndarray) :=
  for_each (zip (py_range 0 length) paths)
    (fun '(idx, path) arr =>
       img ← raw_png raw !! path ?! TypeError "cannot store None in an array";
       setrow arr idx img) arr.

(** The segmentation loop: the segmented images and the list [ply_data]. *)
Definition segment_all (data_path : string) (plys : list string)
    (orig_img_arr : list ndarray) (length : nat)
    : result (list ndarray * list ndarray) :=
  for_each (py_range 0 length)
    (fun idx '(seg_arr, ply_data) =>
       ply_name ← getitem plys idx;
       let ply_path := os_path_join data_path ply_name in
       img ← getitem orig_img_arr idx;
       let '(seg, ply) := segmentImagePly img ply_path in
       seg_arr ← setrow seg_arr idx seg;
       Ok (seg_arr, ply_data ++ [ply]))
    (replicate length (np_zeros [segmenter_height; segmenter_width; 3] uint8),
     []).

(** The loop over the JSON files: the joint angles. *)
Definition read_angles (raw : raw_files) (paths : list string) (length : nat)
    : result (list ndarray) :=
  for_each (zip (py_range 0 length) paths)
    (fun '(idx, path) json_arr =>
       d ← raw_json raw !! path ?! FileNotFoundError path;
       for_each (py_range 0 6) (fun sub_idx json_arr =>
           a ← getitem d sub_idx;
           setitem2 json_arr idx sub_idx a) json_arr)
    (replicate length (np_zeros [6] float_)).

Definition build (raw : raw_files) (clk : build_clock) (data_path : string)
    (dest_path : option string) : PY dsdisk unit :=
  let build_start_time := t_start clk in
  let dest_path :=
    match dest_path with
    | None =>
        let name := os_path_basename (os_path_normpath data_path) in
        os_path_join DATASETS name
    | Some p => p
    end in
  d ← py_get;
  (if decide (dest_path ∈ ds_dirs d) then mret tt
   else py_modify (mkdir dest_path));;
  names ← py_lift (of_result
    (raw_listdir raw !! data_path ?! FileNotFoundError data_path));
  let jsons := filter (fun x => endswith ".json" x) names in
  let plys := filter (fun x => endswith "full.ply" x) names in
  let imgs := filter (fun x => endswith "og.png" x) names in
  let length := length imgs in
  py_lift (of_result (py_assert
    (bool_decide (List.length jsons = List.length plys) &&
     bool_decide (List.length plys = length))
    "Unequal number of images, jsons, or plys"));;
  img0 ← py_lift (of_result (getitem imgs 0));
  img ← py_lift
    (match raw_png raw !! os_path_join data_path img0 with
     | Some img => Done img
     | None =>
         Raise (AttributeError "'NoneType' object has no attribute 'shape'")
     end);
  img_height ← py_lift (of_result (getitem (np_shape img) 0));
  img_width ← py_lift (of_result (getitem (np_shape img) 1));
  let orig_img_path := os_path_join data_path <$> imgs in
  orig_img_arr ← py_lift (of_result
    (read_images raw orig_img_path length
       (replicate length (np_zeros [img_height; img_width; 3] uint8))));
  np_save (os_path_join dest_path "og_img.npy")
    {| npy_shape := [length; img_height; img_width; 3];
       npy_rows := orig_img_arr |};;
  write_video (os_path_join dest_path "og_vid.avi") orig_img_arr length;;
  '(segmented_img_arr, ply_data) ← py_lift (of_result
    (segment_all data_path plys orig_img_arr length));
  np_save (os_path_join dest_path "seg_img.npy")
    {| npy_shape := [length; segmenter_height; segmenter_width; 3];
       npy_rows := segmented_img_arr |};;
  write_video (os_path_join dest_path "seg_vid.avi") segmented_img_arr length;;
  np_save_ply (os_path_join dest_path "ply.npy") ply_data;;
  let json_path := os_path_join data_path <$> jsons in
  json_arr ← py_lift (of_result (read_angles raw json_path length));
  np_save (os_path_join dest_path "ang.npy")
    {| npy_shape := [length; 6]; npy_rows := json_arr |};;
  json_dump (os_path_join dest_path "ds.json")
    {| ds_ver := Some dataset_version; frames := length |}
    {| info_name := os_path_basename (os_path_normpath dest_path);
       info_build_time := fsub (t_info clk) build_start_time;
       info_last_build := now_info clk |}.

(** ** The [Dataset] object

    An attribute that has not been assigned is [None]; reading it raises
    [AttributeError]. [path], [name] and the two flags are set before
    [load] runs. A [cv2.VideoCapture] is the path it was opened on. *)
Record Dataset := {
  ds_path : string;
  ds_name : string;
  load_seg : bool;
  load_og : bool;
  ds_length : option nat;
  og_img : option npy;
  og_vid : option string;
  seg_img : option npy;
  seg_vid : option string;
  angles : option npy;
  ply : option (list ndarray);
  deepposeds_path : option string;
  skeleton : option string;
  skeleton_path : option string;
  og_vid_path : option string;
  resolution_og : option (list nat);
  seg_vid_path : option string;
  resolution_seg : option (list nat);
  resolution : option (list nat);
  img : option npy;
  vid : option string;
  vid_path : option string;
}.

Definition assign_ds_length (v : nat) (self : Dataset) : Dataset :=
  {| ds_path := ds_path self; ds_name := ds_name self;
     load_seg := load_seg self; load_og := load_og self; ds_length := Some v;
     og_img := og_img self; og_vid := og_vid self; seg_img := seg_img self;
     seg_vid := seg_vid self; angles := angles self; ply := ply self;
     deepposeds_path := deepposeds_path self; skeleton := skeleton self;
     skeleton_path := skeleton_path self; og_vid_path := og_vid_path self;
     resolution_og := resolution_og self; seg_vid_path := seg_vid_path self;
     resolution_seg := resolution_seg self; resolution := resolution self;
     img := img self; vid := vid self; vid_path := vid_path self |}.

Definition assign_og_img (v : npy) (self : Dataset) : Dataset :=
  {| ds_path := ds_path self; ds_name := ds_name self;
     load_seg := load_seg self; load_og := load_og self;
     ds_length := ds_length self; og_img := Some v; og_vid := og_vid self;
     seg_img := seg_img self; seg_vid := seg_vid self; angles := angles self;
     ply := ply self; deepposeds_path := deepposeds_path self;
     skeleton := skeleton self; skeleton_path := skeleton_path self;
     og_vid_path := og_vid_path self; resolution_og := resolution_og self;
     seg_vid_path := seg_vid_path self;
     resolution_seg := resolution_seg self; resolution := resolution self;
     img := img self; vid := vid self; vid_path := vid_path self |}.

Definition assign_og_vid (v : string) (self : Dataset) : Dataset :=
  {| ds_path := ds_path self; ds_name := ds_name self;
     load_seg := load_seg self; load_og := load_og self;
     ds_length := ds_length self; og_img := og_img self; og_vid := Some v;
     seg_img := seg_img self; seg_vid := seg_vid self; angles := angles self;
     ply := ply self; deepposeds_path := deepposeds_path self;
     skeleton := skeleton self; skeleton_path := skeleton_path self;
     og_vid_path := og_vid_path self; resolution_og := resolution_og self;
     seg_vid_path := seg_vid_path self;
     resolution_seg := resolution_seg self; resolution := resolution self;
     img := img self; vid := vid self; vid_path := vid_path self |}.

Definition assign_seg_img (v : npy) (self : Dataset) : Dataset :=
  {| ds_path := ds_path self; ds_name := ds_name self;
     load_seg := load_seg self; load_og := load_og self;
     ds_length := ds_length self; og_img := og_img self;
     og_vid := og_vid self; seg_img := Some v; seg_vid := seg_vid self;
     angles := angles self; ply := ply self;
     deepposeds_path := deepposeds_path self; skeleton := skeleton self;
     skeleton_path := skeleton_path self; og_vid_path := og_vid_path self;
     resolution_og := resolution_og self; seg_vid_path := seg_vid_path self;
     resolution_seg := resolution_seg self; resolution := resolution self;
     img := img self; vid := vid self; vid_path := vid_path self |}.

Definition assign_seg_vid (v : string) (self : Dataset) : Dataset :=
  {| ds_path := ds_path self; ds_name := ds_name self;
     load_seg := load_seg self; load_og := load_og self;
     ds_length := ds_length self; og_img := og_img self;
     og_vid := og_vid self; seg_img := seg_img self; seg_vid := Some v;
     angles := angles self; ply := ply self;
     deepposeds_path := deepposeds_path self; skeleton := skeleton self;
     skeleton_path := skeleton_path self; og_vid_path := og_vid_path self;
     resolution_og := resolution_og self; seg_vid_path := seg_vid_path self;
     resolution_seg := resolution_seg self; resolution := resolution self;
     img := img self; vid := vid self; vid_path := vid_path self |}.

Definition assign_angles (v : npy) (self : Dataset) : Dataset :=
  {| ds_path := ds_path self; ds_name := ds_name self;
     load_seg := load_seg self; load_og := load_og self;
     ds_length := ds_length self; og_img := og_img self;
     og_vid := og_vid self; seg_img := seg_img self; seg_vid := seg_vid self;
     angles := Some v; ply := ply self;
     deepposeds_path := deepposeds_path self; skeleton := skeleton self;
     skeleton_path := skeleton_path self; og_vid_path := og_vid_path self;
     resolution_og := resolution_og self; seg_vid_path := seg_vid_path self;
     resolution_seg := resolution_seg self; resolution := resolution self;
     img := img self; vid := vid self; vid_path := vid_path self |}.

Definition assign_ply (v : (list ndarray)) (self : Dataset) : Dataset :=
  {| ds_path := ds_path self; ds_name := ds_name self;
     load_seg := load_seg self; load_og := load_og self;
     ds_length := ds_length self; og_img := og_img self;
     og_vid := og_vid self; seg_img := seg_img self; seg_vid := seg_vid self;
     angles := angles self; ply := Some v;
     deepposeds_path := deepposeds_path self; skeleton := skeleton self;
     skeleton_path := skeleton_path self; og_vid_path := og_vid_path self;
     resolution_og := resolution_og self; seg_vid_path := seg_vid_path self;
     resolution_seg := resolution_seg self; resolution := resolution self;
     img := img self; vid := vid self; vid_path := vid_path self |}.

Definition assign_deepposeds_path (v : string) (self : Dataset) : Dataset :=
  {| ds_path := ds_path self; ds_name := ds_name self;
     load_seg := load_seg self; load_og := load_og self;
     ds_length := ds_length self; og_img := og_img self;
     og_vid := og_vid self; seg_img := seg_img self; seg_vid := seg_vid self;
     angles := angles self; ply := ply self; deepposeds_path := Some v;
     skeleton := skeleton self; skeleton_path := skeleton_path self;
     og_vid_path := og_vid_path self; resolution_og := resolution_og self;
     seg_vid_path := seg_vid_path self;
     resolution_seg := resolution_seg self; resolution := resolution self;
     img := img self; vid := vid self; vid_path := vid_path self |}.

Definition assign_skeleton (v : string) (self : Dataset) : Dataset :=
  {| ds_path := ds_path self; ds_name := ds_name self;
     load_seg := load_seg self; load_og := load_og self;
     ds_length := ds_length self; og_img := og_img self;
     og_vid := og_vid self; seg_img := seg_img self; seg_vid := seg_vid self;
     angles := angles self; ply := ply self;
     deepposeds_path := deepposeds_path self; skeleton := Some v;
     skeleton_path := skeleton_path self; og_vid_path := og_vid_path self;
     resolution_og := resolution_og self; seg_vid_path := seg_vid_path self;
     resolution_seg := resolution_seg self; resolution := resolution self;
     img := img self; vid := vid self; vid_path := vid_path self |}.

Definition assign_skeleton_path (v : string) (self : Dataset) : Dataset :=
  {| ds_path := ds_path self; ds_name := ds_name self;
     load_seg := load_seg self; load_og := load_og self;
     ds_length := ds_length self; og_img := og_img self;
     og_vid := og_vid self; seg_img := seg_img self; seg_vid := seg_vid self;
     angles := angles self; ply := ply self;
     deepposeds_path := deepposeds_path self; skeleton := skeleton self;
     skeleton_path := Some v; og_vid_path := og_vid_path self;
     resolution_og := resolution_og self; seg_vid_path := seg_vid_path self;
     resolution_seg := resolution_seg self; resolution := resolution self;
     img := img self; vid := vid self; vid_path := vid_path self |}.

Definition assign_og_vid_path (v : string) (self : Dataset) : Dataset :=
  {| ds_path := ds_path self; ds_name := ds_name self;
     load_seg := load_seg self; load_og := load_og self;
     ds_length := ds_length self; og_img := og_img self;
     og_vid := og_vid self; seg_img := seg_img self; seg_vid := seg_vid self;
     angles := angles self; ply := ply self;
     deepposeds_path := deepposeds_path self; skeleton := skeleton self;
     skeleton_path := skeleton_path self; og_vid_path := Some v;
     resolution_og := resolution_og self; seg_vid_path := seg_vid_path self;
     resolution_seg := resolution_seg self; resolution := resolution self;
     img := img self; vid := vid self; vid_path := vid_path self |}.

Definition assign_resolution_og (v : (list nat)) (self : Dataset) : Dataset :=
  {| ds_path := ds_path self; ds_name := ds_name self;
     load_seg := load_seg self; load_og := load_og self;
     ds_length := ds_length self; og_img := og_img self;
     og_vid := og_vid self; seg_img := seg_img self; seg_vid := seg_vid self;
     angles := angles self; ply := ply self;
     deepposeds_path := deepposeds_path self; skeleton := skeleton self;
     skeleton_path := skeleton_path self; og_vid_path := og_vid_path self;
     resolution_og := Some v; seg_vid_path := seg_vid_path self;
     resolution_seg := resolution_seg self; resolution := resolution self;
     img := img self; vid := vid self; vid_path := vid_path self |}.

Definition assign_seg_vid_path (v : string) (self : Dataset) : Dataset :=
  {| ds_path := ds_path self; ds_name := ds_name self;
     load_seg := load_seg self; load_og := load_og self;
     ds_length := ds_length self; og_img := og_img self;
     og_vid := og_vid self; seg_img := seg_img self; seg_vid := seg_vid self;
     angles := angles self; ply := ply self;
     deepposeds_path := deepposeds_path self; skeleton := skeleton self;
     skeleton_path := skeleton_path self; og_vid_path := og_vid_path self;
     resolution_og := resolution_og self; seg_vid_path := Some v;
     resolution_seg := resolution_seg self; resolution := resolution self;
     img := img self; vid := vid self; vid_path := vid_path self |}.

Definition assign_resolution_seg (v : (list nat)) (self : Dataset) : Dataset :=
  {| ds_path := ds_path self; ds_name := ds_name self;
     load_seg := load_seg self; load_og := load_og self;
     ds_length := ds_length self; og_img := og_img self;
     og_vid := og_vid self; seg_img := seg_img self; seg_vid := seg_vid self;
     angles := angles self; ply := ply self;
     deepposeds_path := deepposeds_path self; skeleton := skeleton self;
     skeleton_path := skeleton_path self; og_vid_path := og_vid_path self;
     resolution_og := resolution_og self; seg_vid_path := seg_vid_path self;
     resolution_seg := Some v; resolution := resolution self;
     img := img self; vid := vid self; vid_path := vid_path self |}.

Definition assign_resolution (v : (list nat)) (self : Dataset) : Dataset :=
  {| ds_path := ds_path self; ds_name := ds_name self;
     load_seg := load_seg self; load_og := load_og self;
     ds_length := ds_length self; og_img := og_img self;
     og_vid := og_vid self; seg_img := seg_img self; seg_vid := seg_vid self;
     angles := angles self; ply := ply self;
     deepposeds_path := deepposeds_path self; skeleton := skeleton self;
     skeleton_path := skeleton_path self; og_vid_path := og_vid_path self;
     resolution_og := resolution_og self; seg_vid_path := seg_vid_path self;
     resolution_seg := resolution_seg self; resolution := Some v;
     img := img self; vid := vid self; vid_path := vid_path self |}.

Definition assign_img (v : npy) (self : Dataset) : Dataset :=
  {| ds_path := ds_path self; ds_name := ds_name self;
     load_seg := load_seg self; load_og := load_og self;
     ds_length := ds_length self; og_img := og_img self;
     og_vid := og_vid self; seg_img := seg_img self; seg_vid := seg_vid self;
     angles := angles self; ply := ply self;
     deepposeds_path := deepposeds_path self; skeleton := skeleton self;
     skeleton_path := skeleton_path self; og_vid_path := og_vid_path self;
     resolution_og := resolution_og self; seg_vid_path := seg_vid_path self;
     resolution_seg := resolution_seg self; resolution := resolution self;
     img := Some v; vid := vid self; vid_path := vid_path self |}.

Definition assign_vid (v : string) (self : Dataset) : Dataset :=
  {| ds_path := ds_path self; ds_name := ds_name self;
     load_seg := load_seg self; load_og := load_og self;
     ds_length := ds_length self; og_img := og_img self;
     og_vid := og_vid self; seg_img := seg_img self; seg_vid := seg_vid self;
     angles := angles self; ply := ply self;
     deepposeds_path := deepposeds_path self; skeleton := skeleton self;
     skeleton_path := skeleton_path self; og_vid_path := og_vid_path self;
     resolution_og := resolution_og self; seg_vid_path := seg_vid_path self;
     resolution_seg := resolution_seg self; resolution := resolution self;
     img := img self; vid := Some v; vid_path := vid_path self |}.

Definition assign_vid_path (v : string) (self : Dataset) : Dataset :=
  {| ds_path := ds_path self; ds_name := ds_name self;
     load_seg := load_seg self; load_og := load_og self;
     ds_length := ds_length self; og_img := og_img self;
     og_vid := og_vid self; seg_img := seg_img self; seg_vid := seg_vid self;
     angles := angles self; ply := ply self;
     deepposeds_path := deepposeds_path self; skeleton := skeleton self;
     skeleton_path := skeleton_path self; og_vid_path := og_vid_path self;
     resolution_og := resolution_og self; seg_vid_path := seg_vid_path self;
     resolution_seg := resolution_seg self; resolution := resolution self;
     img := img self; vid := vid self; vid_path := Some v |}.

(** [self.<name>] on an attribute that may be unassigned. *)
Definition attr {A} (name : string) (o : option A) : outcome A :=
  match o with
  | Some x => Done x
  | None =>
      Raise (AttributeError
               ("'Dataset' object has no attribute '" +:+ name +:+ "'"))
  end.

(** A [for] loop whose body can raise any exception. *)
Fixpoint for_each_py {A S} (l : list A) (body : A -> S -> outcome S) (s : S)
    : outcome S :=
  match l with
  | [] => Done s
  | x :: l' => s' ← body x s; for_each_py l' body s'
  end.

(** [np.load(path)] of an array file. *)
Definition np_load_npy (d : dsdisk) (path : string) : outcome npy :=
  match ds_npy d !! path with
  | Some a => Done a
  | None =>
      match ds_files d !! path with
      | Some _ => Raise (Builtin (ValueError "Cannot load file"))
      | None => Raise (Builtin (FileNotFoundError path))
      end
  end.

(** [np.load(path, allow_pickle=True)] of [ply.npy]. *)
Definition np_load_ply (d : dsdisk) (path : string) : outcome (list ndarray) :=
  match ds_ply d !! path with
  | Some a => Done a
  | None =>
      match ds_files d !! path with
      | Some _ => Raise (Builtin (ValueError "Cannot load file"))
      | None => Raise (Builtin (FileNotFoundError path))
      end
  end.

(** [setSkeleton]: [listing] is [os.listdir(p.skeletons)], [None] when the
    directory does not exist. The loop has no [break]. *)
Definition setSkeleton (p_skeletons : string) (listing : option (list string))
    (skeleton_name : string) (self : Dataset) : outcome Dataset :=
  names ← of_result (listing ?! FileNotFoundError p_skeletons);
  for_each_py (filter (fun x => endswith ".csv" x) names)
    (fun file self =>
       if str_contains skeleton_name (splitext_root file) then
         let self := assign_skeleton (splitext_root file) self in
         let self := assign_skeleton_path (os_path_join p_skeletons file) self in
         dp ← attr "deepposeds_path" (deepposeds_path self);
         Done (assign_deepposeds_path
                 (str_replace ".h5" ("_" +:+ splitext_root file +:+ ".h5") dp)
                 self)
       else Done self) self.

(** [load(skeleton)]. *)
Definition load (p_skeletons : string) (listing : option (list string))
    (d : dsdisk) (skeleton_arg : option string) (self : Dataset)
    : outcome Dataset :=
  info ← of_result
    (load_json (fs_of ∅ d) (os_path_join (ds_path self) "ds.json"));
  let self := assign_ds_length (frames info) self in
  self ← (if load_og self then
            a ← np_load_npy d (os_path_join (ds_path self) "og_img.npy");
            let self := assign_og_img a self in
            Done (assign_og_vid (os_path_join (ds_path self) "og_vid.avi") self)
          else Done self);
  self ← (if load_seg self then
            a ← np_load_npy d (os_path_join (ds_path self) "seg_img.npy");
            let self := assign_seg_img a self in
            Done (assign_seg_vid (os_path_join (ds_path self) "seg_vid.avi")
                    self)
          else Done self);
  a ← np_load_npy d (os_path_join (ds_path self) "ang.npy");
  let self := assign_angles a self in
  ply_in ← np_load_ply d (os_path_join (ds_path self) "ply.npy");
  let self := assign_ply ply_in self in
  let self :=
    assign_deepposeds_path (os_path_join (ds_path self) "deeppose.h5") self in
  match skeleton_arg with
  | Some name => setSkeleton p_skeletons listing name self
  | None => Done self
  end.

(** [a.shape[1:3]]. *)
Definition shape_1_3 (a : npy) : list nat := take 2 (drop 1 (npy_shape a)).

(** Lines 193-217 of [Dataset.__init__]. The block [if self.load_og:]. *)
Definition media_og (self : Dataset) : outcome Dataset :=
  if load_og self then
    let self :=
      assign_og_vid_path (os_path_join (ds_path self) "og_vid.avi") self in
    a ← attr "og_img" (og_img self);
    let self := assign_resolution_og (shape_1_3 a) self in
    r ← attr "resolution_og" (resolution_og self);
    Done (assign_resolution r self)
  else Done self.

(** The block [if self.load_seg:]. *)
Definition media_seg (self : Dataset) : outcome Dataset :=
  if load_seg self then
    let self :=
      assign_seg_vid_path (os_path_join (ds_path self) "seg_vid.avi") self in
    a ← attr "seg_img" (seg_img self);
    let self := assign_resolution_seg (shape_1_3 a) self in
    r ← attr "resolution_seg" (resolution_seg self);
    Done (assign_resolution r self)
  else Done self.

(** The primary image and video types. *)
Definition media_primary (primary : string) (self : Dataset) : outcome Dataset :=
  let primary := if load_seg self && negb (load_og self) then "seg" else primary in
  let primary := if load_og self && negb (load_seg self) then "og" else primary in
  if decide (primary = "og") then
    a ← attr "og_img" (og_img self);
    let self := assign_img a self in
    v ← attr "og_vid" (og_vid self);
    let self := assign_vid v self in
    p ← attr "og_vid_path" (og_vid_path self);
    Done (assign_vid_path p self)
  else
    a ← attr "seg_img" (seg_img self);
    let self := assign_img a self in
    v ← attr "seg_vid" (seg_vid self);
    let self := assign_vid v self in
    p ← attr "seg_vid_path" (seg_vid_path self);
    Done (assign_vid_path p self).

Definition Dataset_media (primary : string) (self : Dataset) : outcome Dataset :=
  self ← media_og self;
  self ← media_seg self;
  media_primary primary self.

(** [Dataset.__init__] once the lookup has set [path] and [name]: the
    loading, then the primary media. *)
Definition Dataset_open (p_skeletons : string) (listing : option (list string))
    (d : dsdisk) (skeleton_arg : option string) (primary : string)
    (self : Dataset) : outcome Dataset :=
  self ← load p_skeletons listing d skeleton_arg self;
  Dataset_media primary self.

(** [Dataset] before [load]: [self.load_seg], [self.load_og], and the
    [path] and [name] of the lookup. *)
Definition Dataset_new (path name : string) (load_seg load_og : bool) : Dataset :=
  {| ds_path := path; ds_name := name; load_seg := load_seg; load_og := load_og;
     ds_length := None; og_img := None; og_vid := None; seg_img := None;
     seg_vid := None; angles := None; ply := None; deepposeds_path := None;
     skeleton := None; skeleton_path := None; og_vid_path := None;
     resolution_og := None; seg_vid_path := None; resolution_seg := None;
     resolution := None; img := None; vid := None; vid_path := None |}.

(** [makeDeepPoseDS(force)]. [initialize_dataset] is DeepPoseKit's; its
    arguments are evaluated in the order they are written. *)
Section DeepPose.
Variable initialize_dataset : npy -> string -> string -> bool -> PY dsdisk unit.

Definition call_initialize_dataset (overwrite : bool) (self : Dataset)
    : PY dsdisk unit :=
  images ← py_lift (attr "seg_img" (seg_img self));
  datapath ← py_lift (attr "deepposeds_path" (deepposeds_path self));
  skeleton ← py_lift (attr "skeleton_path" (skeleton_path self));
  initialize_dataset images datapath skeleton overwrite.

Definition makeDeepPoseDS (force : bool) (self : Dataset) : PY dsdisk unit :=
  if force then call_initialize_dataset true self
  else
    path ← py_lift (attr "deepposeds_path" (deepposeds_path self));
    d ← py_get;
    if negb (bool_decide (is_Some (ds_files d !! path)))
    then call_initialize_dataset false self
    else mret tt.

End DeepPose.

(** [__len__]. *)
Definition Dataset_len (self : Dataset) : nat :=
  match ds_length self with
  | None => 0
  | Some n => n
  end.

(** ** What a run of [build] leaves

    The destination, the values a run reads and computes, and the disk
    after its writes: the vocabulary of the properties of [build]. *)

(** The destination directory of [build(data_path, dest_path)]. *)
Definition dest_of (data_path : string) (dest_path : option string) : string :=
  match dest_path with
  | None => os_path_join DATASETS (os_path_basename (os_path_normpath data_path))
  | Some p => p
  end.

Definition with_dest_dir (dest : string) (d : dsdisk) : dsdisk :=
  if decide (dest ∈ ds_dirs d) then d else mkdir dest d.

(** What a run of [build] read and computed. *)
Record built := {
  b_names : list string;
  b_height : nat;
  b_width : nat;
  b_orig : list ndarray;
  b_og_frames : list ndarray;
  b_seg : list ndarray;
  b_ply : list ndarray;
  b_seg_frames : list ndarray;
  b_angles : list ndarray;
}.

Definition b_length (b : built) : nat :=
  length (filter (fun x => endswith "og.png" x) (b_names b)).

(** A map with the entry of a video file when the writer [o] was opened. *)
Definition if_written {A B} (path : string) (o : option A) (v : A -> B)
    (m : gmap string B) : gmap string B :=
  match o with
  | Some x => <[path := v x]> m
  | None => m
  end.

(** The disk after the writes of a successful [build]: five files, and the
    two videos whose writer was opened. *)
Definition written (dest : string) (clk : build_clock) (b : built) (d : dsdisk)
    : dsdisk :=
  let og_vid :=
    cv2_VideoWriter (os_path_join dest "og_vid.avi") (b_og_frames b) in
  let seg_vid :=
    cv2_VideoWriter (os_path_join dest "seg_vid.avi") (b_seg_frames b) in
  {| ds_dirs := ds_dirs d;
     ds_files :=
       <[os_path_join dest "ds.json" :=
           JsonFile {| ds_ver := Some dataset_version; frames := b_length b |}]>
       (<[os_path_join dest "ang.npy" := DataFile]>
       (<[os_path_join dest "ply.npy" := DataFile]>
       (if_written (os_path_join dest "seg_vid.avi") seg_vid (fun _ => DataFile)
       (<[os_path_join dest "seg_img.npy" := DataFile]>
       (if_written (os_path_join dest "og_vid.avi") og_vid (fun _ => DataFile)
       (<[os_path_join dest "og_img.npy" := DataFile]> (ds_files d)))))));
     ds_npy :=
       <[os_path_join dest "ang.npy" :=
           {| npy_shape := [b_length b; 6]; npy_rows := b_angles b |}]>
       (<[os_path_join dest "seg_img.npy" :=
           {| npy_shape := [b_length b; segmenter_height; segmenter_width; 3];
              npy_rows := b_seg b |}]>
       (<[os_path_join dest "og_img.npy" :=
           {| npy_shape := [b_length b; b_height b; b_width b; 3];
              npy_rows := b_orig b |}]> (ds_npy d)));
     ds_avi :=
       if_written (os_path_join dest "seg_vid.avi") seg_vid id
         (if_written (os_path_join dest "og_vid.avi") og_vid id (ds_avi d));
     ds_ply := <[os_path_join dest "ply.npy" := b_ply b]> (ds_ply d);
     ds_rest :=
       <[os_path_join dest "ds.json" :=
           {| info_name := os_path_basename (os_path_normpath dest);
              info_build_time := fsub (t_info clk) (t_start clk);
              info_last_build := now_info clk |}]> (ds_rest d) |}.

(** The reads and computations of [build], which do not depend on the
    disk it writes to. *)
Definition reads (raw : raw_files) (data_path : string) (b : built) : Prop :=
  let names := b_names b in
  let jsons := filter (fun x => endswith ".json" x) names in
  let plys := filter (fun x => endswith "full.ply" x) names in
  let imgs := filter (fun x => endswith "og.png" x) names in
  let n := b_length b in
  raw_listdir raw !! data_path = Some names /\
  length jsons = length plys /\ length plys = n /\
  (exists img0 img,
     imgs !! 0 = Some img0 /\
     raw_png raw !! os_path_join data_path img0 = Some img /\
     np_shape img !! 0 = Some (b_height b) /\
     np_shape img !! 1 = Some (b_width b)) /\
  read_images raw (os_path_join data_path <$> imgs) n
    (replicate n (np_zeros [b_height b; b_width b; 3] uint8)) = Ok (b_orig b) /\
  for_each (py_range 0 n)
    (fun idx acc => f ← getitem (b_orig b) idx; Ok (acc ++ [f])) []
  = Ok (b_og_frames b) /\
  segment_all data_path plys (b_orig b) n = Ok (b_seg b, b_ply b) /\
  for_each (py_range 0 n)
    (fun idx acc => f ← getitem (b_seg b) idx; Ok (acc ++ [f])) []
  = Ok (b_seg_frames b) /\
  read_angles raw (os_path_join data_path <$> jsons) n = Ok (b_angles b).

(** ** Frames of the [Dataset] object *)

(** What [setSkeleton] leaves alone: everything but [skeleton],
    [skeleton_path] and [deepposeds_path]. *)
Definition same_media (a b : Dataset) : Prop :=
  ds_path b = ds_path a /\ load_seg b = load_seg a /\ load_og b = load_og a /\
  ds_length b = ds_length a /\
  og_img b = og_img a /\ og_vid b = og_vid a /\
  seg_img b = seg_img a /\ seg_vid b = seg_vid a /\ angles b = angles a /\
  og_vid_path b = og_vid_path a /\ seg_vid_path b = seg_vid_path a /\
  resolution_og b = resolution_og a /\ resolution_seg b = resolution_seg a /\
  resolution b = resolution a /\ ply b = ply a /\ img b = img a /\
  vid b = vid a /\ vid_path b = vid_path a /\ ds_name b = ds_name a.

(** What the three blocks after [load] leave alone: everything but the
    video paths, the resolutions and the primary media. *)
Definition keeps (a b : Dataset) : Prop :=
  ds_path b = ds_path a /\ load_seg b = load_seg a /\ load_og b = load_og a /\
  og_img b = og_img a /\ og_vid b = og_vid a /\
  seg_img b = seg_img a /\ seg_vid b = seg_vid a /\
  ds_length b = ds_length a /\ angles b = angles a /\ ply b = ply a /\
  deepposeds_path b = deepposeds_path a /\ skeleton b = skeleton a /\
  skeleton_path b = skeleton_path a.

End Build.
End DatasetBuild.

(** * Small inputs for the further properties *)

Module ToyDataset.
Import Building DatasetPy DatasetBuild.

(** A capture directory without files. *)
Definition toy_capture_empty : capture :=
  {| os_walk := [("raw/none", [], [])];
     json_files := ∅; npy_files := ∅; png_files := ∅ |}.

(** [self] when the toy capture is scanned and its JSON files are read. *)
Definition toy_scanned : Builder :=
  let self := Toy.toy_self 100 in
  let r :=
    self ← _get_filepaths_from_data_dir Toy.toy_capture self "raw/set1";
    _load_json_data Toy.toy_capture self in
  match r with
  | Ok self => self
  | Err _ => self
  end.

(** The segmenter of [dataset.build] on the toy arrays: the points of a
    frame are the length of the path of its point file. *)
Global Instance toy_ply : PlySegmenter := {|
  segmentImagePly := fun img ply_path =>
    (Z.succ <$> img, [Z.of_nat (String.length ply_path)]);
|}.

(** A raw directory of two frames as [dataset.build] reads it. *)
Definition toy_raw : raw_files :=
  {| raw_listdir :=
       {["raw/set1" := ["a.json"; "a_full.ply"; "a_og.png";
                        "b.json"; "b_full.ply"; "b_og.png"]]};
     raw_png :=
       {["raw/set1/a_og.png" := [5; 6]%Z; "raw/set1/b_og.png" := [7; 8]%Z]};
     raw_json :=
       {["raw/set1/a.json" := [[10]; [11]; [12]; [13]; [14]; [15]]%Z;
         "raw/set1/b.json" := [[20]; [21]; [22]; [23]; [24]; [25]]%Z]} |}.

Definition toy_build_clock : build_clock :=
  {| t_start := 100%Z; t_info := 160%Z; now_info := "2021-03-07 10:00:01" |}.

Definition toy_build_clock' : build_clock :=
  {| t_start := 200%Z; t_info := 290%Z; now_info := "2021-03-08 10:00:01" |}.

Definition empty_dsdisk : dsdisk :=
  {| ds_dirs := ∅; ds_files := ∅; ds_npy := ∅; ds_avi := ∅; ds_ply := ∅;
     ds_rest := ∅ |}.

(** The disk after [build] of the toy raw directory. *)
Definition toy_ds_built : dsdisk :=
  (build toy_raw toy_build_clock "raw/set1" None empty_dsdisk).2.

(** The skeleton directory. *)
Definition toy_skeletons : list string := ["B.csv"; "notes.txt"; "A.csv"; "AB.csv"].

(** An [initialize_dataset] that writes nothing. *)
Definition toy_initialize_dataset (images : npy) (datapath skeleton : string)
    (overwrite : bool) : PY dsdisk unit := mret tt.

End ToyDataset.

(** * Properties *)

Import Building.

(** ** The error monad and the loops *)

Lemma bind_Ok {A B} (m : result A) (f : A -> result B) (y : B) :
  (m ≫= f) = Ok y -> exists x, m = Ok x /\ f x = Ok y.
Proof. destruct m as [x|e]; simpl; [eauto | discriminate]. Qed.

Lemma or_raise_Ok {A} (o : option A) (e : exn) (x : A) :
  o ?! e = Ok x <-> o = Some x.
Proof. destruct o; simpl; split; congruence. Qed.

Lemma py_assert_Ok (b : bool) (msg : string) (u : unit) :
  py_assert b msg = Ok u -> b = true.
Proof. destruct b; simpl; [done | discriminate]. Qed.

(** Splits a hypothesis [(x ← m; k) = Ok y] into its steps. *)
Ltac bind_inv H :=
  let x := fresh "x" in
  let Hx := fresh "Hx" in
  apply bind_Ok in H; destruct H as (x & Hx & H).

Tactic Notation "bind_split" hyp(H) "as" simple_intropattern(x) ident(Hx) :=
  apply bind_Ok in H; destruct H as (x & Hx & H).

Lemma getitem_Ok {A} (l : list A) (i : nat) (x : A) :
  getitem l i = Ok x <-> l !! i = Some x.
Proof. apply or_raise_Ok. Qed.

Lemma setitem_Ok {A} (l l' : list A) (i : nat) (v : A) :
  setitem l i v = Ok l' -> l' = <[i := v]> l /\ i < length l.
Proof. unfold setitem. case_decide; [|discriminate]. intros [= <-]. done. Qed.

Lemma setitem_length {A} (l l' : list A) (i : nat) (v : A) :
  setitem l i v = Ok l' -> length l' = length l.
Proof. intros [-> _]%setitem_Ok. apply length_insert. Qed.

(** An invariant of the state of a [for] loop holds when the loop ends. *)
Lemma for_each_invariant {A S} (P : S -> Prop) (l : list A)
    (body : A -> S -> result S) (s s' : S) :
  P s ->
  (forall x t t', P t -> body x t = Ok t' -> P t') ->
  for_each l body s = Ok s' -> P s'.
Proof.
  intros Hs Hbody. revert s Hs. induction l as [|x l IH]; simpl; intros s Hs Hrun.
  - by injection Hrun as <-.
  - bind_inv Hrun. eapply IH; [|exact Hrun]. eauto.
Qed.

(** A loop that appends one computed element per item. *)
Lemma for_each_collect {A B} (g : A -> result B) (h : A -> B) (l : list A)
    (acc : list B) :
  (forall x, x ∈ l -> g x = Ok (h x)) ->
  for_each l (fun x acc => y ← g x; Ok (acc ++ [y])) acc = Ok (acc ++ (h <$> l)).
Proof.
  revert acc. induction l as [|x l IH]; simpl; intros acc Hg.
  - by rewrite app_nil_r.
  - rewrite Hg by left. simpl. rewrite IH.
    + by rewrite <- app_assoc.
    + intros y Hy. apply Hg. by right.
Qed.

Lemma for_each_collect_length {A B} (g : A -> result B) (l : list A)
    (acc out : list B) :
  for_each l (fun x acc => y ← g x; Ok (acc ++ [y])) acc = Ok out ->
  length out = length acc + length l.
Proof.
  revert acc. induction l as [|x l IH]; simpl; intros acc Hrun.
  - injection Hrun as <-. lia.
  - bind_inv Hrun. bind_inv Hx. injection Hx as <-.
    apply IH in Hrun. rewrite Hrun, length_app. simpl. lia.
Qed.

(** ** [range] *)

Lemma range_from_done (fuel start stop step : nat) :
  stop <= start -> range_from fuel start stop step = [].
Proof. destruct fuel; simpl; [done|]. case_decide; [lia | done]. Qed.

(** ** The pool *)

Lemma chunks_of_concat {A} (fuel size : nat) (l : list A) :
  0 < size -> length l <= fuel -> concat (chunks_of fuel size l) = l.
Proof.
  intros Hsize. revert l. induction fuel as [|fuel IH]; intros l Hlen.
  - destruct l; simpl in *; [done | lia].
  - destruct l as [|x l]; [done|]. cbn [chunks_of concat].
    rewrite IH.
    + apply take_drop.
    + rewrite length_drop. simpl in *. lia.
Qed.

Lemma pool_chunksize_pos (workers len : nat) :
  0 < workers -> 0 < len -> 0 < pool_chunksize workers len.
Proof.
  intros Hw Hlen. unfold pool_chunksize. case_decide as Hmod; [|lia].
  pose proof (Nat.div_mod_eq len (workers * 4)) as Hdiv.
  rewrite Hmod in Hdiv. destruct (len / (workers * 4)); lia.
Qed.

(** Whatever the number of workers, [starmap] returns the outputs in the
    order of the inputs. *)
Lemma pool_starmap_ordered {A B} (workers : nat) (f : A -> B) (inputs : list A) :
  0 < workers -> pool_starmap workers f inputs = Ok (f <$> inputs).
Proof.
  intros Hw. unfold pool_starmap. case_decide; [lia|]. f_equal.
  rewrite <- concat_map. f_equal.
  destruct inputs as [|x inputs]; [done|].
  apply chunks_of_concat; [|done].
  apply pool_chunksize_pos; simpl; lia.
Qed.

(** ** The cropping stage keeps the frame order *)

Section CropOrder.
Context `{Collaborators}.

Lemma crop_input_lookup (self : Builder) (idx : nat) args :
  inputs_of self !! idx = Some args -> crop_input self idx = Ok args.
Proof.
  unfold inputs_of, crop_input, getitem. intros Hargs.
  apply lookup_zip_with_Some in Hargs as (dim & r & -> & Hdim & ->).
  apply lookup_zip_with_Some in Hdim as (di & m & -> & Hdi & ->).
  apply lookup_zip_with_Some in Hdi as (d & i & -> & -> & ->).
  done.
Qed.

Lemma length_inputs_of (self : Builder) (n : nat) :
  length (depthmap_arr self) = n -> length (orig_img_arr self) = n ->
  length (mask_arr self) = n -> length (rois self) = n ->
  length (inputs_of self) = n.
Proof.
  intros Hd Hi Hm Hr. unfold inputs_of.
  rewrite !length_zip_with. lia.
Qed.

(** The inputs of a batch are the inputs of its frames, in order. *)
Lemma crop_inputs_from (self : Builder) (b : nat) :
  forall start acc,
    start + b <= length (inputs_of self) ->
    for_each (seq start b)
      (fun idx acc => args ← crop_input self idx; Ok (acc ++ [args])) acc
    = Ok (acc ++ take b (drop start (inputs_of self))).
Proof.
  induction b as [|b IH]; intros start acc Hlen; simpl.
  - by rewrite take_0, app_nil_r.
  - destruct (lookup_lt_is_Some_2 (inputs_of self) start) as [x Hx]; [lia|].
    rewrite (crop_input_lookup _ _ _ Hx). simpl.
    rewrite IH by lia.
    rewrite (drop_S _ _ _ Hx). simpl. by rewrite <- app_assoc.
Qed.

Lemma crop_inputs_batch (self : Builder) (start b : nat) :
  start + b <= length (inputs_of self) ->
  for_each (py_range start (start + b))
    (fun idx acc => args ← crop_input self idx; Ok (acc ++ [args])) []
  = Ok (take b (drop start (inputs_of self))).
Proof.
  intros Hlen. unfold py_range.
  replace (start + b - start) with b by lia.
  by rewrite crop_inputs_from.
Qed.

Lemma setrow_length (arr arr' : list ndarray) (idx : nat) (v : ndarray) :
  setrow arr idx v = Ok arr' -> length arr' = length arr.
Proof.
  unfold setrow. intros Hrun. bind_inv Hrun. bind_inv Hrun.
  by apply setitem_length in Hrun.
Qed.

(** Writing the first row that is still as allocated. *)
Lemma setrow_next (filled : list ndarray) (k n : nat) (z v : ndarray) :
  length filled = k ->
  np_assign z v = Some v ->
  setrow (filled ++ z :: replicate n z) k v
  = Ok ((filled ++ [v]) ++ replicate n z).
Proof.
  intros <- Hv. unfold setrow, getitem.
  rewrite lookup_app_r, Nat.sub_diag by lia. simpl. rewrite Hv. simpl.
  unfold setitem. rewrite length_app. simpl.
  case_decide; [|lia]. f_equal.
  rewrite <- (Nat.add_0_r (length filled)) at 1.
  rewrite insert_app_r. simpl. by rewrite <- app_assoc.
Qed.

Section Batches.
Variable self0 : Builder.
Variable workers : nat.
Hypothesis workers_pos : 0 < workers.
Hypothesis fits : crop_fits.

(** The outputs of the sequential cropping, and the output arrays when
    the first [k] frames are cropped. *)
Let outs : list (ndarray * ndarray) := crop_args <$> inputs_of self0.
Let n : nat := length (inputs_of self0).
Let seg_upto (k : nat) : list ndarray := take k (outs.*1) ++ replicate (n - k) zero_seg.
Let pm_upto (k : nat) : list ndarray := take k (outs.*2) ++ replicate (n - k) zero_pm.

Lemma write_back (start b : nat) (outputs : list (ndarray * ndarray)) :
  start + b <= n ->
  outputs = crop_args <$> take b (drop start (inputs_of self0)) ->
  forall r j, j + r = b ->
    for_each (seq (start + j) r)
      (fun idx self =>
         out ← getitem outputs (idx - start);
         seg ← setrow (segmented_img_arr self) idx out.1;
         let self := set_segmented_img_arr seg self in
         pm ← setrow (pointmap self) idx out.2;
         Ok (set_pointmap pm self))
      (with_outputs (seg_upto (start + j)) (pm_upto (start + j)) self0)
    = Ok (with_outputs (seg_upto (start + b)) (pm_upto (start + b)) self0).
Proof.
  intros Hb ->. induction r as [|r IH]; intros j Hj; simpl.
  - by replace j with b by lia.
  - destruct (lookup_lt_is_Some_2 (inputs_of self0) (start + j)) as [x Hx];
      [fold n; lia|].
    replace (start + j - start) with j by lia.
    unfold getitem. rewrite list_lookup_fmap, lookup_take_lt, lookup_drop, Hx by lia.
    simpl.
    assert (length (take (start + j) outs.*1) = start + j) as Hlen1.
    { rewrite length_take, length_fmap. unfold outs. rewrite length_fmap.
      fold n. lia. }
    assert (length (take (start + j) outs.*2) = start + j) as Hlen2.
    { rewrite length_take, length_fmap. unfold outs. rewrite length_fmap.
      fold n. lia. }
    assert (crop_fits_x : np_assign zero_seg (crop_args x).1 = Some (crop_args x).1
                          /\ np_assign zero_pm (crop_args x).2 = Some (crop_args x).2).
    { destruct x as [[[d i] m] r0]. apply fits. }
    destruct crop_fits_x as [Hseg Hpm].
    assert (seg_upto (start + j)
            = take (start + j) outs.*1 ++ replicate (S (n - S (start + j))) zero_seg)
      as ->.
    { unfold seg_upto. do 2 f_equal. lia. }
    assert (pm_upto (start + j)
            = take (start + j) outs.*2 ++ replicate (S (n - S (start + j))) zero_pm)
      as ->.
    { unfold pm_upto. do 2 f_equal. lia. }
    simpl.
    rewrite (setrow_next _ _ _ _ _ Hlen1 Hseg). simpl.
    rewrite (setrow_next _ _ _ _ _ Hlen2 Hpm). simpl.
    rewrite <- (take_S_r outs.*1 (start + j) (crop_args x).1).
    2:{ unfold outs. by rewrite !list_lookup_fmap, Hx. }
    rewrite <- (take_S_r outs.*2 (start + j) (crop_args x).2).
    2:{ unfold outs. by rewrite !list_lookup_fmap, Hx. }
    specialize (IH (S j) ltac:(lia)).
    replace (start + S j) with (S (start + j)) in IH by lia.
    exact IH.
Qed.

(** One batch crops its frames and leaves the others as they are. *)
Lemma crop_batch_spec (start b : nat) :
  start + b <= n ->
  crop_batch workers (with_outputs (seg_upto start) (pm_upto start) self0) start b
  = Ok (with_outputs (seg_upto (start + b)) (pm_upto (start + b)) self0).
Proof.
  intros Hb. unfold crop_batch.
  change (crop_input (with_outputs (seg_upto start) (pm_upto start) self0))
    with (crop_input self0).
  rewrite crop_inputs_batch by (fold n; lia). simpl.
  rewrite pool_starmap_ordered by done. simpl.
  unfold py_range. replace (start + b - start) with b by lia.
  pose proof (write_back start b _ Hb eq_refl b 0 ltac:(lia)) as Hwb.
  rewrite Nat.add_0_r in Hwb. exact Hwb.
Qed.

Variable batch_size : nat.
Hypothesis batch_size_pos : 0 < batch_size.
Hypothesis length_self0 : self_length self0 = n.

Lemma crop_batches_spec (fuel : nat) :
  forall start,
    start <= n -> n - start <= fuel ->
    crop_batches workers (range_from fuel start n batch_size) batch_size
      (with_outputs (seg_upto start) (pm_upto start) self0)
    = Ok (with_outputs (seg_upto n) (pm_upto n) self0).
Proof.
  induction fuel as [|fuel IH]; intros start Hstart Hfuel; simpl.
  - by replace start with n by lia.
  - case_decide as Hlt; simpl; [|by replace start with n by lia].
    change (self_length (with_outputs (seg_upto start) (pm_upto start) self0))
      with (self_length self0).
    rewrite length_self0.
    case_decide as Hlast.
    + rewrite crop_batch_spec by lia. simpl.
      replace (start + (n - start)) with n by lia.
      by rewrite range_from_done by lia.
    + rewrite crop_batch_spec by lia. simpl.
      apply IH; lia.
Qed.

End Batches.

Lemma with_outputs_eta (self : Builder) :
  with_outputs (segmented_img_arr self) (pointmap self) self = self.
Proof. by destruct self. Qed.

(** What the segmentation leaves for the cropping stage. *)
Lemma segment_frames_spec (self s1 : Builder) :
  segment_frames self = Ok s1 ->
  self_length s1 = self_length self /\
  orig_img_arr s1 = orig_img_arr self /\
  depthmap_arr s1 = depthmap_arr self /\
  segmented_img_arr s1 = replicate (self_length self) zero_seg /\
  pointmap s1 = replicate (self_length self) zero_pm /\
  length (mask_arr s1) = self_length self /\
  length (rois s1) = self_length self.
Proof.
  unfold segment_frames. intros Hrun. bind_inv Hrun. injection Hrun as <-.
  simpl. rewrite length_fmap.
  eapply (for_each_invariant (fun t =>
    self_length t = self_length self /\
    orig_img_arr t = orig_img_arr self /\
    depthmap_arr t = depthmap_arr self /\
    segmented_img_arr t = replicate (self_length self) zero_seg /\
    pointmap t = replicate (self_length self) zero_pm /\
    length (mask_arr t) = self_length self /\
    length (rois t) = self_length self)); [| |exact Hx].
  - simpl. by rewrite !length_replicate.
  - clear. intros idx t t' (Hn & Ho & Hd & Hs & Hp & Hm & Hr) Hbody.
    bind_inv Hbody. destruct (segmentImage x) as [mask roi].
    bind_inv Hbody. bind_inv Hbody. injection Hbody as <-. simpl in *.
    apply setrow_length in Hx0, Hx1. repeat split; congruence.
Qed.

Lemma segment_images_and_maps_with_spec (batch_size workers : nat)
    (self s1 : Builder) :
  0 < batch_size -> 0 < workers -> crop_fits ->
  length (orig_img_arr self) = self_length self ->
  length (depthmap_arr self) = self_length self ->
  segment_frames self = Ok s1 ->
  segment_images_and_maps_with batch_size workers self
  = Ok (with_outputs (crop_args <$> inputs_of s1).*1
          (crop_args <$> inputs_of s1).*2 s1).
Proof.
  intros Hbs Hw Hfits Horig Hdepth Hseg.
  destruct (segment_frames_spec _ _ Hseg) as (Hn & Ho & Hd & Hs & Hp & Hm & Hr).
  unfold segment_images_and_maps_with. rewrite Hseg. simpl.
  unfold py_range3. case_decide; [lia|]. simpl.
  assert (length (inputs_of s1) = self_length s1) as Hlen.
  { apply length_inputs_of; congruence. }
  pose proof (crop_batches_spec s1 workers Hw Hfits batch_size Hbs
                (eq_sym Hlen) (self_length s1) 0) as Hloop.
  rewrite Hlen, Nat.sub_0_r, Nat.sub_diag, !app_nil_r in Hloop.
  specialize (Hloop ltac:(lia) ltac:(lia)).
  assert (length (crop_args <$> inputs_of s1).*1 <= self_length s1) as Hle1.
  { rewrite !length_fmap. lia. }
  assert (length (crop_args <$> inputs_of s1).*2 <= self_length s1) as Hle2.
  { rewrite !length_fmap. lia. }
  rewrite (take_ge _ _ Hle1), (take_ge _ _ Hle2) in Hloop.
  simpl in Hloop.
  replace (replicate (self_length s1) zero_seg) with (segmented_img_arr s1)
    in Hloop by congruence.
  replace (replicate (self_length s1) zero_pm) with (pointmap s1)
    in Hloop by congruence.
  rewrite with_outputs_eta in Hloop.
  exact Hloop.
Qed.

(** Claim C1. For every batch size and every number of workers, the
    batched multiprocess cropping stores at index [i] of
    [segmented_img_arr] and [pointmap] the two components of
    [crop(depthmap_arr[i], orig_img_arr[i], mask_arr[i], rois[i])]: the
    two arrays are those of the sequential cropping of all frames, and the
    run is the run with batch size 1 and a single worker. The method
    itself is the instance with batch size 100 and [workerCount()]
    workers. *)
Theorem segment_images_and_maps_order (batch_size workers : nat)
    (self s1 : Builder) :
  0 < batch_size -> 0 < workers -> crop_fits ->
  length (orig_img_arr self) = self_length self ->
  length (depthmap_arr self) = self_length self ->
  segment_frames self = Ok s1 ->
  exists self',
    segment_images_and_maps_with batch_size workers self = Ok self' /\
    segment_images_and_maps_with 1 1 self = Ok self' /\
    (0 < workerCount -> _segment_images_and_maps self = Ok self') /\
    depthmap_arr self' = depthmap_arr self /\
    orig_img_arr self' = orig_img_arr self /\
    mask_arr self' = mask_arr s1 /\
    rois self' = rois s1 /\
    zip (segmented_img_arr self') (pointmap self')
    = crop_sequential (depthmap_arr self') (orig_img_arr self')
        (mask_arr self') (rois self') /\
    forall i, i < self_length self ->
      exists d img m r,
        depthmap_arr self' !! i = Some d /\
        orig_img_arr self' !! i = Some img /\
        mask_arr self' !! i = Some m /\
        rois self' !! i = Some r /\
        segmented_img_arr self' !! i = Some (crop d img m r).1 /\
        pointmap self' !! i = Some (crop d img m r).2.
Proof.
  intros Hbs Hw Hfits Horig Hdepth Hseg.
  destruct (segment_frames_spec _ _ Hseg) as (Hn & Ho & Hd & Hs & Hp & Hm & Hr).
  eexists. split; [by apply segment_images_and_maps_with_spec|].
  split; [apply segment_images_and_maps_with_spec; (done || lia)|].
  split; [intros Hwc; apply segment_images_and_maps_with_spec; (done || lia)|].
  simpl. repeat split; try done.
  - apply zip_fst_snd.
  - intros i Hi.
    assert (length (inputs_of s1) = self_length self) as Hlen.
    { apply length_inputs_of; congruence. }
    destruct (lookup_lt_is_Some_2 (inputs_of s1) i) as [[[[d img] m] r] Hx]; [lia|].
    exists d, img, m, r. rewrite !list_lookup_fmap, Hx. simpl.
    unfold inputs_of in Hx.
    apply lookup_zip_with_Some in Hx as (dim & r' & [= <- <-] & Hdim & Hr').
    apply lookup_zip_with_Some in Hdim as (di & m' & [= <- <-] & Hdi & Hm').
    apply lookup_zip_with_Some in Hdi as (d' & i' & [= <- <-] & Hd' & Hi').
    done.
Qed.

End CropOrder.

Lemma segment_images_and_maps_order_witness :
  exists self' : Builder,
    segment_images_and_maps_with 1 2 Toy.toy_loaded = Ok self' /\
    segment_images_and_maps_with 1 1 Toy.toy_loaded = Ok self' /\
    segmented_img_arr self' = [[7; 8; 8; 9]; [5; 6; 6; 7]]%Z.
Proof.
  destruct (segment_images_and_maps_order 1 2 Toy.toy_loaded
              (match segment_frames Toy.toy_loaded with
               | Ok s1 => s1
               | Err _ => Toy.toy_loaded
               end))
    as (self' & Hrun & Hseq & _ & _ & _ & _ & _ & _ & Hrows);
    [lia | lia | intros d i m r; split; reflexivity
     | reflexivity | reflexivity | vm_compute; reflexivity |].
  exists self'. split; [exact Hrun|]. split; [exact Hseq|].
  vm_compute in Hrun. injection Hrun as <-. reflexivity.
Defined.

(** ** The stages of the full build *)

Section Stages.
Context `{Collaborators} `{Paths}.

Lemma setitem2_length (arr arr' : list ndarray) (idx sub_idx : nat) (v : ndarray) :
  setitem2 arr idx sub_idx v = Ok arr' -> length arr' = length arr.
Proof.
  unfold setitem2. intros Hrun. bind_inv Hrun. bind_inv Hrun.
  by apply setitem_length in Hrun.
Qed.

(** The scanner: the three lists are the walk filtered by extension, and
    the assertion makes them equally long. *)
Lemma get_filepaths_spec (cap : capture) (self s : Builder) (data_path : string) :
  _get_filepaths_from_data_dir cap self data_path = Ok s ->
  s = set_self_length (length (walk_files cap ".png"))
        (set_imgs (str_replace data_path "" <$> walk_files cap ".png")
        (set_maps (str_replace data_path "" <$> walk_files cap ".npy")
        (set_jsons (str_replace data_path "" <$> walk_files cap ".json")
        (set_imgs_p (walk_files cap ".png")
        (set_maps_p (walk_files cap ".npy")
        (set_jsons_p (walk_files cap ".json") self)))))) /\
  length (walk_files cap ".json") = length (walk_files cap ".png") /\
  length (walk_files cap ".npy") = length (walk_files cap ".png").
Proof.
  unfold _get_filepaths_from_data_dir. intros Hrun. bind_inv Hrun.
  injection Hrun as <-. apply py_assert_Ok in Hx. simpl in Hx.
  rewrite !length_fmap in *.
  apply andb_prop in Hx as [Hjm Hmi].
  apply bool_decide_eq_true in Hjm, Hmi. split; [done|]. split; congruence.
Qed.

(** The loop over the JSON files: the two arrays keep their length, every
    file of the loop is read and its camera settings are in the sets. *)
Lemma parse_json_spec (cap : capture) (s0 : Builder) (n : nat)
    (l : list (nat * string)) :
  forall ang pos cams t cams',
    length ang = n -> length pos = n ->
    for_each l (parse_json cap) (set_pos_arr pos (set_ang_arr ang s0), cams)
    = Ok (t, cams') ->
    (exists ang' pos',
        t = set_pos_arr pos' (set_ang_arr ang' s0) /\
        length ang' = n /\ length pos' = n) /\
    seen_depth_scale cams ⊆ seen_depth_scale cams' /\
    seen_intrin_depth cams ⊆ seen_intrin_depth cams' /\
    seen_intrin_color cams ⊆ seen_intrin_color cams' /\
    forall path, path ∈ l.*2 ->
      exists d, json_files cap !! path = Some d /\
        rs_depth_scale d ∈ seen_depth_scale cams' /\
        rs_intrin_depth d ∈ seen_intrin_depth cams' /\
        rs_intrin_color d ∈ seen_intrin_color cams'.
Proof.
  induction l as [|[idx path] l IH]; intros ang pos cams t cams' Hang Hpos Hrun.
  - injection Hrun as <- <-. split; [eauto|]. repeat split; try done.
    intros path Hin. by apply elem_of_nil in Hin.
  - cbn [for_each] in Hrun. bind_split Hrun as [t1 cams1] Hstep.
    unfold parse_json in Hstep. bind_split Hstep as d Hd.
    bind_split Hstep as t2 Hjoints. injection Hstep as <- <-.
    apply or_raise_Ok in Hd.
    assert (exists ang1 pos1, t2 = set_pos_arr pos1 (set_ang_arr ang1 s0) /\
              length ang1 = n /\ length pos1 = n) as (ang1 & pos1 & -> & Ha1 & Hp1).
    { eapply (for_each_invariant (fun t => exists a p,
        t = set_pos_arr p (set_ang_arr a s0) /\ length a = n /\ length p = n));
        [| |exact Hjoints]; [by eauto|].
      clear. intros sub t t' (a & p & -> & Ha & Hp) Hbody.
      bind_split Hbody as j Hj. bind_split Hbody as a' Ha'.
      bind_split Hbody as p' Hp'. injection Hbody as <-.
      simpl in *. apply setitem2_length in Ha', Hp'.
      exists a', p'. split; [done|]. split; congruence. }
    destruct (IH _ _ _ _ _ Ha1 Hp1 Hrun) as (Harr & Hds & Hid & Hic & Hall).
    simpl in Hds, Hid, Hic.
    split; [done|].
    split; [clear -Hds; set_solver|].
    split; [clear -Hid; set_solver|].
    split; [clear -Hic; set_solver|].
    intros path' Hin. simpl in Hin. apply elem_of_cons in Hin as [->|Hin].
    + exists d. split; [done|]. clear -Hds Hid Hic. set_solver.
    + by apply Hall.
Qed.

(** A set of one element has no two different members. *)
Lemma size_1_unique `{Countable A} (X : gset A) (x y : A) :
  size X = 1 -> x ∈ X -> y ∈ X -> x = y.
Proof.
  intros [z Hz]%size_1_elem_of Hx Hy. clear -Hz Hx Hy. set_solver.
Qed.

Lemma set_pop_elem_of `{Countable A} (X : gset A) (x : A) :
  set_pop X = Ok x -> x ∈ X.
Proof.
  unfold set_pop. intros Hx%or_raise_Ok.
  apply elem_of_elements. destruct (elements X); simplify_eq/=. by left.
Qed.

(** [_load_json_data]: the two kinematic arrays have one row per frame and
    the camera settings kept are those of every JSON file of the loop. *)
Lemma load_json_data_spec (cap : capture) (s s' : Builder) :
  _load_json_data cap s = Ok s' ->
  exists ang pos ds idp icl,
    s' = set_intrin_color (AStr icl) (set_intrin_depth (AStr idp)
           (set_depth_scale (AFloat ds) (set_pos_arr pos (set_ang_arr ang s)))) /\
    length ang = self_length s /\ length pos = self_length s /\
    forall path, path ∈ (zip (py_range 0 (self_length s)) (jsons_p s)).*2 ->
      exists d, json_files cap !! path = Some d /\
        rs_depth_scale d = ds /\ rs_intrin_depth d = idp /\
        rs_intrin_color d = icl.
Proof.
  unfold _load_json_data. intros Hrun.
  bind_split Hrun as [t cams] Hloop. unfold parse_jsons in Hloop.
  bind_split Hrun as u Hassert.
  bind_split Hrun as ds Hds. bind_split Hrun as idp Hidp.
  bind_split Hrun as icl Hicl. injection Hrun as <-.
  apply py_assert_Ok in Hassert.
  apply andb_prop in Hassert as [Hassert Hc1].
  apply andb_prop in Hassert as [Hc2 Hc3].
  apply bool_decide_eq_true in Hc1, Hc2, Hc3.
  apply set_pop_elem_of in Hds, Hidp, Hicl.
  simpl in Hloop.
  apply (parse_json_spec cap s (self_length s)) in Hloop
    as ((ang & pos & -> & Hang & Hpos) & _ & _ & _ & Hall);
    [|by rewrite length_replicate..].
  exists ang, pos, ds, idp, icl. repeat split; try done.
  intros path Hin. destruct (Hall path Hin) as (d & Hd & Hd1 & Hd2 & Hd3).
  exists d. split; [done|]. repeat split.
  - eapply size_1_unique; [|done..]. congruence.
  - eapply size_1_unique; [|done..]. congruence.
  - eapply size_1_unique; [|done..]. congruence.
Qed.

(** [_load_imgs_and_depthmaps]: one image and one depth map per frame. *)
Lemma load_imgs_and_depthmaps_spec (cap : capture) (s s' : Builder) :
  _load_imgs_and_depthmaps cap s = Ok s' ->
  exists h w orig depth,
    s' = set_depthmap_arr depth (set_orig_img_arr orig
           (set_img_width w (set_img_height h s))) /\
    length orig = self_length s /\ length depth = self_length s /\
    0 < length (imgs_p s).
Proof.
  unfold _load_imgs_and_depthmaps. intros Hrun.
  bind_split Hrun as path0 Hpath0.
  apply getitem_Ok, lookup_lt_Some in Hpath0. bind_split Hrun as img Himg.
  bind_split Hrun as [h w] Hshape. bind_split Hrun as t1 Hloop1.
  bind_split Hrun as t2 Hloop2. bind_split Hrun as depth Hmul.
  injection Hrun as <-. simpl in Hloop1.
  set (base := set_img_width w (set_img_height h s)) in *.
  assert (exists orig d, t1 = set_depthmap_arr d (set_orig_img_arr orig base) /\
            length orig = self_length s /\ length d = self_length s)
    as (orig & d & -> & Horig & Hd).
  { eapply (for_each_invariant (fun t => exists orig d,
      t = set_depthmap_arr d (set_orig_img_arr orig base) /\
      length orig = self_length s /\ length d = self_length s));
      [| |exact Hloop1].
    - do 2 eexists. split; [reflexivity|]. by rewrite !length_replicate.
    - clear. intros [idx path] t t' (orig & d & -> & Horig & Hd) Hbody.
      bind_split Hbody as img Himg. bind_split Hbody as arr Harr.
      injection Hbody as <-. simpl in Harr. apply setrow_length in Harr.
      exists arr, d. split; [done|]. split; congruence. }
  simpl in Hloop2.
  assert (exists orig' d', t2 = set_depthmap_arr d' (set_orig_img_arr orig' base) /\
            length orig' = self_length s /\ length d' = self_length s)
    as (orig' & d' & -> & Horig' & Hd').
  { eapply (for_each_invariant (fun t => exists orig d,
      t = set_depthmap_arr d (set_orig_img_arr orig base) /\
      length orig = self_length s /\ length d = self_length s));
      [| |exact Hloop2].
    - by eauto.
    - clear. intros [idx path] t t' (orig & d & -> & Horig & Hd) Hbody.
      bind_split Hbody as map Hmap. bind_split Hbody as arr Harr.
      injection Hbody as <-. simpl in Harr. apply setrow_length in Harr.
      exists orig, arr. split; [done|]. split; congruence. }
  simpl in Hmul. apply for_each_collect_length in Hmul. simpl in Hmul.
  exists h, w, orig', depth. split; [done|]. repeat split; congruence.
Qed.

(** The segmentation allocates the outputs and fills the masks and the
    regions of interest. *)
Lemma segment_frames_shape (s s1 : Builder) :
  segment_frames s = Ok s1 ->
  exists masks rs,
    s1 = set_rois rs (set_mask_arr masks
           (with_outputs (replicate (self_length s) zero_seg)
              (replicate (self_length s) zero_pm) s)) /\
    length masks = self_length s /\ length rs = self_length s.
Proof.
  unfold segment_frames. intros Hrun. bind_split Hrun as t Hloop.
  injection Hrun as <-.
  set (base := with_outputs (replicate (self_length s) zero_seg)
                 (replicate (self_length s) zero_pm) s) in *.
  assert (exists masks rs, t = set_rois rs (set_mask_arr masks base) /\
            length masks = self_length s /\ length rs = self_length s)
    as (masks & rs & -> & Hm & Hr).
  { eapply (for_each_invariant (fun t => exists masks rs,
      t = set_rois rs (set_mask_arr masks base) /\
      length masks = self_length s /\ length rs = self_length s));
      [| |exact Hloop].
    - do 2 eexists. split; [reflexivity|]. by rewrite !length_replicate.
    - clear. intros idx t t' (masks & rs & -> & Hm & Hr) Hbody.
      bind_split Hbody as img Himg. destruct (segmentImage img) as [mask roi].
      bind_split Hbody as masks' Hm'. bind_split Hbody as rs' Hr'.
      injection Hbody as <-. simpl in *. apply setrow_length in Hm', Hr'.
      exists masks', rs'. split; [done|]. split; congruence. }
  exists masks, (np_astype_int <$> rs). split; [done|].
  by rewrite length_fmap.
Qed.

(** The batches only write the two output arrays and keep their length. *)
Lemma crop_batch_shape (workers : nat) (s0 : Builder) (start b : nat)
    (seg pm : list ndarray) (t : Builder) :
  crop_batch workers (with_outputs seg pm s0) start b = Ok t ->
  exists seg' pm',
    t = with_outputs seg' pm' s0 /\
    length seg' = length seg /\ length pm' = length pm.
Proof.
  unfold crop_batch. intros Hrun. bind_split Hrun as ins Hins.
  bind_split Hrun as outs Houts.
  eapply (for_each_invariant (fun t => exists seg' pm',
    t = with_outputs seg' pm' s0 /\
    length seg' = length seg /\ length pm' = length pm)); [| |exact Hrun].
  - by eauto.
  - clear. intros idx t t' (seg' & pm' & -> & Hs & Hp) Hbody.
    bind_split Hbody as out Hout. bind_split Hbody as seg2 Hseg2.
    bind_split Hbody as pm2 Hpm2. injection Hbody as <-. simpl in *.
    apply setrow_length in Hseg2, Hpm2.
    exists seg2, pm2. split; [done|]. split; congruence.
Qed.

Lemma crop_batches_shape (workers : nat) (s0 : Builder) (starts : list nat) :
  forall batch_size seg pm t,
    crop_batches workers starts batch_size (with_outputs seg pm s0) = Ok t ->
    exists seg' pm',
      t = with_outputs seg' pm' s0 /\
      length seg' = length seg /\ length pm' = length pm.
Proof.
  induction starts as [|start starts IH]; intros batch_size seg pm t Hrun.
  - injection Hrun as <-. by eauto.
  - cbn [crop_batches] in Hrun. bind_split Hrun as t1 Hbatch.
    apply crop_batch_shape in Hbatch as (seg1 & pm1 & -> & Hs1 & Hp1).
    apply IH in Hrun as (seg' & pm' & -> & Hs & Hp).
    exists seg', pm'. split; [done|]. split; congruence.
Qed.

Lemma segment_images_and_maps_shape (s s' : Builder) :
  _segment_images_and_maps s = Ok s' ->
  exists seg pm masks rs,
    s' = with_outputs seg pm (set_rois rs (set_mask_arr masks s)) /\
    length seg = self_length s /\ length pm = self_length s /\
    length masks = self_length s /\ length rs = self_length s.
Proof.
  unfold _segment_images_and_maps, segment_images_and_maps_with. intros Hrun.
  bind_split Hrun as s1 Hseg. bind_split Hrun as starts Hstarts.
  apply segment_frames_shape in Hseg as (masks & rs & -> & Hm & Hr).
  change (set_rois rs (set_mask_arr masks
            (with_outputs (replicate (self_length s) zero_seg)
               (replicate (self_length s) zero_pm) s)))
    with (with_outputs (replicate (self_length s) zero_seg)
            (replicate (self_length s) zero_pm)
            (set_rois rs (set_mask_arr masks s))) in Hrun.
  apply crop_batches_shape in Hrun as (seg & pm & -> & Hs & Hp).
  rewrite length_replicate in Hs, Hp.
  exists seg, pm, masks, rs. done.
Qed.

End Stages.

(** ** Writing a container *)

Section Writing.
Context `{Collaborators} `{Paths}.

Lemma st_bind_Ok {S A B} (m : ST S A) (f : A -> ST S B) (s s2 : S) (y : B) :
  (m ≫= f) s = (Ok y, s2) ->
  exists x s1, m s = (Ok x, s1) /\ f x s1 = (Ok y, s2).
Proof.
  unfold mbind, ST_bind. destruct (m s) as [[x|e] s1]; [eauto | discriminate].
Qed.

Lemma st_lift_Ok {S A} (r : result A) (s s1 : S) (x : A) :
  st_lift r s = (Ok x, s1) -> r = Ok x /\ s1 = s.
Proof. unfold st_lift. by intros [= -> ->]. Qed.

Lemma st_modify_Ok {S} (g : S -> S) (s s1 : S) (u : unit) :
  st_modify g s = (Ok u, s1) -> s1 = g s.
Proof. by intros [= <-]. Qed.

Lemma with_File_a_Ok {A} (path : string) (body : H5 A) (d d' : disk) (x : A) :
  with_File_a path body d = (Ok x, d') ->
  exists f',
    body (default h5_empty (h5 d !! path)) = (Ok x, f') /\
    d' = set_h5 (<[path := f']> (h5 d)) d.
Proof.
  unfold with_File_a. destruct (body _) as [r f'].
  intros [= -> <-]. eauto.
Qed.

Lemma attrs_setitem_Ok (k : string) (v : attr_val scalar) (f f' : h5file)
    (u : unit) :
  attrs_setitem k v f = (Ok u, f') -> f' = set_attrs (<[k := v]> (attrs f)) f.
Proof. by intros [= <-]. Qed.

Lemma dataset_attrs_setitem_Ok (ds k : string) (v : attr_val scalar)
    (f f' : h5file) (u : unit) :
  dataset_attrs_setitem ds k v f = (Ok u, f') ->
  f' = set_array_attrs (<[(ds, k) := v]> (array_attrs f)) f.
Proof. by intros [= <-]. Qed.

Lemma create_group_Ok (k : string) (f f' : h5file) (u : unit) :
  create_group k f = (Ok u, f') ->
  f' = set_groups ({[k]} ∪ groups f) f /\ name_exists k f = false.
Proof. unfold create_group. destruct (name_exists k f); by intros [= <-]. Qed.

Lemma create_dataset_Ok (k : string) (data : list ndarray) (f f' : h5file)
    (u : unit) :
  create_dataset k data f = (Ok u, f') ->
  f' = set_arrays (<[k := data]> (arrays f)) f /\ name_exists k f = false.
Proof. unfold create_dataset. destruct (name_exists k f); by intros [= <-]. Qed.

Lemma create_string_dataset_Ok (k : string) (data : list string)
    (f f' : h5file) (u : unit) :
  create_string_dataset k data f = (Ok u, f') ->
  f' = set_strings (<[k := data]> (strings f)) f /\ name_exists k f = false.
Proof.
  unfold create_string_dataset. destruct (name_exists k f); by intros [= <-].
Qed.

(** The same steps forward: what a step returns on a given file. *)
Lemma st_bind_run {S A B} (m : ST S A) (f : A -> ST S B) (s s1 : S) (x : A) :
  m s = (Ok x, s1) -> (m ≫= f) s = f x s1.
Proof. unfold mbind, ST_bind. by intros ->. Qed.

Lemma create_group_run (k : string) (f : h5file) :
  name_exists k f = false ->
  create_group k f = (Ok tt, set_groups ({[k]} ∪ groups f) f).
Proof. unfold create_group. by intros ->. Qed.

Lemma create_dataset_run (k : string) (data : list ndarray) (f : h5file) :
  name_exists k f = false ->
  create_dataset k data f = (Ok tt, set_arrays (<[k := data]> (arrays f)) f).
Proof. unfold create_dataset. by intros ->. Qed.

Lemma create_string_dataset_run (k : string) (data : list string) (f : h5file) :
  name_exists k f = false ->
  create_string_dataset k data f
  = (Ok tt, set_strings (<[k := data]> (strings f)) f).
Proof. unfold create_string_dataset. by intros ->. Qed.

Lemma run_attrs_setitem {B} (k : string) (v : attr_val scalar)
    (g : unit -> H5 B) (f : h5file) :
  (attrs_setitem k v ≫= g) f = g tt (set_attrs (<[k := v]> (attrs f)) f).
Proof. done. Qed.

Lemma run_dataset_attrs_setitem {B} (ds k : string) (v : attr_val scalar)
    (g : unit -> H5 B) (f : h5file) :
  (dataset_attrs_setitem ds k v ≫= g) f
  = g tt (set_array_attrs (<[(ds, k) := v]> (array_attrs f)) f).
Proof. done. Qed.

Lemma run_st_modify {B} (h : h5file -> h5file) (g : unit -> H5 B) (f : h5file) :
  ((st_modify h : H5 unit) ≫= g) f = g tt (h f).
Proof. done. Qed.

Lemma run_st_lift {A B} (x : A) (g : A -> H5 B) (f : h5file) :
  ((st_lift (Ok x) : H5 A) ≫= g) f = g x f.
Proof. done. Qed.

Lemma run_st_lift_then {A B C} (x : A) (g : A -> H5 B)
    (k : B -> H5 C) (f : h5file) :
  (((st_lift (Ok x) : H5 A) ≫= g) ≫= k) f = (g x ≫= k) f.
Proof. done. Qed.

Lemma run_create_group {B} (k : string) (g : unit -> H5 B) (f : h5file) :
  name_exists k f = false ->
  (create_group k ≫= g) f = g tt (set_groups ({[k]} ∪ groups f) f).
Proof. intros Hk. unfold mbind, ST_bind. by rewrite create_group_run. Qed.

Lemma run_create_dataset {B} (k : string) (data : list ndarray)
    (g : unit -> H5 B) (f : h5file) :
  name_exists k f = false ->
  (create_dataset k data ≫= g) f
  = g tt (set_arrays (<[k := data]> (arrays f)) f).
Proof. intros Hk. unfold mbind, ST_bind. by rewrite create_dataset_run. Qed.

Lemma run_create_string_dataset {B} (k : string) (data : list string)
    (g : unit -> H5 B) (f : h5file) :
  name_exists k f = false ->
  (create_string_dataset k data ≫= g) f
  = g tt (set_strings (<[k := data]> (strings f)) f).
Proof. intros Hk. unfold mbind, ST_bind. by rewrite create_string_dataset_run. Qed.

End Writing.

(** Inverts the steps of a successful run over a container file. *)
Ltac h5_step H :=
  lazymatch type of H with
  | (_ ≫= _) _ = (Ok _, _) =>
      let x := fresh "x" in
      let f := fresh "f" in
      let Hf := fresh "Hf" in
      apply st_bind_Ok in H; destruct H as (x & f & Hf & H)
  end.

(** Turns every inverted step into the equation of the file it leaves. *)
Ltac h5_effects :=
  repeat match goal with
  | H : attrs_setitem _ _ _ = (Ok _, _) |- _ =>
      apply attrs_setitem_Ok in H
  | H : dataset_attrs_setitem _ _ _ _ = (Ok _, _) |- _ =>
      apply dataset_attrs_setitem_Ok in H
  | H : create_group _ _ = (Ok _, _) |- _ =>
      apply create_group_Ok in H; destruct H as [H _]
  | H : create_dataset _ _ _ = (Ok _, _) |- _ =>
      apply create_dataset_Ok in H; destruct H as [H _]
  | H : create_string_dataset _ _ _ = (Ok _, _) |- _ =>
      apply create_string_dataset_Ok in H; destruct H as [H _]
  | H : st_lift _ _ = (Ok _, _) |- _ =>
      apply st_lift_Ok in H; destruct H as [H ->]
  | H : st_modify _ _ = (Ok _, _) |- _ =>
      apply st_modify_Ok in H
  end.

(** The fields of the files of the goal, step by step back to the file
    the run started from, and the lookups among the inserted names. *)
Ltac h5_fields :=
  cbn [attrs groups arrays strings array_attrs
       set_attrs set_groups set_arrays set_strings set_array_attrs].

Ltac h5_unfold :=
  repeat match goal with
  | H : ?f = _ |- context [?f] => is_var f; rewrite H; h5_fields
  end.

Ltac h5_lookup :=
  repeat first
    [ rewrite lookup_insert_eq
    | rewrite lookup_insert_ne by (let E := fresh in intros E; discriminate E) ].

(** A name is not in a list of other names. *)
Ltac not_in_names :=
  let Hin := fresh in
  intros Hin;
  repeat (apply elem_of_cons in Hin as [Hin|Hin]; [discriminate Hin|]);
  by apply elem_of_nil in Hin.

(** One step forward on a file whose names are known. *)
Ltac h5_run_step :=
  first
    [ rewrite run_st_lift_then
    | rewrite run_attrs_setitem
    | rewrite run_dataset_attrs_setitem
    | rewrite run_st_modify
    | rewrite run_st_lift
    | rewrite run_create_group by (vm_compute; reflexivity)
    | rewrite run_create_dataset by (vm_compute; reflexivity)
    | rewrite run_create_string_dataset by (vm_compute; reflexivity) ];
  h5_fields.

Section Containers.
Context `{Collaborators} `{Paths}.

(** A successful [_save_full] leaves at the destination a container with
    the arrays of [self] and the length of [self]. *)
Lemma save_full_spec (clk : clock) (s : Builder) (ver : attr_val scalar)
    (d d' : disk) (dest : string) :
  _save_full clk s ver d = (Ok dest, d') ->
  dest = os_path_join (dest_path s) (self_name s +:+ ".h5") /\
  exists f,
    h5 d' !! dest = Some f /\
    attrs f !! "length" = Some (AInt (Z.of_nat (self_length s))) /\
    attrs f !! "type" = Some (AStr "full") /\
    attrs f !! "depth_scale" = Some (depth_scale s) /\
    attrs f !! "depth_intrinsics" = Some (intrin_depth s) /\
    attrs f !! "color_intrinsics" = Some (intrin_color s) /\
    holds_arrays_of f s.
Proof.
  unfold _save_full. intros Hrun.
  apply st_bind_Ok in Hrun as (u & d1 & Hfile & Hret).
  injection Hret as <- <-. split; [done|].
  apply with_File_a_Ok in Hfile as (f' & Hbody & ->).
  exists f'. split; [cbn [h5 set_h5]; by rewrite lookup_insert_eq|].
  repeat h5_step Hbody. h5_effects.
  unfold holds_arrays_of. h5_unfold.
  repeat split; by h5_lookup.
Qed.

(** The arrays of a container with the arrays of [self] are as long as
    those of [self]. *)
Lemma holds_arrays_length_invariant (f : h5file) (s : Builder) :
  attrs f !! "length" = Some (AInt (Z.of_nat (self_length s))) ->
  holds_arrays_of f s ->
  length (ang_arr s) = self_length s -> length (pos_arr s) = self_length s ->
  length (depthmap_arr s) = self_length s ->
  length (pointmap s) = self_length s ->
  length (orig_img_arr s) = self_length s ->
  length (segmented_img_arr s) = self_length s ->
  length (rois s) = self_length s ->
  length (jsons s) = self_length s -> length (maps s) = self_length s ->
  length (imgs s) = self_length s ->
  length_invariant f.
Proof.
  intros Hlen (Ha & Hp & Hd & Hpm & Ho & Hs & Hr & Hj & Hm & Hi)
    La Lp Ld Lpm Lo Ls Lr Lj Lm Li.
  exists (self_length s). split; [done|]. split.
  - intros k Hk. unfold per_frame_arrays in Hk.
    repeat (apply elem_of_cons in Hk as [->|Hk]; [by eauto|]).
    by apply elem_of_nil in Hk.
  - intros k Hk. unfold per_frame_paths in Hk.
    repeat (apply elem_of_cons in Hk as [->|Hk]; [by eauto|]).
    by apply elem_of_nil in Hk.
Qed.

(** [build_full] is [_set_dest_path], then the loading, then the videos
    and [_save_full]; a failure of the loading leaves the containers of the
    disk as they were. *)
Lemma build_full_unfold (cap : capture) (clk : clock) (self : Builder)
    (data_path : string) (ver : attr_val scalar) (name : option string)
    (d : disk) :
  let s1 := with_dest self data_path name in
  build_full cap clk self data_path ver name d =
  match load_frames cap s1 data_path with
  | Ok s5 => _save_full clk s5 ver (with_videos s5 (with_dir (dest_path s1) d))
  | Err e => (Err e, with_dir (dest_path s1) d)
  end.
Proof.
  intros s1.
  unfold build_full, load_frames, _set_dest_path, _save_reference_videos,
    save_video, with_videos, with_dir.
  fold (build_name data_path name). fold (with_dest self data_path name).
  fold s1.
  unfold mbind, ST_bind, result_bind, st_lift, st_get, st_modify, mret, ST_ret.
  destruct (decide (dest_path s1 ∈ dirs d)) as [Hin|Hin];
    (destruct (_get_filepaths_from_data_dir cap s1 data_path) as [s2|e]; [|done]);
    (destruct (_load_json_data cap s2) as [s3|e]; [|done]);
    (destruct (_load_imgs_and_depthmaps cap s3) as [s4|e]; [|done]);
    (destruct (_segment_images_and_maps s4) as [s5|e]; [|done]);
    reflexivity.
Qed.

Lemma h5_with_dir (path : string) (d : disk) : h5 (with_dir path d) = h5 d.
Proof. unfold with_dir. by case_decide. Qed.

Lemma h5_with_video (path : string) (img_arr : list ndarray) (d : disk) :
  h5 (with_video path img_arr d) = h5 d /\
  dirs (with_video path img_arr d) = dirs d.
Proof. unfold with_video. by destruct (cv2_VideoWriter path img_arr). Qed.

Lemma h5_with_videos (s : Builder) (d : disk) : h5 (with_videos s d) = h5 d.
Proof. unfold with_videos. by rewrite !(proj1 (h5_with_video _ _ _)). Qed.

(** What the loading leaves in [self]: the destination and the start time
    are kept, every per-frame array has one row per image of the walk, and
    the camera settings are those of every JSON file of the walk. *)
Lemma load_frames_spec (cap : capture) (s1 s5 : Builder) (data_path : string) :
  load_frames cap s1 data_path = Ok s5 ->
  dest_path s5 = dest_path s1 /\ self_name s5 = self_name s1 /\
  build_start_time s5 = build_start_time s1 /\
  self_length s5 = length (walk_files cap ".png") /\
  0 < self_length s5 /\
  length (walk_files cap ".json") = self_length s5 /\
  length (walk_files cap ".npy") = self_length s5 /\
  jsons_p s5 = walk_files cap ".json" /\ maps_p s5 = walk_files cap ".npy" /\
  imgs_p s5 = walk_files cap ".png" /\
  (length (ang_arr s5) = self_length s5 /\ length (pos_arr s5) = self_length s5 /\
   length (depthmap_arr s5) = self_length s5 /\
   length (pointmap s5) = self_length s5 /\
   length (orig_img_arr s5) = self_length s5 /\
   length (segmented_img_arr s5) = self_length s5 /\
   length (rois s5) = self_length s5 /\
   length (jsons s5) = self_length s5 /\ length (maps s5) = self_length s5 /\
   length (imgs s5) = self_length s5) /\
  forall path, path ∈ walk_files cap ".json" ->
    exists j, json_files cap !! path = Some j /\
      depth_scale s5 = AFloat (rs_depth_scale j) /\
      intrin_depth s5 = AStr (rs_intrin_depth j) /\
      intrin_color s5 = AStr (rs_intrin_color j).
Proof.
  unfold load_frames. intros Hrun.
  bind_split Hrun as s2 Hscan. bind_split Hrun as s3 Hjson.
  bind_split Hrun as s4 Himgs.
  apply get_filepaths_spec in Hscan as (-> & Hj & Hm).
  apply load_json_data_spec in Hjson
    as (ang & pos & ds & idp & icl & -> & Hang & Hpos & Hcam).
  apply load_imgs_and_depthmaps_spec in Himgs
    as (h & w & orig & depth & -> & Horig & Hdepth & Hnonempty).
  apply segment_images_and_maps_shape in Hrun
    as (seg & pm & masks & rs & -> & Hseg & Hpm & Hmasks & Hrs).
  simpl in *. rewrite !length_fmap.
  repeat split; try done.
  intros path Hin. destruct (Hcam path) as (j & Hfile & <- & <- & <-).
  - rewrite snd_zip; [done|]. unfold py_range. rewrite length_seq. lia.
  - by exists j.
Qed.

(** ** Subsets *)

Lemma File_r_Ok (path : string) (d d' : disk) (f : h5file) :
  File_r path d = (Ok f, d') -> h5 d !! path = Some f /\ d' = d.
Proof.
  unfold File_r. intros [= Hf ->]. by apply or_raise_Ok in Hf.
Qed.

Lemma elem_of_per_frame_arrays (k : string) :
  k ∈ per_frame_arrays <->
  k = "angles" \/ k = "positions" \/ k = "coordinates/depthmaps" \/
  k = "coordinates/pointmaps" \/ k = "images/original" \/
  k = "images/segmented" \/ k = "images/rois".
Proof. unfold per_frame_arrays. rewrite !elem_of_cons, elem_of_nil. tauto. Qed.

Lemma elem_of_per_frame_paths (k : string) :
  k ∈ per_frame_paths <->
  k = "paths/jsons" \/ k = "paths/depthmaps" \/ k = "paths/images".
Proof. unfold per_frame_paths. rewrite !elem_of_cons, elem_of_nil. tauto. Qed.

(** [_read_full] opens the file for reading: it never changes the disk. *)
Lemma read_full_state (self : Builder) (path : string) (d : disk) :
  (_read_full self path d).2 = d.
Proof.
  unfold _read_full, File_r, st_lift, mbind, ST_bind.
  by destruct (h5 d !! path ?! FileNotFoundError path).
Qed.

(** [_read_full] on a readable file: what [self] keeps. *)
Lemma read_full_runs (self : Builder) (path : string) (d : disk) (f : h5file) :
  h5 d !! path = Some f -> readable f ->
  exists s name len,
    _read_full self path d = (Ok s, d) /\
    attrs f !! "name" = Some name /\ attrs f !! "length" = Some len /\
    file_view s
    = Some {| view_path := path; view_name := name; view_length := len |} /\
    attrs f !! "depth_intrinsics" = Some (intrin_depth s) /\
    attrs f !! "color_intrinsics" = Some (intrin_color s) /\
    attrs f !! "depth_scale" = Some (depth_scale s).
Proof.
  intros Hf (Hattrs & Harr & Hstr).
  destruct (Hattrs "name") as [name Hname]; [rewrite !elem_of_cons; auto 10|].
  destruct (Hattrs "length") as [len Hlen]; [rewrite !elem_of_cons; auto 10|].
  destruct (Hattrs "depth_intrinsics") as [idp Hidp];
    [rewrite !elem_of_cons; auto 10|].
  destruct (Hattrs "color_intrinsics") as [icl Hicl];
    [rewrite !elem_of_cons; auto 10|].
  destruct (Hattrs "depth_scale") as [ds Hds]; [rewrite !elem_of_cons; auto 10|].
  destruct (Harr "angles") as [ra Hra]; [apply elem_of_per_frame_arrays; tauto|].
  destruct (Harr "positions") as [rp Hrp];
    [apply elem_of_per_frame_arrays; tauto|].
  destruct (Harr "coordinates/depthmaps") as [rd Hrd];
    [apply elem_of_per_frame_arrays; tauto|].
  destruct (Harr "coordinates/pointmaps") as [rpm Hrpm];
    [apply elem_of_per_frame_arrays; tauto|].
  destruct (Harr "images/original") as [ro Hro];
    [apply elem_of_per_frame_arrays; tauto|].
  destruct (Harr "images/segmented") as [rs Hrs];
    [apply elem_of_per_frame_arrays; tauto|].
  destruct (Harr "images/rois") as [rr Hrr];
    [apply elem_of_per_frame_arrays; tauto|].
  destruct (Hstr "paths/jsons") as [rj Hrj];
    [apply elem_of_per_frame_paths; tauto|].
  destruct (Hstr "paths/depthmaps") as [rm Hrm];
    [apply elem_of_per_frame_paths; tauto|].
  destruct (Hstr "paths/images") as [ri Hri];
    [apply elem_of_per_frame_paths; tauto|].
  unfold _read_full.
  rewrite (st_bind_run (File_r path) _ d d f)
    by (unfold File_r; by rewrite Hf).
  unfold st_lift, attrs_getitem, file_getitem, file_getitem_str.
  rewrite Hname, Hlen, Hidp, Hicl, Hds, Hra, Hrp, Hrd, Hrpm, Hro, Hrs, Hrr,
    Hrj, Hrm, Hri.
  cbn [or_raise mbind result_bind].
  eexists _, name, len. split; [reflexivity|]. by repeat split.
Qed.

(** [_write_subset] opens the destination and raises at its first
    statement. *)
Lemma write_subset_raises (now : string) (s : Builder) (path sub_type : string)
    (idxs : list nat) (d : disk) :
  _write_subset now s path sub_type idxs d
  = (Err (AttributeError "can't set attribute"), with_file path d).
Proof. reflexivity. Qed.

(** [build_subset] never returns. *)
Lemma build_subset_never_returns (now : string) (self : Builder)
    (src sub_type : string) (idxs : list nat) (d d' : disk) (r : result unit) :
  build_subset now self src sub_type idxs d = (r, d') -> exists e, r = Err e.
Proof.
  unfold build_subset, mbind, ST_bind.
  destruct (_read_full self src d) as [[s|e] d1].
  - rewrite write_subset_raises. intros [= <- _]. by eexists.
  - intros [= <- _]. by eexists.
Qed.

(** Claim C2, on the code. [build_subset] never gathers a subset. On a
    source container that [_read_full] can read it raises [AttributeError]
    at the first statement of [_write_subset], [file.attrs = self.attrs],
    whatever the indices and the label are; the destination file has been
    opened by then, so it exists afterwards, empty when it did not exist
    before and unchanged otherwise, and the source is unchanged. On any
    other source it raises in [_read_full]: [build_subset] returns for no
    input. *)
Theorem build_subset_raises (now : string) (self : Builder)
    (src sub_type : string) (idxs : list nat) (d : disk) (f : h5file) :
  h5 d !! src = Some f ->
  readable f ->
  let dst := subset_path src sub_type in
  build_subset now self src sub_type idxs d
  = (Err (AttributeError "can't set attribute"), with_file dst d) /\
  h5 (with_file dst d) !! src = Some f /\
  (h5 d !! dst = None -> h5 (with_file dst d) !! dst = Some h5_empty) /\
  (is_Some (h5 d !! dst) -> h5 (with_file dst d) = h5 d) /\
  dirs (with_file dst d) = dirs d /\ videos (with_file dst d) = videos d /\
  forall now' self' src' sub_type' idxs' d0 r d',
    build_subset now' self' src' sub_type' idxs' d0 = (r, d') ->
    exists e, r = Err e.
Proof.
  intros Hf Hread dst.
  destruct (read_full_runs self src d f Hf Hread) as (s & name & len & Hrun & _).
  split.
  { unfold build_subset. rewrite (st_bind_run _ _ d d s Hrun).
    apply write_subset_raises. }
  unfold with_file. cbn [h5 set_h5 dirs videos].
  split.
  { destruct (decide (dst = src)) as [->|Hne].
    - by rewrite lookup_insert_eq, Hf.
    - by rewrite lookup_insert_ne. }
  split; [intros ->; apply lookup_insert_eq|].
  split; [intros [g Hg]; rewrite Hg; by apply insert_id|].
  split; [done|]. split; [done|].
  intros now' self' src' sub_type' idxs' d0 r d'.
  apply build_subset_never_returns.
Qed.

End Containers.

(** ** The full build *)

Section FullBuild.
Context `{Collaborators} `{Paths}.

Lemma videos_with_dir (path : string) (d : disk) :
  videos (with_dir path d) = videos d.
Proof. unfold with_dir. by case_decide. Qed.

(** The scanner, evaluated: the assertion decides. *)
Lemma get_filepaths_eval (cap : capture) (self : Builder) (data_path : string) :
  _get_filepaths_from_data_dir cap self data_path =
  if bool_decide (length (walk_files cap ".json") = length (walk_files cap ".npy"))
     && bool_decide (length (walk_files cap ".npy") = length (walk_files cap ".png"))
  then Ok (set_self_length (length (walk_files cap ".png"))
        (set_imgs (str_replace data_path "" <$> walk_files cap ".png")
        (set_maps (str_replace data_path "" <$> walk_files cap ".npy")
        (set_jsons (str_replace data_path "" <$> walk_files cap ".json")
        (set_imgs_p (walk_files cap ".png")
        (set_maps_p (walk_files cap ".npy")
        (set_jsons_p (walk_files cap ".json") self)))))))
  else Err (AssertionError "Unequal number of images, jsons, or maps").
Proof.
  unfold _get_filepaths_from_data_dir. simpl. rewrite !length_fmap.
  by destruct (_ && _).
Qed.


(** Two files of the loop with different cameras make the assertion of
    [_load_json_data] fail. *)
Lemma parse_jsons_mixed (cap : capture) (s t : Builder) (cams : camera_sets)
    (p q : string) (jp jq : frame_json) :
  parse_jsons cap s = Ok (t, cams) ->
  p ∈ (zip (py_range 0 (self_length s)) (jsons_p s)).*2 ->
  q ∈ (zip (py_range 0 (self_length s)) (jsons_p s)).*2 ->
  json_files cap !! p = Some jp -> json_files cap !! q = Some jq ->
  ~ same_camera jp jq ->
  bool_decide (size (seen_depth_scale cams) = size (seen_intrin_depth cams)) &&
  bool_decide (size (seen_intrin_depth cams) = size (seen_intrin_color cams)) &&
  bool_decide (size (seen_intrin_color cams) = 1) = false.
Proof.
  unfold parse_jsons. intros Hloop Hp Hq Hjp Hjq Hdiff.
  apply (parse_json_spec cap s (self_length s)) in Hloop
    as (_ & _ & _ & _ & Hall); [|by rewrite length_replicate..].
  destruct (Hall p Hp) as (jp' & Hjp' & Hp1 & Hp2 & Hp3).
  destruct (Hall q Hq) as (jq' & Hjq' & Hq1 & Hq2 & Hq3).
  assert (jp' = jp) as -> by congruence.
  assert (jq' = jq) as -> by congruence.
  destruct (_ && _) eqn:E; [|done]. exfalso. apply Hdiff.
  apply andb_prop in E as [E Hc1]. apply andb_prop in E as [Hc2 Hc3].
  apply bool_decide_eq_true in Hc1, Hc2, Hc3.
  repeat split; (eapply size_1_unique; [|done..]; congruence).
Qed.

Lemma load_json_data_assert (cap : capture) (s t : Builder) (cams : camera_sets) :
  parse_jsons cap s = Ok (t, cams) ->
  bool_decide (size (seen_depth_scale cams) = size (seen_intrin_depth cams)) &&
  bool_decide (size (seen_intrin_depth cams) = size (seen_intrin_color cams)) &&
  bool_decide (size (seen_intrin_color cams) = 1) = false ->
  _load_json_data cap s
  = Err (AssertionError "Camera settings must be uniform over the dataset.").
Proof.
  intros Hparse Hb. unfold _load_json_data. rewrite Hparse.
  cbn [mbind result_bind]. rewrite Hb. reflexivity.
Qed.

Lemma load_frames_json_error (cap : capture) (s1 s2 : Builder)
    (data_path : string) (e : exn) :
  _get_filepaths_from_data_dir cap s1 data_path = Ok s2 ->
  _load_json_data cap s2 = Err e ->
  load_frames cap s1 data_path = Err e.
Proof.
  intros Hscan Hjson. unfold load_frames. rewrite Hscan.
  cbn [mbind result_bind]. rewrite Hjson. reflexivity.
Qed.

(** The three sets after the loop over the JSON files hold the values of
    the files of the loop and nothing else. *)
Lemma parse_json_seen (cap : capture) (l : list (nat * string)) :
  forall st st',
    for_each l (parse_json cap) st = Ok st' ->
    (forall x, x ∈ seen_depth_scale st'.2 <->
       x ∈ seen_depth_scale st.2 \/
       exists path d, path ∈ l.*2 /\ json_files cap !! path = Some d /\
                      rs_depth_scale d = x) /\
    (forall x, x ∈ seen_intrin_depth st'.2 <->
       x ∈ seen_intrin_depth st.2 \/
       exists path d, path ∈ l.*2 /\ json_files cap !! path = Some d /\
                      rs_intrin_depth d = x) /\
    (forall x, x ∈ seen_intrin_color st'.2 <->
       x ∈ seen_intrin_color st.2 \/
       exists path d, path ∈ l.*2 /\ json_files cap !! path = Some d /\
                      rs_intrin_color d = x).
Proof.
  induction l as [|[idx path] l IH]; intros [s cams] st' Hrun.
  - injection Hrun as <-. cbn [snd fmap list_fmap].
    split; [|split]; intros x;
      (split; [by left|intros [Hx|(p & d & Hp & _)]; [done|]];
       by apply elem_of_nil in Hp).
  - cbn [for_each] in Hrun. bind_split Hrun as [t1 cams1] Hstep.
    unfold parse_json in Hstep. bind_split Hstep as d Hd.
    bind_split Hstep as t2 Hjoints. injection Hstep as <- <-.
    apply or_raise_Ok in Hd.
    destruct (IH _ _ Hrun) as (I1 & I2 & I3).
    cbn [snd seen_depth_scale seen_intrin_depth seen_intrin_color
         fmap list_fmap] in *.
    split; [|split]; intros x; rewrite ?I1, ?I2, ?I3;
      rewrite elem_of_union, elem_of_singleton;
      (split;
       [ intros [[->|Hx]|(p & d' & Hp & Hd' & Hx)];
         [ right; exists path, d; split; [by left|done]
         | by left
         | right; exists p, d'; split; [by right|done] ]
       | intros [Hx|(p & d' & [->|Hp]%elem_of_cons & Hd' & Hx)];
         [ left; by right
         | left; left; congruence
         | right; by eauto ] ]).
Qed.

(** On a capture whose JSON files all record the camera of [j0],
    [_load_json_data] passes its assertion and keeps the three values of
    [j0]. *)
Lemma load_json_data_uniform (cap : capture) (s t : Builder)
    (cams : camera_sets) (j0 : frame_json) :
  parse_jsons cap s = Ok (t, cams) ->
  (zip (py_range 0 (self_length s)) (jsons_p s)).*2 <> [] ->
  (forall p, p ∈ (zip (py_range 0 (self_length s)) (jsons_p s)).*2 ->
     exists j, json_files cap !! p = Some j /\ same_camera j j0) ->
  _load_json_data cap s
  = Ok (set_intrin_color (AStr (rs_intrin_color j0))
          (set_intrin_depth (AStr (rs_intrin_depth j0))
             (set_depth_scale (AFloat (rs_depth_scale j0)) t))).
Proof.
  intros Hparse Hne Hall. pose proof Hparse as Hloop.
  unfold parse_jsons in Hloop.
  apply parse_json_seen in Hloop as (I1 & I2 & I3).
  cbn [snd seen_depth_scale seen_intrin_depth seen_intrin_color] in I1, I2, I3.
  set (l := (zip (py_range 0 (self_length s)) (jsons_p s)).*2) in *.
  assert (exists p0 j, p0 ∈ l /\ json_files cap !! p0 = Some j /\
                       same_camera j j0) as (p0 & j & Hp0 & Hj & Hc1 & Hc2 & Hc3).
  { destruct l as [|p0 l']; [done|].
    destruct (Hall p0) as (j & Hj & Hc); [by left|].
    exists p0, j. split; [by left|done]. }
  assert (seen_depth_scale cams = {[rs_depth_scale j0]}) as E1.
  { apply set_eq. intros x. rewrite I1, elem_of_singleton. split.
    - intros [Hx|(p & d & Hp & Hd & <-)]; [by apply elem_of_empty in Hx|].
      destruct (Hall p Hp) as (j' & Hj' & Hc & _). congruence.
    - intros ->. right. by exists p0, j. }
  assert (seen_intrin_depth cams = {[rs_intrin_depth j0]}) as E2.
  { apply set_eq. intros x. rewrite I2, elem_of_singleton. split.
    - intros [Hx|(p & d & Hp & Hd & <-)]; [by apply elem_of_empty in Hx|].
      destruct (Hall p Hp) as (j' & Hj' & _ & Hc & _). congruence.
    - intros ->. right. by exists p0, j. }
  assert (seen_intrin_color cams = {[rs_intrin_color j0]}) as E3.
  { apply set_eq. intros x. rewrite I3, elem_of_singleton. split.
    - intros [Hx|(p & d & Hp & Hd & <-)]; [by apply elem_of_empty in Hx|].
      destruct (Hall p Hp) as (j' & Hj' & _ & _ & Hc). congruence.
    - intros ->. right. by exists p0, j. }
  unfold _load_json_data. rewrite Hparse. cbn [mbind result_bind].
  rewrite E1, E2, E3, !size_singleton.
  rewrite !bool_decide_eq_true_2 by reflexivity.
  cbn [andb py_assert mbind result_bind]. unfold set_pop.
  rewrite !elements_singleton. reflexivity.
Qed.

(** Claim C5. When two JSON files of the capture record different depth
    scales or different depth or color intrinsics, the full build fails
    and leaves the containers of the disk as they were: no container file
    is produced. The exception is the assertion on the camera settings (the
    [InconsistentCameraError] of the specification) whenever the scanner
    and the parsing of the JSON files pass. When the build succeeds, the
    depth scale and the intrinsics recorded in the container are those of
    every JSON file of the capture. When the JSON files of a capture of
    one frame or more all record one depth scale and one pair of
    intrinsics, [_load_json_data] passes the check and keeps exactly these
    three values, provided the joints of the files can be stored. *)
Theorem build_full_uniform_camera (cap : capture) (clk : clock) (self : Builder)
    (data_path : string) (ver : attr_val scalar) (name : option string)
    (d : disk) :
  (forall p q jp jq,
     p ∈ walk_files cap ".json" -> q ∈ walk_files cap ".json" ->
     json_files cap !! p = Some jp -> json_files cap !! q = Some jq ->
     ~ same_camera jp jq ->
     exists e d',
       build_full cap clk self data_path ver name d = (Err e, d') /\
       h5 d' = h5 d /\
       forall s2 st,
         _get_filepaths_from_data_dir cap (with_dest self data_path name)
           data_path = Ok s2 ->
         parse_jsons cap s2 = Ok st ->
         e = AssertionError "Camera settings must be uniform over the dataset.") /\
  (forall dest d',
     build_full cap clk self data_path ver name d = (Ok dest, d') ->
     exists f,
       h5 d' !! dest = Some f /\
       forall path, path ∈ walk_files cap ".json" ->
         exists j, json_files cap !! path = Some j /\
           attrs f !! "depth_scale" = Some (AFloat (rs_depth_scale j)) /\
           attrs f !! "depth_intrinsics" = Some (AStr (rs_intrin_depth j)) /\
           attrs f !! "color_intrinsics" = Some (AStr (rs_intrin_color j))) /\
  (forall s2 st j0,
     _get_filepaths_from_data_dir cap (with_dest self data_path name) data_path
     = Ok s2 ->
     parse_jsons cap s2 = Ok st ->
     walk_files cap ".json" <> [] ->
     (forall p, p ∈ walk_files cap ".json" ->
        exists j, json_files cap !! p = Some j /\ same_camera j j0) ->
     exists s3,
       _load_json_data cap s2 = Ok s3 /\
       depth_scale s3 = AFloat (rs_depth_scale j0) /\
       intrin_depth s3 = AStr (rs_intrin_depth j0) /\
       intrin_color s3 = AStr (rs_intrin_color j0)).
Proof.
  split; [|split].
  - intros p q jp jq Hp Hq Hjp Hjq Hdiff. rewrite build_full_unfold.
    destruct (load_frames cap (with_dest self data_path name) data_path)
      as [s5|e] eqn:Hload.
    + exfalso. apply load_frames_spec in Hload
        as (_ & _ & _ & _ & _ & _ & _ & _ & _ & _ & _ & Hcam).
      destruct (Hcam p Hp) as (jp' & Hjp' & Hp1 & Hp2 & Hp3).
      destruct (Hcam q Hq) as (jq' & Hjq' & Hq1 & Hq2 & Hq3).
      assert (jp' = jp) as -> by congruence.
      assert (jq' = jq) as -> by congruence.
      apply Hdiff. repeat split; congruence.
    + exists e. eexists. split; [reflexivity|]. split; [apply h5_with_dir|].
      intros s2 [t cams] Hscan Hparse.
      assert (load_frames cap (with_dest self data_path name) data_path
              = Err (AssertionError
                       "Camera settings must be uniform over the dataset."))
        as Herr.
      { apply (load_frames_json_error _ _ s2); [done|].
        apply (load_json_data_assert _ _ t cams); [done|].
        apply get_filepaths_spec in Hscan as (Hs2 & Hlj & Hlm).
        assert (self_length s2 = length (walk_files cap ".png")
                /\ jsons_p s2 = walk_files cap ".json") as [Hn Hjp2]
          by (by rewrite Hs2).
        apply (parse_jsons_mixed cap s2 t cams p q jp jq); try done.
        - rewrite Hjp2, Hn, snd_zip; [done|].
          unfold py_range. rewrite length_seq. lia.
        - rewrite Hjp2, Hn, snd_zip; [done|].
          unfold py_range. rewrite length_seq. lia. }
      rewrite Herr in Hload. by injection Hload as <-.
  - intros dest d' Hrun. rewrite build_full_unfold in Hrun.
    destruct (load_frames cap (with_dest self data_path name) data_path)
      as [s5|e] eqn:Hload; [|discriminate].
    apply load_frames_spec in Hload
      as (_ & _ & _ & _ & _ & _ & _ & _ & _ & _ & _ & Hcam).
    apply save_full_spec in Hrun
      as (_ & f & Hf & _ & _ & Hds & Hid & Hic & _).
    exists f. split; [done|]. intros path Hpath.
    destruct (Hcam path Hpath) as (j & Hj & Hj1 & Hj2 & Hj3).
    exists j. split; [done|]. repeat split; congruence.
  - intros s2 [t cams] j0 Hscan Hparse Hne Hall.
    apply get_filepaths_spec in Hscan as (Hs2 & Hlj & Hlm).
    assert (self_length s2 = length (walk_files cap ".png")
            /\ jsons_p s2 = walk_files cap ".json") as [Hn Hjp2]
      by (by rewrite Hs2).
    assert ((zip (py_range 0 (self_length s2)) (jsons_p s2)).*2
            = walk_files cap ".json") as Hl.
    { rewrite Hjp2, Hn, snd_zip; [done|].
      unfold py_range. rewrite length_seq. lia. }
    eexists. split.
    + apply (load_json_data_uniform cap s2 t cams j0 Hparse);
        rewrite Hl; done.
    + done.
Qed.

(** *** A second build at the same destination *)

Lemma st_bind_err {S A B} (m : ST S A) (f : A -> ST S B) (s s1 : S) (e : exn) :
  m s = (Err e, s1) -> (m ≫= f) s = (Err e, s1).
Proof. unfold mbind, ST_bind. by intros ->. Qed.

Lemma run_create_dataset_exists {B} (k : string) (data : list ndarray)
    (g : unit -> H5 B) (f : h5file) :
  name_exists k f = true ->
  (create_dataset k data ≫= g) f
  = (Err (ValueError "Unable to create dataset (name already exists)"), f).
Proof.
  intros Hk. apply st_bind_err. unfold create_dataset. by rewrite Hk.
Qed.

(** On a container that has its datasets already, [_save_full] replaces
    the attributes and raises at the first [create_dataset]. *)
Lemma save_full_on_existing (clk : clock) (s : Builder) (ver : attr_val scalar)
    (d : disk) (f1 : h5file) :
  h5 d !! os_path_join (dest_path s) (self_name s +:+ ".h5") = Some f1 ->
  is_Some (arrays f1 !! "angles") ->
  0 < length (orig_img_arr s) -> 0 < length (segmented_img_arr s) ->
  exists f2,
    _save_full clk s ver d
    = (Err (ValueError "Unable to create dataset (name already exists)"),
       set_h5 (<[os_path_join (dest_path s) (self_name s +:+ ".h5") := f2]> (h5 d))
         d) /\
    arrays f2 = arrays f1 /\ strings f2 = strings f1.
Proof.
  intros Hf Hang Ho Hs.
  destruct (lookup_lt_is_Some_2 (orig_img_arr s) 0 Ho) as [o0 Ho0].
  destruct (lookup_lt_is_Some_2 (segmented_img_arr s) 0 Hs) as [s0 Hs0].
  unfold _save_full. eexists. split.
  - apply st_bind_err. unfold with_File_a. rewrite Hf. cbn [default].
    unfold getitem. rewrite Ho0, Hs0. cbn [or_raise].
    repeat h5_run_step.
    rewrite run_create_dataset_exists; [reflexivity|].
    unfold name_exists. h5_fields.
    rewrite (bool_decide_eq_true_2 (is_Some (arrays f1 !! "angles"))) by done.
    by rewrite orb_true_r.
  - done.
Qed.

(** Claim C7, on the code. After a successful full build, a second full
    build of the same capture to the same destination does not succeed:
    [_save_full] opens the container of the first build in append mode,
    replaces its attributes and raises when it creates 'angles', which the
    file has. The container keeps the arrays of the first build. *)
Theorem build_full_twice (cap : capture) (clk clk' : clock)
    (self self' : Builder) (data_path : string) (ver : attr_val scalar)
    (name : option string) (d d1 : disk) (dest : string) :
  build_full cap clk self data_path ver name d = (Ok dest, d1) ->
  exists e d2 f1 f2,
    build_full cap clk' self' data_path ver name d1 = (Err e, d2) /\
    h5 d1 !! dest = Some f1 /\ h5 d2 !! dest = Some f2 /\
    arrays f2 = arrays f1 /\ strings f2 = strings f1 /\
    (forall s5,
       load_frames cap (with_dest self' data_path name) data_path = Ok s5 ->
       e = ValueError "Unable to create dataset (name already exists)").
Proof.
  intros Hfirst. rewrite build_full_unfold in Hfirst.
  destruct (load_frames cap (with_dest self data_path name) data_path)
    as [s5|e] eqn:Hload; [|discriminate].
  apply load_frames_spec in Hload as (Hdp & Hnm & _).
  apply save_full_spec in Hfirst as (Hdest & f1 & Hf1 & _ & _ & _ & _ & _ & Hholds).
  destruct Hholds as (Hangles & _).
  rewrite Hdp, Hnm in Hdest. cbn [with_dest dest_path self_name set_self_name
    set_dest_path] in Hdest.
  rewrite build_full_unfold.
  destruct (load_frames cap (with_dest self' data_path name) data_path)
    as [s5'|e] eqn:Hload'.
  - apply load_frames_spec in Hload'
      as (Hdp' & Hnm' & _ & _ & Hpos & _ & _ & _ & _ & _ & Hlens & _).
    destruct Hlens as (_ & _ & _ & _ & Lo & Ls & _).
    cbn [with_dest dest_path self_name set_self_name set_dest_path] in Hdp', Hnm'.
    destruct (save_full_on_existing clk' s5' ver
                (with_videos s5' (with_dir (dest_path (with_dest self' data_path name)) d1))
                f1) as (f2 & Hsave & Harr & Hstr).
    + rewrite h5_with_videos, h5_with_dir, Hdp', Hnm', <- Hdest. done.
    + by eauto.
    + lia.
    + lia.
    + eexists _, _, f1, f2. split; [exact Hsave|]. split; [done|].
      split; [|done].
      cbn [h5 set_h5]. rewrite Hdp', Hnm', <- Hdest. apply lookup_insert_eq.
  - eexists e, _, f1, f1. split; [reflexivity|]. split; [done|].
    split; [by rewrite h5_with_dir|]. split; [done|]. split; [done|].
    intros s5' Hs5'. discriminate Hs5'.
Qed.

(** ** Weld *)

(** Whatever the two files are, [weld] raises and writes nothing. *)
Lemma weld_never_writes (self : Builder) (path_a path_b dst_dir name : string)
    (d : disk) :
  exists e, weld self path_a path_b dst_dir name d = (Err e, d).
Proof.
  unfold weld, File_r, st_lift, mbind, ST_bind.
  destruct (h5 d !! path_a) as [a|]; cbn [or_raise]; [|by eauto].
  destruct (h5 d !! path_b) as [b|]; cbn [or_raise]; [|by eauto].
  destruct (for_each weld_attributes (weld_check a b) ()); [|by eauto].
  destruct (weld_arrays a b); by eauto.
Qed.

Lemma elem_of_weld_attributes (k : string) :
  k ∈ weld_attributes <->
  k = "version" \/ k = "original_resolution" \/ k = "segmented_resolution" \/
  k = "depth_intrinsics" \/ k = "color_intrinsics" \/ k = "depth_scale".
Proof. unfold weld_attributes. rewrite !elem_of_cons, elem_of_nil. tauto. Qed.

(** [weld] on two files, up to the loop of assertions. *)
Lemma weld_unfold (self : Builder) (path_a path_b dst_dir name : string)
    (d : disk) (A B : h5file) (e : exn) :
  h5 d !! path_a = Some A -> h5 d !! path_b = Some B ->
  for_each weld_attributes (weld_check A B) tt = Err e ->
  weld self path_a path_b dst_dir name d = (Err e, d).
Proof.
  intros HA HB Hloop. unfold weld, File_r, st_lift, mbind, ST_bind.
  rewrite HA, HB. cbn [or_raise]. by rewrite Hloop.
Qed.

Lemma weld_check_step (A B : h5file) (k : string) (va vb : attr_val scalar) :
  attrs A !! k = Some va -> attrs B !! k = Some vb ->
  weld_check A B k tt
  = (t ← py_eq_truth va vb;
     py_assert t (k +:+ " must be equal to join datasets")).
Proof. intros Hva Hvb. unfold weld_check, attrs_getitem. by rewrite Hva, Hvb. Qed.

(** The first assertion, on versions that differ. *)
Lemma weld_check_version (A B : h5file) (va vb : attr_val scalar) :
  attrs A !! "version" = Some va -> attrs B !! "version" = Some vb ->
  py_eq_truth va vb = Ok false ->
  for_each weld_attributes (weld_check A B) tt
  = Err (AssertionError "version must be equal to join datasets").
Proof.
  intros Hva Hvb Hne. unfold weld_attributes. cbn [for_each].
  rewrite (weld_check_step A B "version" va vb Hva Hvb), Hne. reflexivity.
Qed.

(** The comparison of two arrays of the same length, of two or more
    elements. *)
Lemma py_eq_truth_arrays (la lb : list nat) :
  length la = length lb -> 2 <= length la ->
  py_eq_truth (AShape la) (AShape lb)
  = Err (ValueError
           "The truth value of an array with more than one element is ambiguous. Use a.any() or a.all()").
Proof.
  intros Hlen Hla. unfold py_eq_truth. rewrite decide_True by done.
  destruct la as [|x [|y la]]; simpl in Hla; [lia..|reflexivity].
Qed.

(** The second assertion, on resolutions as [_save_full] stores them. *)
Lemma weld_check_resolution (A B : h5file) (va vb : attr_val scalar)
    (la lb : list nat) :
  attrs A !! "version" = Some va -> attrs B !! "version" = Some vb ->
  py_eq_truth va vb = Ok true ->
  attrs A !! "original_resolution" = Some (AShape la) ->
  attrs B !! "original_resolution" = Some (AShape lb) ->
  length la = length lb -> 2 <= length la ->
  for_each weld_attributes (weld_check A B) tt
  = Err (ValueError
           "The truth value of an array with more than one element is ambiguous. Use a.any() or a.all()").
Proof.
  intros Hva Hvb Heq Hla Hlb Hlen Hrank. unfold weld_attributes.
  cbn [for_each].
  rewrite (weld_check_step A B "version" va vb Hva Hvb), Heq.
  cbn [py_assert mbind result_bind].
  rewrite (weld_check_step A B "original_resolution" _ _ Hla Hlb).
  by rewrite (py_eq_truth_arrays la lb Hlen Hrank).
Qed.

(** Claim C3, on the code. [weld] writes no container of [a + b] frames.
    For two compatible containers as the builder writes them (the six
    attributes agree, the version is a number or a string, and the
    resolution is stored as the array of the numbers of a frame shape, of
    two or more elements) it raises [ValueError] in the assertion on
    [original_resolution]: [==] on two arrays is an array, which has no
    truth value. The concatenation is not reached. For all inputs [weld]
    raises, at the latest at [self._save_full()], which lacks the argument
    [ver]; the disk is as before. *)
Theorem weld_raises (self : Builder) (path_a path_b dst_dir name : string)
    (d : disk) (A B : h5file) (va : attr_val scalar) (dims : list nat) :
  h5 d !! path_a = Some A -> h5 d !! path_b = Some B ->
  (forall k, k ∈ weld_attributes -> attrs A !! k = attrs B !! k) ->
  attrs A !! "version" = Some va -> py_eq_truth va va = Ok true ->
  attrs A !! "original_resolution" = Some (AShape dims) -> 2 <= length dims ->
  weld self path_a path_b dst_dir name d
  = (Err (ValueError
            "The truth value of an array with more than one element is ambiguous. Use a.any() or a.all()"),
     d) /\
  forall self' path_a' path_b' dst_dir' name' d0,
    exists e, weld self' path_a' path_b' dst_dir' name' d0 = (Err e, d0).
Proof.
  intros HA HB Hsame Hva Heq Hres Hrank. split; [|apply weld_never_writes].
  apply (weld_unfold _ _ _ _ _ _ A B); [done..|].
  apply (weld_check_resolution A B va va dims dims); try done.
  - rewrite <- Hsame; [done|]. apply elem_of_weld_attributes. tauto.
  - rewrite <- Hsame; [done|]. apply elem_of_weld_attributes. tauto.
Qed.

(** Claim C4, on the code. [weld] raises the assertion that names the
    attribute (the [IncompatibleDatasetsError] of the specification) when
    the versions of the two containers differ. When the versions agree and
    the resolutions are stored as the builder stores them, it raises
    [ValueError] in the assertion on [original_resolution], whether the
    resolutions, the intrinsics and the depth scales of the two containers
    agree or differ: a difference in one of these five attributes is not
    reported. The disk is as before in both cases. *)
Theorem weld_rejects_incompatible (self : Builder)
    (path_a path_b dst_dir name : string) (d : disk) (A B : h5file)
    (va vb : attr_val scalar) :
  h5 d !! path_a = Some A -> h5 d !! path_b = Some B ->
  attrs A !! "version" = Some va -> attrs B !! "version" = Some vb ->
  (py_eq_truth va vb = Ok false ->
   weld self path_a path_b dst_dir name d
   = (Err (AssertionError "version must be equal to join datasets"), d)) /\
  (py_eq_truth va vb = Ok true ->
   forall la lb,
     attrs A !! "original_resolution" = Some (AShape la) ->
     attrs B !! "original_resolution" = Some (AShape lb) ->
     length la = length lb -> 2 <= length la ->
     weld self path_a path_b dst_dir name d
     = (Err (ValueError
               "The truth value of an array with more than one element is ambiguous. Use a.any() or a.all()"),
        d)).
Proof.
  intros HA HB Hva Hvb. split.
  - intros Hne. apply (weld_unfold _ _ _ _ _ _ A B); [done..|].
    by apply (weld_check_version A B va vb).
  - intros Heq la lb Hla Hlb Hlen Hrank.
    apply (weld_unfold _ _ _ _ _ _ A B); [done..|].
    by apply (weld_check_resolution A B va vb la lb).
Qed.

(** Claim C6. Every container the builder writes has all its per-frame
    datasets (angles, positions, depth maps, point maps, original and
    segmented images, regions of interest, and the three path manifests)
    with as many rows as its [length] attribute says: after a successful
    full build and after a successful subset; [weld] never writes a
    container. In the code no run of [build_subset] is successful either
    ([build_subset_never_returns]), so the part on subsets holds of no
    run: the containers the builder writes are those of the full build. *)
Theorem written_containers_length (cap : capture) (clk : clock) (now : string)
    (self : Builder) (d : disk) :
  (forall data_path ver name dest d',
     build_full cap clk self data_path ver name d = (Ok dest, d') ->
     exists f, h5 d' !! dest = Some f /\ length_invariant f) /\
  (forall src sub_type idxs u d',
     build_subset now self src sub_type idxs d = (Ok u, d') ->
     exists f,
       h5 d' !! subset_path src sub_type = Some f /\ length_invariant f /\
       attrs f !! "length" = Some (AInt (Z.of_nat (length idxs)))) /\
  (forall path_a path_b dst_dir name r d',
     weld self path_a path_b dst_dir name d = (r, d') ->
     d' = d /\ exists e, r = Err e).
Proof.
  split; [|split].
  - intros data_path ver name dest d' Hrun. rewrite build_full_unfold in Hrun.
    destruct (load_frames cap (with_dest self data_path name) data_path)
      as [s5|e] eqn:Hload; [|discriminate].
    apply load_frames_spec in Hload
      as (_ & _ & _ & _ & _ & _ & _ & _ & _ & _ & Hlens & _).
    destruct Hlens as (La & Lp & Ld & Lpm & Lo & Ls & Lr & Lj & Lm & Li).
    apply save_full_spec in Hrun as (_ & f & Hf & Hlen & _ & _ & _ & _ & Hholds).
    exists f. split; [done|].
    by apply (holds_arrays_length_invariant f s5).
  - intros src sub_type idxs u d' Hrun.
    by apply build_subset_never_returns in Hrun as [e He].
  - intros path_a path_b dst_dir name r d' Hrun.
    destruct (weld_never_writes self path_a path_b dst_dir name d) as [e He].
    rewrite He in Hrun. injection Hrun as <- <-. by eauto.
Qed.

End FullBuild.

(** ** [dataset.py]: validation and lookup *)

Section DatasetLookup.
Import DatasetPy.
Context `{Paths}.
Variable build : string -> ST fs unit.

Lemma validate_state (path : string) (fsys : fs) :
  (validate path fsys).2 = fsys.
Proof.
  unfold validate. destruct (load_json _ _) as [info|e]; [|done].
  destruct (ds_ver info) as [v|]; [|done]. by case_decide.
Qed.

(** Claim C8. Validation answers [True] only for a dataset whose stored
    version has the integer part of the current format version, which is
    1. A dataset whose [ds.json] has another integer part, or has no
    version, is reported invalid and the file system is not touched; the
    lookup then rebuilds it from its raw capture before it is read. *)
Theorem validate_version (path : string) (fsys : fs) :
  py_int dataset_version = 1%Z /\
  (forall fsys',
     validate path fsys = (Ok true, fsys') ->
     exists info v,
       files fsys !! os_path_join path "ds.json" = Some (JsonFile info) /\
       ds_ver info = Some v /\ py_int v = py_int dataset_version) /\
  (forall info,
     files fsys !! os_path_join path "ds.json" = Some (JsonFile info) ->
     (ds_ver info = None \/
      exists v, ds_ver info = Some v /\ py_int v ≠ py_int dataset_version) ->
     validate path fsys = (Ok false, fsys)) /\
  (forall name nm l,
     str_contains name nm = true ->
     validate path fsys = (Ok false, fsys) ->
     search_compiled build name ((path, nm) :: l) fsys
     = match build (os_path_join (os_path_join DATASETS "raw") nm) fsys with
       | (Ok _, fsys') => (Ok (Some (path, nm)), fsys')
       | (Err e, fsys') => (Err e, fsys')
       end).
Proof.
  split; [reflexivity|]. split; [|split].
  - intros fsys'. unfold validate, load_json.
    destruct (files fsys !! os_path_join path "ds.json") as [[info|]|];
      [|discriminate..].
    destruct (ds_ver info) as [v|] eqn:Hv; [|discriminate].
    case_decide as Hint; [discriminate|]. intros _.
    exists info, v. split; [done|]. split; [done|].
    by destruct (decide (py_int v = py_int dataset_version)).
  - intros info Hfile Hver. unfold validate, load_json. rewrite Hfile.
    destruct Hver as [->|(v & -> & Hne)]; [done|].
    by rewrite decide_True.
  - intros name nm l Hin Hvalid. cbn [search_compiled]. rewrite Hin.
    unfold mbind, ST_bind. rewrite Hvalid.
    by destruct (build _ fsys) as [[[]|e] fsys'].
Qed.

Lemma search_compiled_skip (name : string) (pre l : list (string * string)) :
  (forall p, p ∈ pre -> str_contains name p.2 = false) ->
  search_compiled build name (pre ++ l) = search_compiled build name l.
Proof.
  induction pre as [|[ds nm] pre IH]; intros Hpre; [done|].
  cbn [app search_compiled].
  pose proof (Hpre (ds, nm) ltac:(left)) as Hno. cbn [snd] in Hno. rewrite Hno.
  apply IH. intros p Hp. apply Hpre. by right.
Qed.

Lemma search_raw_skip (name : string) (pre l : list (string * string)) :
  (forall p, p ∈ pre -> str_contains name p.2 = false) ->
  search_raw build name (pre ++ l) = search_raw build name l.
Proof.
  induction pre as [|[ds nm] pre IH]; intros Hpre; [done|].
  cbn [app search_raw].
  pose proof (Hpre (ds, nm) ltac:(left)) as Hno. cbn [snd] in Hno. rewrite Hno.
  apply IH. intros p Hp. apply Hpre. by right.
Qed.


End DatasetLookup.

(** * The properties on a small capture *)

(** ** The toy containers *)

(** Lookups in the literal maps of the toy files. *)
Ltac toy_lookup :=
  repeat first
    [ rewrite lookup_insert_eq
    | rewrite lookup_insert_ne by discriminate
    | rewrite lookup_singleton_eq
    | rewrite lookup_singleton_ne by discriminate ].

Lemma toy_file_readable (name : string) (scale : Z) :
  readable (Toy.toy_file name scale).
Proof.
  unfold readable, Toy.toy_file. h5_fields. split; [|split].
  - intros k Hk. rewrite !elem_of_cons, elem_of_nil in Hk.
    destruct Hk as [->|[->|[->|[->|[->|[]]]]]]; eexists; by toy_lookup.
  - intros k [->|[->|[->|[->|[->|[->| ->]]]]]]%elem_of_per_frame_arrays;
      eexists; by toy_lookup.
  - intros k [->|[->| ->]]%elem_of_per_frame_paths;
      eexists; by toy_lookup.
Qed.

Lemma toy_disk_set1 :
  h5 Toy.toy_disk !! "data/set1/set1.h5" = Some Toy.toy_container.
Proof. unfold Toy.toy_disk. cbn [h5]. by toy_lookup. Qed.

Lemma toy_disk_set2 :
  h5 Toy.toy_disk !! "data/set2/set2.h5" = Some (Toy.toy_file "set2" 2).
Proof. unfold Toy.toy_disk. cbn [h5]. by toy_lookup. Qed.

Lemma toy_disk_set3 :
  h5 Toy.toy_disk !! "data/set3/set3.h5" = Some (Toy.toy_file "set3" 3).
Proof. unfold Toy.toy_disk. cbn [h5]. by toy_lookup. Qed.

Lemma toy_subset_free (sub_type : string) :
  h5 Toy.toy_disk !! ("data/set1/set1_" +:+ sub_type +:+ ".h5") = None.
Proof.
  unfold Toy.toy_disk. cbn [h5].
  rewrite !lookup_insert_ne, lookup_singleton_ne; [done|..];
    destruct sub_type; discriminate.
Qed.

Lemma toy_subset_path :
  subset_path "data/set1/set1.h5" "train" = "data/set1/set1_train.h5" /\
  subset_path "data/set1/set1.h5" "full" = "data/set1/set1_full.h5".
Proof. split; vm_compute; reflexivity. Qed.

(** The subset 'train' of the frames 1, 0, 1 of the toy container: the
    call raises and leaves an empty file at the destination. *)
Lemma build_subset_raises_witness :
  build_subset "2021-03-09 09:00:00" (Toy.toy_self 0) "data/set1/set1.h5"
    "train" [1; 0; 1] Toy.toy_disk
  = (Err (AttributeError "can't set attribute"),
     with_file "data/set1/set1_train.h5" Toy.toy_disk) /\
  h5 (with_file "data/set1/set1_train.h5" Toy.toy_disk)
    !! "data/set1/set1_train.h5" = Some h5_empty /\
  h5 (with_file "data/set1/set1_train.h5" Toy.toy_disk)
    !! "data/set1/set1.h5" = Some Toy.toy_container.
Proof.
  pose proof (build_subset_raises "2021-03-09 09:00:00" (Toy.toy_self 0)
                "data/set1/set1.h5" "train" [1; 0; 1] Toy.toy_disk
                Toy.toy_container toy_disk_set1 (toy_file_readable "set1" 2))
    as Hs.
  cbv zeta in Hs. rewrite (proj1 toy_subset_path) in Hs.
  destruct Hs as (Hrun & Hsrc & Hnew & _).
  split; [exact Hrun|].
  split; [apply Hnew, (toy_subset_free "train")|exact Hsrc].
Defined.

(** ** Weld on the toy containers *)

Lemma toy_disk_v2_set1 :
  h5 Toy.toy_disk_v2 !! "data/set1/set1.h5" = Some Toy.toy_container.
Proof. unfold Toy.toy_disk_v2. cbn [h5]. by toy_lookup. Qed.

Lemma toy_disk_v2_set4 :
  h5 Toy.toy_disk_v2 !! "data/set4/set4.h5" = Some Toy.toy_file_v2.
Proof. unfold Toy.toy_disk_v2. cbn [h5]. by toy_lookup. Qed.

Lemma toy_file_version (name : string) (scale : Z) :
  attrs (Toy.toy_file name scale) !! "version" = Some (AFloat 1%Z).
Proof. unfold Toy.toy_file. h5_fields. by toy_lookup. Qed.

Lemma toy_file_resolution (name : string) (scale : Z) :
  attrs (Toy.toy_file name scale) !! "original_resolution"
  = Some (AShape [2; 1; 3]).
Proof. unfold Toy.toy_file. h5_fields. by toy_lookup. Qed.

(** Two toy containers of two frames with the same camera. *)
Lemma weld_raises_witness :
  weld (Toy.toy_self 0) "data/set1/set1.h5" "data/set2/set2.h5" "data/both" "both"
    Toy.toy_disk
  = (Err (ValueError
            "The truth value of an array with more than one element is ambiguous. Use a.any() or a.all()"),
     Toy.toy_disk).
Proof.
  refine (proj1 (weld_raises (Toy.toy_self 0) "data/set1/set1.h5"
                   "data/set2/set2.h5" "data/both" "both" Toy.toy_disk
                   Toy.toy_container (Toy.toy_file "set2" 2) (AFloat 1%Z)
                   [2; 1; 3] toy_disk_set1 toy_disk_set2 _
                   (toy_file_version "set1" 2) _
                   (toy_file_resolution "set1" 2) _)).
  - intros k Hk. unfold Toy.toy_container, Toy.toy_file. h5_fields.
    apply elem_of_weld_attributes in Hk as [->|[->|[->|[->|[->| ->]]]]];
      by toy_lookup.
  - reflexivity.
  - simpl. lia.
Defined.

(** Two toy containers of different versions, and two toy containers of
    one version that differ in their depth scale. *)
Lemma weld_rejects_incompatible_witness :
  weld (Toy.toy_self 0) "data/set1/set1.h5" "data/set4/set4.h5" "data/both" "both"
    Toy.toy_disk_v2
  = (Err (AssertionError "version must be equal to join datasets"),
     Toy.toy_disk_v2) /\
  attrs Toy.toy_container !! "depth_scale" = Some (AFloat 2%Z) /\
  attrs (Toy.toy_file "set3" 3) !! "depth_scale" = Some (AFloat 3%Z) /\
  weld (Toy.toy_self 0) "data/set1/set1.h5" "data/set3/set3.h5" "data/both" "both"
    Toy.toy_disk
  = (Err (ValueError
            "The truth value of an array with more than one element is ambiguous. Use a.any() or a.all()"),
     Toy.toy_disk).
Proof.
  split; [|split; [|split]].
  - assert (attrs Toy.toy_file_v2 !! "version" = Some (AFloat 2%Z)) as Hv2
      by (unfold Toy.toy_file_v2; cbn [attrs]; apply lookup_insert_eq).
    exact (proj1 (weld_rejects_incompatible (Toy.toy_self 0) "data/set1/set1.h5"
                    "data/set4/set4.h5" "data/both" "both" Toy.toy_disk_v2
                    Toy.toy_container Toy.toy_file_v2 (AFloat 1%Z) (AFloat 2%Z)
                    toy_disk_v2_set1 toy_disk_v2_set4
                    (toy_file_version "set1" 2) Hv2) eq_refl).
  - unfold Toy.toy_container, Toy.toy_file. h5_fields. by toy_lookup.
  - unfold Toy.toy_file. h5_fields. by toy_lookup.
  - refine (proj2 (weld_rejects_incompatible (Toy.toy_self 0) "data/set1/set1.h5"
                    "data/set3/set3.h5" "data/both" "both" Toy.toy_disk
                    Toy.toy_container (Toy.toy_file "set3" 3) (AFloat 1%Z)
                    (AFloat 1%Z) toy_disk_set1 toy_disk_set3
                    (toy_file_version "set1" 2) (toy_file_version "set3" 3))
              eq_refl [2; 1; 3] [2; 1; 3] (toy_file_resolution "set1" 2)
              (toy_file_resolution "set3" 3) eq_refl _).
    simpl. lia.
Defined.

(** ** The full build of the toy capture *)

(** The full build of the toy capture on an empty disk succeeds. *)
Lemma toy_build_runs :
  build_full Toy.toy_capture Toy.toy_clock (Toy.toy_self 100) "raw/set1"
    (AFloat 1%Z) None Toy.empty_disk
  = (Ok "data/set1/set1.h5", Toy.toy_built).
Proof.
  assert ((Toy.toy_build Toy.toy_clock Toy.empty_disk).1 = Ok "data/set1/set1.h5")
    as Hdest by (vm_compute; reflexivity).
  unfold Toy.toy_built. revert Hdest.
  change (Toy.toy_build Toy.toy_clock Toy.empty_disk)
    with (build_full Toy.toy_capture Toy.toy_clock (Toy.toy_self 100) "raw/set1"
            (AFloat 1%Z) None Toy.empty_disk).
  destruct (build_full Toy.toy_capture Toy.toy_clock (Toy.toy_self 100) "raw/set1"
              (AFloat 1%Z) None Toy.empty_disk) as [r d].
  cbn [fst snd]. by intros ->.
Qed.

(** The second full build of the toy capture, on the disk the first one
    left. *)
Lemma build_full_twice_witness :
  exists d2 f1 f2,
    build_full Toy.toy_capture Toy.toy_clock' (Toy.toy_self 200) "raw/set1"
      (AFloat 1%Z) None Toy.toy_built
    = (Err (ValueError "Unable to create dataset (name already exists)"), d2) /\
    h5 Toy.toy_built !! "data/set1/set1.h5" = Some f1 /\
    h5 d2 !! "data/set1/set1.h5" = Some f2 /\
    arrays f2 = arrays f1 /\ strings f2 = strings f1.
Proof.
  destruct (build_full_twice Toy.toy_capture Toy.toy_clock Toy.toy_clock'
              (Toy.toy_self 100) (Toy.toy_self 200) "raw/set1" (AFloat 1%Z) None
              Toy.empty_disk Toy.toy_built "data/set1/set1.h5" toy_build_runs)
    as (e & d2 & f1 & f2 & Hrun & Hf1 & Hf2 & Harr & Hstr & He).
  assert (exists s5, load_frames Toy.toy_capture
              (with_dest (Toy.toy_self 200) "raw/set1" None) "raw/set1" = Ok s5)
    as [s5 Hload] by (eexists; vm_compute; reflexivity).
  exists d2, f1, f2. rewrite <- (He s5 Hload).
  split; [exact Hrun|]. split; [exact Hf1|]. split; [exact Hf2|].
  split; [exact Harr|exact Hstr].
Defined.

(** The container of the full build of the toy capture. *)
Lemma written_containers_length_witness :
  exists f, h5 Toy.toy_built !! "data/set1/set1.h5" = Some f /\ length_invariant f.
Proof.
  exact (proj1 (written_containers_length Toy.toy_capture Toy.toy_clock "now"
                  (Toy.toy_self 100) Toy.empty_disk)
           "raw/set1" (AFloat 1%Z) None "data/set1/set1.h5" Toy.toy_built
           toy_build_runs).
Defined.

(** ** The scanner on the toy captures *)

(** The walk lists [b.png] before [a.png]. *)
Lemma toy_walk :
  walk_files Toy.toy_capture ".json" = ["raw/set1/a.json"; "raw/set1/b.json"] /\
  walk_files Toy.toy_capture ".npy" = ["raw/set1/a.npy"; "raw/set1/b.npy"] /\
  walk_files Toy.toy_capture ".png" = ["raw/set1/b.png"; "raw/set1/a.png"].
Proof. repeat split; vm_compute; reflexivity. Qed.



(** ** The camera settings of the toy captures *)

(** The full build of the capture whose two frames have the depth scales 2
    and 3 fails and writes no container; the capture whose two frames have
    the depth scale 2 and the same intrinsics passes the check of
    [_load_json_data], which keeps these values. *)
Lemma build_full_uniform_camera_witness :
  (exists e d',
     build_full Toy.toy_capture_mixed Toy.toy_clock (Toy.toy_self 100) "raw/set1"
       (AFloat 1%Z) None Toy.empty_disk = (Err e, d') /\
     h5 d' = h5 Toy.empty_disk) /\
  (exists s2 s3,
     _get_filepaths_from_data_dir Toy.toy_capture
       (with_dest (Toy.toy_self 100) "raw/set1" None) "raw/set1" = Ok s2 /\
     _load_json_data Toy.toy_capture s2 = Ok s3 /\
     depth_scale s3 = AFloat 2%Z /\ intrin_depth s3 = AStr "d640" /\
     intrin_color s3 = AStr "c640").
Proof.
  split.
  - destruct (proj1 (build_full_uniform_camera Toy.toy_capture_mixed
                       Toy.toy_clock (Toy.toy_self 100) "raw/set1" (AFloat 1%Z)
                       None Toy.empty_disk)
                "raw/set1/a.json" "raw/set1/b.json" (Toy.toy_json 2 10)
                (Toy.toy_json 3 20))
      as (e & d' & Hrun & Hh5 & _).
    + change (walk_files Toy.toy_capture_mixed ".json")
        with (walk_files Toy.toy_capture ".json").
      rewrite (proj1 toy_walk), !elem_of_cons. auto.
    + change (walk_files Toy.toy_capture_mixed ".json")
        with (walk_files Toy.toy_capture ".json").
      rewrite (proj1 toy_walk), !elem_of_cons. auto.
    + unfold Toy.toy_capture_mixed. cbn [json_files]. by toy_lookup.
    + unfold Toy.toy_capture_mixed. cbn [json_files]. by toy_lookup.
    + intros [Hscale _]. discriminate Hscale.
    + exists e, d'. split; [exact Hrun|exact Hh5].
  - assert (exists s2,
              _get_filepaths_from_data_dir Toy.toy_capture
                (with_dest (Toy.toy_self 100) "raw/set1" None) "raw/set1"
              = Ok s2 /\
              exists st, parse_jsons Toy.toy_capture s2 = Ok st)
      as (s2 & Hscan & st & Hparse)
      by (eexists; split; [vm_compute; reflexivity|];
          eexists; vm_compute; reflexivity).
    destruct (proj2 (proj2 (build_full_uniform_camera Toy.toy_capture
                              Toy.toy_clock (Toy.toy_self 100) "raw/set1"
                              (AFloat 1%Z) None Toy.empty_disk))
                s2 st (Toy.toy_json 2 10) Hscan Hparse)
      as (s3 & Hload & Hds & Hid & Hic).
    + rewrite (proj1 toy_walk). discriminate.
    + intros p Hp. rewrite (proj1 toy_walk), !elem_of_cons, elem_of_nil in Hp.
      unfold Toy.toy_capture. cbn [json_files].
      destruct Hp as [->|[->|[]]]; eexists;
        (split; [by toy_lookup|by repeat split]).
    + exists s2, s3. split; [exact Hscan|]. split; [exact Hload|].
      split; [exact Hds|]. split; [exact Hid|exact Hic].
Defined.

(** ** The lookup in the toy dataset directory *)

Section ToyLookup.
Import DatasetPy.

(** The dataset 'old' has the version 0.9. *)
Lemma validate_version_witness :
  validate "data/old" Toy.toy_fs = (Ok false, Toy.toy_fs).
Proof.
  apply (proj1 (proj2 (proj2 (validate_version Toy.toy_rebuild "data/old" Toy.toy_fs)))
           {| ds_ver := Some (9 # 10); frames := 2 |}).
  - vm_compute. reflexivity.
  - right. exists (9 # 10). split; [reflexivity|]. vm_compute. discriminate.
Defined.

Lemma toy_scan :
  scan_dirs DATASETS Toy.toy_fs
  = (Ok ["data/raw"; "data/old"; "data/set10"], Toy.toy_fs).
Proof.
  unfold scan_dirs, Toy.toy_fs. cbn [listing DATASETS Toy.toy_paths].
  toy_lookup. reflexivity.
Qed.

Lemma toy_validate_set10 :
  validate "data/set10" Toy.toy_fs = (Ok true, Toy.toy_fs).
Proof.
  pose proof (validate_state "data/set10" Toy.toy_fs) as Hst.
  assert ((validate "data/set10" Toy.toy_fs).1 = Ok true) as Hv
    by (vm_compute; reflexivity).
  destruct (validate "data/set10" Toy.toy_fs) as [r fsys].
  cbn [fst snd] in Hst, Hv. by rewrite Hst, Hv.
Qed.

Lemma toy_validate_raw :
  validate "data/raw" Toy.toy_fs
  = (Err (FileNotFoundError "data/raw/ds.json"), Toy.toy_fs).
Proof.
  pose proof (validate_state "data/raw" Toy.toy_fs) as Hst.
  assert ((validate "data/raw" Toy.toy_fs).1
          = Err (FileNotFoundError "data/raw/ds.json")) as Hv
    by (vm_compute; reflexivity).
  destruct (validate "data/raw" Toy.toy_fs) as [r fsys].
  cbn [fst snd] in Hst, Hv. by rewrite Hst, Hv.
Qed.



End ToyLookup.

(** * Further properties of [building.py] *)

Section FullBuildMore.
Context `{Collaborators} `{Paths}.

(** Everything [_save_full] records besides the arrays. *)
Lemma save_full_attrs (clk : clock) (s : Builder) (ver : attr_val scalar)
    (d d' : disk) (dest : string) :
  _save_full clk s ver d = (Ok dest, d') ->
  dirs d' = dirs d /\ videos d' = videos d /\
  exists f,
    h5 d' !! dest = Some f /\
    attrs f !! "name" = Some (AStr (self_name s)) /\
    attrs f !! "version" = Some ver /\
    attrs f !! "build_date" = Some (AStr (now_build clk)) /\
    attrs f !! "compile_date" = Some (AStr (now_compile clk)) /\
    attrs f !! "compile_time"
    = Some (AFloat (fsub (time_save clk) (build_start_time s))) /\
    array_attrs f !! ("coordinates/depthmaps", "depth_scale")
    = Some (depth_scale s).
Proof.
  unfold _save_full. intros Hrun.
  apply st_bind_Ok in Hrun as (u & d1 & Hfile & Hret).
  injection Hret as <- <-.
  apply with_File_a_Ok in Hfile as (f' & Hbody & ->).
  split; [done|]. split; [done|].
  exists f'. split; [cbn [h5 set_h5]; by rewrite lookup_insert_eq|].
  repeat h5_step Hbody. h5_effects. h5_unfold.
  repeat split; by h5_lookup.
Qed.

Lemma dirs_with_dir (path : string) (d : disk) : path ∈ dirs (with_dir path d).
Proof.
  unfold with_dir. case_decide; [done|]. cbn [dirs set_dirs].
  apply elem_of_union_l, elem_of_singleton. reflexivity.
Qed.

Lemma dirs_with_videos (s : Builder) (d : disk) :
  dirs (with_videos s d) = dirs d.
Proof. unfold with_videos. by rewrite !(proj2 (h5_with_video _ _ _)). Qed.

(** Property X1. A successful full build returns the path
    [DATASETS/name/name.h5], where [name] is the given name or else the
    base name of the capture directory; the directory [DATASETS/name]
    exists afterwards; the container records this name, the version it was
    given, the type 'full', as its length the number of [.png] files of the
    walk, the two dates, and as [compile_time] the time since the [Builder]
    was made. The depth-map dataset carries the depth scale of the file. *)
Theorem build_full_container (cap : capture) (clk : clock) (self : Builder)
    (data_path : string) (ver : attr_val scalar) (name : option string)
    (d d' : disk) (dest : string) :
  build_full cap clk self data_path ver name d = (Ok dest, d') ->
  dest = container_path data_path name /\
  os_path_join DATASETS (build_name data_path name) ∈ dirs d' /\
  exists f,
    h5 d' !! dest = Some f /\
    attrs f !! "name" = Some (AStr (build_name data_path name)) /\
    attrs f !! "version" = Some ver /\
    attrs f !! "type" = Some (AStr "full") /\
    attrs f !! "length" = Some (AInt (Z.of_nat (length (walk_files cap ".png")))) /\
    attrs f !! "build_date" = Some (AStr (now_build clk)) /\
    attrs f !! "compile_date" = Some (AStr (now_compile clk)) /\
    attrs f !! "compile_time"
    = Some (AFloat (fsub (time_save clk) (build_start_time self))) /\
    array_attrs f !! ("coordinates/depthmaps", "depth_scale")
    = attrs f !! "depth_scale".
Proof.
  intros Hrun. rewrite build_full_unfold in Hrun.
  destruct (load_frames cap (with_dest self data_path name) data_path)
    as [s5|e] eqn:Hload; [|discriminate].
  apply load_frames_spec in Hload as (Hdp & Hnm & Ht & Hlen & _).
  cbn [with_dest dest_path self_name build_start_time set_self_name
       set_dest_path] in Hdp, Hnm, Ht.
  pose proof (save_full_spec _ _ _ _ _ _ Hrun)
    as (Hdest & f & Hf & Hlength & Htype & Hscale & _).
  apply save_full_attrs in Hrun
    as (Hdirs & _ & f0 & Hf0 & Hname & Hver & Hbd & Hcd & Hct & Hds).
  assert (f0 = f) as -> by congruence.
  split; [by rewrite Hdest, Hdp, Hnm|].
  split; [rewrite Hdirs, dirs_with_videos; apply dirs_with_dir|].
  exists f. rewrite Hname, Hver, Htype, Hlength, Hbd, Hcd, Hct, Hds, Hscale.
  by rewrite Hnm, Hlen, Ht.
Qed.

(** What [holds_arrays_of] says of the ten datasets. *)
Lemma holds_arrays_readable (f : h5file) (s : Builder) :
  holds_arrays_of f s ->
  (forall k, k ∈ per_frame_arrays -> is_Some (arrays f !! k)) /\
  (forall k, k ∈ per_frame_paths -> is_Some (strings f !! k)).
Proof.
  intros (Hra & Hrp & Hrd & Hrpm & Hro & Hrs & Hrr & Hrj & Hrm & Hri). split.
  - intros k [->|[->|[->|[->|[->|[->| ->]]]]]]%elem_of_per_frame_arrays;
      by eexists.
  - intros k [->|[->| ->]]%elem_of_per_frame_paths; by eexists.
Qed.

(** Property X3. Reading back the container of a successful full build
    succeeds and leaves the disk as it is. The builder then has, as values,
    the name and the length of the container and the camera settings the
    build had when it wrote it. The ten datasets are taken as handles on
    the file, which is closed when [_read_full] returns: taking rows from
    one of them afterwards raises. *)
Theorem build_full_read_back (cap : capture) (clk : clock) (self self' : Builder)
    (data_path : string) (ver : attr_val scalar) (name : option string)
    (d d' : disk) (dest : string) :
  build_full cap clk self data_path ver name d = (Ok dest, d') ->
  exists s5 s,
    load_frames cap (with_dest self data_path name) data_path = Ok s5 /\
    _read_full self' dest d' = (Ok s, d') /\
    file_view s
    = Some {| view_path := dest;
              view_name := AStr (build_name data_path name);
              view_length := AInt (Z.of_nat (self_length s5)) |} /\
    intrin_depth s = intrin_depth s5 /\ intrin_color s = intrin_color s5 /\
    depth_scale s = depth_scale s5 /\
    forall idxs,
      self_rows s (ang_arr s) idxs
      = Err (ValueError "Invalid dataset identifier").
Proof.
  intros Hrun. rewrite build_full_unfold in Hrun.
  destruct (load_frames cap (with_dest self data_path name) data_path)
    as [s5|e] eqn:Hload; [|discriminate].
  apply load_frames_spec in Hload as (_ & Hnm & _).
  cbn [with_dest self_name set_self_name set_dest_path] in Hnm.
  pose proof (save_full_spec _ _ _ _ _ _ Hrun)
    as (_ & f & Hf & Hlen & _ & Hds & Hidp & Hicl & Hholds).
  apply save_full_attrs in Hrun as (_ & _ & f0 & Hf0 & Hname & _).
  assert (f0 = f) as -> by congruence.
  assert (readable f) as Hread.
  { split; [|by apply (holds_arrays_readable f s5)].
    intros k Hk. rewrite !elem_of_cons, elem_of_nil in Hk.
    destruct Hk as [->|[->|[->|[->|[->|[]]]]]]; by eexists. }
  destruct (read_full_runs self' dest d' f Hf Hread)
    as (s & nm & len & Hrd & Rn & Rl & Rv & Ri & Rc & Rd).
  exists s5, s. split; [done|]. split; [done|].
  assert (nm = AStr (build_name data_path name)) as -> by congruence.
  assert (len = AInt (Z.of_nat (self_length s5))) as -> by congruence.
  split; [done|]. split; [congruence|]. split; [congruence|].
  split; [congruence|].
  intros idxs. unfold self_rows. by rewrite Rv.
Qed.

(** Property X4. A capture directory with no [.json], [.npy] or [.png] file
    passes the count check of the scanner and fails in [_load_json_data]:
    the three sets of camera settings are empty, so the build raises the
    assertion on the camera settings. It has then created the destination
    directory and written no container and no video. *)
Theorem build_full_empty_capture (cap : capture) (clk : clock) (self : Builder)
    (data_path : string) (ver : attr_val scalar) (name : option string)
    (d : disk) :
  walk_files cap ".json" = [] -> walk_files cap ".npy" = [] ->
  walk_files cap ".png" = [] ->
  exists d',
    build_full cap clk self data_path ver name d
    = (Err (AssertionError "Camera settings must be uniform over the dataset."),
       d') /\
    os_path_join DATASETS (build_name data_path name) ∈ dirs d' /\
    h5 d' = h5 d /\ videos d' = videos d.
Proof.
  intros Hj Hm Hi. rewrite build_full_unfold.
  assert (load_frames cap (with_dest self data_path name) data_path
          = Err (AssertionError
                   "Camera settings must be uniform over the dataset."))
    as ->.
  { unfold load_frames. rewrite get_filepaths_eval, Hj, Hm, Hi.
    cbn [length bool_decide andb mbind result_bind fmap list_fmap].
    reflexivity. }
  eexists. split; [reflexivity|].
  split; [apply dirs_with_dir|].
  by rewrite h5_with_dir, videos_with_dir.
Qed.

End FullBuildMore.

Section ReadFull.
Context `{Collaborators} `{Paths}.

(** A successful [_read_full] has found the five attributes and the ten
    datasets. *)
Lemma read_full_readable (self s : Builder) (path : string) (d d' : disk) :
  _read_full self path d = (Ok s, d') ->
  exists f, h5 d !! path = Some f /\ readable f.
Proof.
  unfold _read_full. intros Hrun.
  apply st_bind_Ok in Hrun as (f & d1 & Hopen & Hrun).
  apply File_r_Ok in Hopen as [Hf ->].
  apply st_lift_Ok in Hrun as [Hrun ->].
  exists f. split; [done|].
  bind_split Hrun as name Hname. bind_split Hrun as len Hlen.
  bind_split Hrun as idp Hidp. bind_split Hrun as icl Hicl.
  bind_split Hrun as ds Hds.
  bind_split Hrun as ra Hra. bind_split Hrun as rp Hrp.
  bind_split Hrun as rd Hrd. bind_split Hrun as rpm Hrpm.
  bind_split Hrun as ro Hro. bind_split Hrun as rs Hrs.
  bind_split Hrun as rr Hrr. bind_split Hrun as rj Hrj.
  bind_split Hrun as rm Hrm. bind_split Hrun as ri Hri. clear Hrun.
  unfold attrs_getitem, file_getitem, file_getitem_str in *.
  apply or_raise_Ok in Hname, Hlen, Hidp, Hicl, Hds, Hra, Hrp, Hrd, Hrpm, Hro,
    Hrs, Hrr, Hrj, Hrm, Hri.
  split; [|split].
  - intros k Hk. rewrite !elem_of_cons, elem_of_nil in Hk.
    destruct Hk as [->|[->|[->|[->|[->|[]]]]]]; by eexists.
  - intros k [->|[->|[->|[->|[->|[->| ->]]]]]]%elem_of_per_frame_arrays;
      by eexists.
  - intros k [->|[->| ->]]%elem_of_per_frame_paths; by eexists.
Qed.

(** Property X5. [build_subset] reads the source before it opens the
    destination: when the source file does not exist, or lacks one of the
    five attributes or one of the ten datasets [_read_full] takes,
    [build_subset] raises and the disk is as before; no destination file is
    created. For a missing file the exception is that of
    [h5py.File(path, 'r')]. *)
Theorem build_subset_unreadable (now : string) (self : Builder)
    (src sub_type : string) (idxs : list nat) (d : disk) :
  (h5 d !! src = None ->
   build_subset now self src sub_type idxs d = (Err (FileNotFoundError src), d)) /\
  (forall f,
     h5 d !! src = Some f ->
     (exists k, k ∈ ["name"; "length"; "depth_intrinsics"; "color_intrinsics";
                     "depth_scale"] /\ attrs f !! k = None) \/
     (exists k, k ∈ per_frame_arrays /\ arrays f !! k = None) \/
     (exists k, k ∈ per_frame_paths /\ strings f !! k = None) ->
     exists e, build_subset now self src sub_type idxs d = (Err e, d)).
Proof.
  split.
  - intros Hnone. unfold build_subset, _read_full, File_r, mbind, ST_bind.
    by rewrite Hnone.
  - intros f Hf Hmissing.
    pose proof (read_full_state self src d) as Hst.
    destruct (_read_full self src d) as [[s|e] d1] eqn:Hread;
      cbn [snd] in Hst; subst d1.
    + exfalso.
      destruct (read_full_readable _ _ _ _ _ Hread)
        as (f0 & Hf0 & Hattrs & Harr & Hstr).
      assert (f0 = f) as -> by congruence.
      destruct Hmissing as [(k & Hk & Hno)|[(k & Hk & Hno)|(k & Hk & Hno)]].
      * destruct (Hattrs k Hk) as [v Hv]. congruence.
      * destruct (Harr k Hk) as [v Hv]. congruence.
      * destruct (Hstr k Hk) as [v Hv]. congruence.
    + exists e. unfold build_subset. by apply st_bind_err.
Qed.

End ReadFull.

(** ** What the loading puts in the frames *)

Lemma for_each_collect_inv {A B} (g : A -> result B) (l : list A)
    (acc out : list B) :
  for_each l (fun x acc => y ← g x; Ok (acc ++ [y])) acc = Ok out ->
  exists ys, out = acc ++ ys /\ Forall2 (fun x y => g x = Ok y) l ys.
Proof.
  revert acc. induction l as [|x l IH]; simpl; intros acc Hrun.
  - injection Hrun as <-. exists []. by rewrite app_nil_r.
  - bind_inv Hrun. bind_inv Hx. injection Hx as <-.
    apply IH in Hrun as (ys & -> & Hys). exists (x1 :: ys).
    split; [by rewrite <- app_assoc|]. by constructor.
Qed.

Section Frames.
Context `{Collaborators} `{Paths}.

(** [arr[k] = v] on the first row that is still as allocated. *)
Lemma setrow_at (filled rest arr' : list ndarray) (k : nat) (z v : ndarray) :
  length filled = k ->
  setrow (filled ++ z :: rest) k v = Ok arr' ->
  exists row, np_assign z v = Some row /\ arr' = (filled ++ [row]) ++ rest.
Proof.
  intros <-. unfold setrow, getitem.
  rewrite lookup_app_r, Nat.sub_diag by lia. cbn [lookup list_lookup or_raise].
  cbn [mbind result_bind]. destruct (np_assign z v) as [row|]; [|discriminate].
  cbn [or_raise mbind result_bind]. intros [-> _]%setitem_Ok.
  exists row. split; [done|].
  rewrite <- (Nat.add_0_r (length filled)) at 1.
  rewrite insert_app_r. simpl. by rewrite <- app_assoc.
Qed.

(** A loop that reads one file per frame into an array allocated with [m]
    more rows [z]. *)
Lemma fill_rows (g : string -> result ndarray) (z : ndarray) (paths : list string) :
  forall (k m : nat) (filled arr' : list ndarray),
    length filled = k ->
    for_each (zip (seq k m) paths)
      (fun '(idx, path) arr => v ← g path; setrow arr idx v)
      (filled ++ replicate m z) = Ok arr' ->
    exists rows,
      arr' = filled ++ rows ++ replicate (m - length paths) z /\
      Forall2 (fun path row => exists v, g path = Ok v /\ np_assign z v = Some row)
        (take m paths) rows.
Proof.
  induction paths as [|p paths IH]; intros k m filled arr' Hk Hrun.
  - rewrite zip_with_nil_r in Hrun. injection Hrun as <-. exists [].
    rewrite take_nil, Nat.sub_0_r. split; [done|constructor].
  - destruct m as [|m].
    + injection Hrun as <-. exists []. split; [done|]. constructor.
    + cbn [seq zip zip_with for_each replicate] in Hrun.
      bind_split Hrun as arr1 Hbody. bind_split Hbody as v Hv.
      apply (setrow_at filled _ arr1 k z v Hk) in Hbody as (row & Hrow & ->).
      apply IH in Hrun as (rows & -> & Hrows);
        [|rewrite length_app; simpl; lia].
      exists (row :: rows). split.
      * cbn [length Nat.sub]. by rewrite <- !app_assoc.
      * cbn [take]. constructor; by eauto.
Qed.

(** The same loop on the builder, for an array of the builder. *)
Lemma fill_rows_self (get : Builder -> list ndarray)
    (set : list ndarray -> Builder -> Builder) (g : string -> result ndarray)
    (l : list (nat * string)) :
  (forall a s, get (set a s) = a) ->
  (forall a b s, set a (set b s) = set a s) ->
  (forall s, set (get s) s = s) ->
  forall s t,
    for_each l (fun '(idx, path) self =>
                  v ← g path; arr ← setrow (get self) idx v; Ok (set arr self))
      s = Ok t ->
    exists arr',
      for_each l (fun '(idx, path) arr => v ← g path; setrow arr idx v) (get s)
      = Ok arr' /\ t = set arr' s.
Proof.
  intros Hget Hset Heta. induction l as [|[idx path] l IH]; intros s t Hrun.
  - injection Hrun as <-. by exists (get s).
  - cbn [for_each] in Hrun |- *. bind_split Hrun as s1 Hbody.
    bind_split Hbody as v Hv. bind_split Hbody as arr Harr.
    injection Hbody as <-. rewrite Hv. cbn [mbind result_bind]. rewrite Harr.
    cbn [mbind result_bind].
    apply IH in Hrun as (arr' & Hloop & ->). rewrite Hget in Hloop.
    exists arr'. by rewrite Hset.
Qed.

(** The row at [i] after a loop that fills the rows in order. *)
Lemma fill_rows_lookup (g : string -> result ndarray) (z : ndarray)
    (paths : list string) (n : nat) (arr' : list ndarray) (i : nat) (p : string) :
  for_each (zip (py_range 0 n) paths)
    (fun '(idx, path) arr => v ← g path; setrow arr idx v)
    (replicate n z) = Ok arr' ->
  i < n -> paths !! i = Some p ->
  exists v row, g p = Ok v /\ np_assign z v = Some row /\ arr' !! i = Some row.
Proof.
  unfold py_range. rewrite Nat.sub_0_r. intros Hrun Hi Hp.
  apply (fill_rows g z paths 0 n [] arr' eq_refl) in Hrun as (rows & -> & Hrows).
  assert (take n paths !! i = Some p) as Hp' by (by rewrite lookup_take_lt).
  destruct (Forall2_lookup_l _ _ _ _ _ Hrows Hp') as (row & Hrow & v & Hv & Hassign).
  exists v, row. split; [done|]. split; [done|].
  cbn [app]. by apply lookup_app_l_Some.
Qed.

(** Property X6. After [_load_imgs_and_depthmaps], the resolution is that of
    the first image of the scan; frame [i] of the image array is the
    [i]-th image file of the scan, stored in a frame of that resolution;
    frame [i] of the depth maps is the [i]-th depth-map file, stored in a
    frame of that resolution and multiplied by the depth scale. *)
Theorem load_imgs_and_depthmaps_frames (cap : capture) (s s' : Builder) :
  _load_imgs_and_depthmaps cap s = Ok s' ->
  let zi := np_zeros [img_height s'; img_width s'; 3] uint8 in
  let zd := np_zeros [img_height s'; img_width s'] float64 in
  (exists p0 img0 rest,
     imgs_p s !! 0 = Some p0 /\ png_files cap !! p0 = Some img0 /\
     np_shape img0 = img_height s' :: img_width s' :: rest) /\
  (forall i p, i < self_length s -> imgs_p s !! i = Some p ->
     exists img row,
       png_files cap !! p = Some img /\ np_assign zi img = Some row /\
       orig_img_arr s' !! i = Some row) /\
  (forall i p, i < self_length s -> maps_p s !! i = Some p ->
     exists raw slot row,
       npy_files cap !! p = Some raw /\ np_assign zd raw = Some slot /\
       np_imul slot (depth_scale s) = Some row /\
       depthmap_arr s' !! i = Some row).
Proof.
  unfold _load_imgs_and_depthmaps. intros Hrun.
  bind_split Hrun as path0 Hpath0. apply getitem_Ok in Hpath0.
  bind_split Hrun as img0 Himg0. apply or_raise_Ok in Himg0.
  bind_split Hrun as [h w] Hshape. bind_split Hrun as t1 Hloop1.
  bind_split Hrun as t2 Hloop2. bind_split Hrun as depth Hmul.
  injection Hrun as <-.
  apply (fill_rows_self orig_img_arr set_orig_img_arr
           (fun path => imread cap path
                        ?! TypeError "cannot store None in an array"))
    in Hloop1 as (orig & Hloop1 & ->); [|done|done|by intros []].
  apply (fill_rows_self depthmap_arr set_depthmap_arr (np_load cap))
    in Hloop2 as (dm & Hloop2 & ->); [|done|done|by intros []].
  cbn [orig_img_arr depthmap_arr imgs_p maps_p self_length depth_scale
       img_height img_width
       set_orig_img_arr set_depthmap_arr set_img_width set_img_height]
    in Hloop1, Hloop2, Hmul |- *.
  apply for_each_collect_inv in Hmul as (ys & -> & Hmul). cbn [app].
  split.
  { destruct (np_shape img0) as [|h' [|w' rest]] eqn:Hsh; try discriminate.
    injection Hshape as <- <-. by exists path0, img0, rest. }
  split.
  - intros i p Hi Hp.
    destruct (fill_rows_lookup _ _ _ _ _ i p Hloop1 Hi Hp)
      as (v & row & Hv & Hrow & Hlook).
    apply or_raise_Ok in Hv. by exists v, row.
  - intros i p Hi Hp.
    destruct (fill_rows_lookup _ _ _ _ _ i p Hloop2 Hi Hp)
      as (v & slot & Hv & Hslot & Hlook).
    apply or_raise_Ok in Hv.
    destruct (Forall2_lookup_l _ _ _ _ _ Hmul Hlook) as (row & Hrow & Hscaled).
    apply or_raise_Ok in Hscaled. by exists v, slot, row.
Qed.

End Frames.

(** * [dataset.py]: the build and the loading *)

Section DatasetBuildProps.
Import DatasetPy DatasetBuild.
Context `{Collaborators} `{Paths} `{!PlySegmenter}.

Lemma py_bind_Done {S A B} (m : PY S A) (f : A -> PY S B) (s s2 : S) (y : B) :
  (m ≫= f) s = (Done y, s2) ->
  exists x s1, m s = (Done x, s1) /\ f x s1 = (Done y, s2).
Proof.
  unfold mbind, PY_bind. destruct (m s) as [[x|e] s1]; [by eauto|discriminate].
Qed.

Lemma py_bind_run {S A B} (m : PY S A) (f : A -> PY S B) (s s1 : S) (x : A) :
  m s = (Done x, s1) -> (m ≫= f) s = f x s1.
Proof. unfold mbind, PY_bind. by intros ->. Qed.

Lemma py_bind_raise {S A B} (m : PY S A) (f : A -> PY S B) (s s1 : S)
    (e : pyexn) :
  m s = (Raise e, s1) -> (m ≫= f) s = (Raise e, s1).
Proof. unfold mbind, PY_bind. by intros ->. Qed.

Lemma py_lift_Done {S A} (r : outcome A) (s s1 : S) (x : A) :
  py_lift r s = (Done x, s1) -> r = Done x /\ s1 = s.
Proof. unfold py_lift. by intros [= -> ->]. Qed.

Lemma of_result_Done {A} (r : result A) (x : A) :
  of_result r = Done x <-> r = Ok x.
Proof. destruct r; simpl; split; congruence. Qed.

(** A successful [build] is its reads and then its writes. *)
Lemma build_Done (raw : raw_files) (clk : build_clock) (data_path : string)
    (dest_path : option string) (d d' : dsdisk) (u : unit) :
  build raw clk data_path dest_path d = (Done u, d') ->
  exists b,
    reads raw data_path b /\
    d' = written (dest_of data_path dest_path) clk b
           (with_dest_dir (dest_of data_path dest_path) d).
Proof.
  unfold build. fold (dest_of data_path dest_path).
  set (dest := dest_of data_path dest_path). intros Hrun.
  apply py_bind_Done in Hrun as (d0 & d0' & Hget & Hrun).
  injection Hget as <- <-.
  apply py_bind_Done in Hrun as ([] & d1 & Hdir & Hrun).
  assert (d1 = with_dest_dir dest d) as ->.
  { unfold with_dest_dir. destruct (decide (dest ∈ ds_dirs d));
      by injection Hdir as <-. }
  clear Hdir.
  apply py_bind_Done in Hrun as (names & ? & [Hnames ->]%py_lift_Done & Hrun).
  apply of_result_Done, or_raise_Ok in Hnames.
  apply py_bind_Done in Hrun as ([] & ? & [Hassert ->]%py_lift_Done & Hrun).
  apply of_result_Done, py_assert_Ok, andb_prop in Hassert as [Hjp Hpi].
  apply bool_decide_eq_true in Hjp, Hpi.
  apply py_bind_Done in Hrun as (img0 & ? & [Himg0 ->]%py_lift_Done & Hrun).
  apply of_result_Done, getitem_Ok in Himg0.
  apply py_bind_Done in Hrun as (img & ? & [Himg ->]%py_lift_Done & Hrun).
  destruct (raw_png raw !! os_path_join data_path img0) as [img'|] eqn:Hpng;
    [|discriminate]. injection Himg as ->.
  apply py_bind_Done in Hrun as (h & ? & [Hh ->]%py_lift_Done & Hrun).
  apply of_result_Done, getitem_Ok in Hh.
  apply py_bind_Done in Hrun as (w & ? & [Hw ->]%py_lift_Done & Hrun).
  apply of_result_Done, getitem_Ok in Hw.
  apply py_bind_Done in Hrun as (orig & ? & [Horig ->]%py_lift_Done & Hrun).
  apply of_result_Done in Horig.
  apply py_bind_Done in Hrun as ([] & d2 & Hsave1 & Hrun).
  injection Hsave1 as <-.
  apply py_bind_Done in Hrun as ([] & d3 & Hvid1 & Hrun).
  apply py_bind_Done in Hvid1 as (ogf & ? & [Hogf ->]%py_lift_Done & Hvid1).
  apply of_result_Done in Hogf. injection Hvid1 as <-.
  apply py_bind_Done in Hrun as ([seg plyd] & ? & [Hseg ->]%py_lift_Done & Hrun).
  apply of_result_Done in Hseg.
  apply py_bind_Done in Hrun as ([] & d4 & Hsave2 & Hrun).
  injection Hsave2 as <-.
  apply py_bind_Done in Hrun as ([] & d5 & Hvid2 & Hrun).
  apply py_bind_Done in Hvid2 as (segf & ? & [Hsegf ->]%py_lift_Done & Hvid2).
  apply of_result_Done in Hsegf. injection Hvid2 as <-.
  apply py_bind_Done in Hrun as ([] & d6 & Hsave3 & Hrun).
  injection Hsave3 as <-.
  apply py_bind_Done in Hrun as (angs & ? & [Hangs ->]%py_lift_Done & Hrun).
  apply of_result_Done in Hangs.
  apply py_bind_Done in Hrun as ([] & d7 & Hsave4 & Hrun).
  injection Hsave4 as <-. destruct u. injection Hrun as <-.
  exists {| b_names := names; b_height := h; b_width := w; b_orig := orig;
            b_og_frames := ogf; b_seg := seg; b_ply := plyd;
            b_seg_frames := segf; b_angles := angs |}.
  split;
    [|unfold written, with_video_file, if_written;
      cbn [b_og_frames b_seg_frames];
      by destruct (cv2_VideoWriter (os_path_join dest "og_vid.avi") ogf),
                  (cv2_VideoWriter (os_path_join dest "seg_vid.avi") segf)].
  unfold reads, b_length. cbn [b_names b_height b_width b_orig b_og_frames b_seg
    b_ply b_seg_frames b_angles].
  repeat split; try done. by exists img0, img.
Qed.


Lemma py_lift_run {S A B} (x : A) (f : A -> PY S B) (s : S) :
  (py_lift (Done x) ≫= f) s = f x s.
Proof. reflexivity. Qed.

Lemma py_modify_run {S B} (g : S -> S) (f : unit -> PY S B) (s : S) :
  (py_modify g ≫= f) s = f tt (g s).
Proof. reflexivity. Qed.

Lemma py_lift_then_run {S A B C} (x : A) (g : A -> PY S B) (k : B -> PY S C)
    (s : S) :
  ((py_lift (Done x) ≫= g) ≫= k) s = (g x ≫= k) s.
Proof. reflexivity. Qed.

Lemma build_run (raw : raw_files) (clk : build_clock) (data_path : string)
    (dest_path : option string) (d : dsdisk) (b : built) :
  reads raw data_path b ->
  build raw clk data_path dest_path d
  = (Done tt, written (dest_of data_path dest_path) clk b
                (with_dest_dir (dest_of data_path dest_path) d)).
Proof.
  intros (Hnames & Hjp & Hpi & (img0 & img & Himg0 & Hpng & Hh & Hw)
          & Horig & Hogf & Hseg & Hsegf & Hangs).
  unfold build. fold (dest_of data_path dest_path).
  set (dest := dest_of data_path dest_path).
  unfold b_length in *.
  rewrite (py_bind_run py_get _ d d d) by reflexivity.
  rewrite (py_bind_run _ _ d (with_dest_dir dest d) tt)
    by (unfold with_dest_dir; by destruct (decide (dest ∈ ds_dirs d))).
  unfold np_save, np_save_ply, write_video, json_dump.
  rewrite Hnames. cbn [or_raise of_result]. rewrite py_lift_run.
  rewrite Hjp, Hpi, !bool_decide_eq_true_2 by done.
  cbn [andb py_assert of_result]. rewrite py_lift_run.
  apply getitem_Ok in Himg0, Hh, Hw.
  rewrite Himg0. cbn [of_result]. rewrite py_lift_run, Hpng, py_lift_run.
  rewrite Hh. cbn [of_result]. rewrite py_lift_run.
  rewrite Hw. cbn [of_result]. rewrite py_lift_run.
  rewrite Horig. cbn [of_result]. rewrite py_lift_run, py_modify_run.
  rewrite Hogf. cbn [of_result]. rewrite py_lift_then_run, py_modify_run.
  rewrite Hseg. cbn [of_result]. rewrite py_lift_run, py_modify_run.
  rewrite Hsegf. cbn [of_result]. rewrite py_lift_then_run, py_modify_run.
  rewrite py_modify_run.
  rewrite Hangs. cbn [of_result]. rewrite py_lift_run, py_modify_run.
  unfold written, with_video_file, if_written.
  by destruct (cv2_VideoWriter (os_path_join dest "og_vid.avi") (b_og_frames b)),
              (cv2_VideoWriter (os_path_join dest "seg_vid.avi")
                 (b_seg_frames b)).
Qed.


(** Writing a list of entries twice is writing it once. *)
Lemma foldr_insert_twice `{Countable K} {A} (kvs : list (K * A)) (m : gmap K A) :
  foldr (fun kv m => <[kv.1 := kv.2]> m) (foldr (fun kv m => <[kv.1 := kv.2]> m) m kvs) kvs
  = foldr (fun kv m => <[kv.1 := kv.2]> m) m kvs.
Proof.
  assert (forall m' : gmap K A, foldr (fun kv m => <[kv.1 := kv.2]> m) m' kvs
                     = list_to_map kvs ∪ m') as Hunion.
  { intros m'. induction kvs as [|[k v] kvs IH]; cbn [foldr list_to_map fst snd].
    - by rewrite (left_id_L ∅ (∪)).
    - by rewrite IH, insert_union_l. }
  rewrite !Hunion.
  rewrite (assoc_L (∪) (list_to_map kvs : gmap K A) (list_to_map kvs) m).
  by rewrite (idemp_L (∪) (list_to_map kvs : gmap K A)).
Qed.

Lemma if_written_is_Some {A B} (path k : string) (o : option A) (v : A -> B)
    (m : gmap string B) :
  is_Some (m !! k) -> is_Some (if_written path o v m !! k).
Proof.
  intros Hk. destruct o as [x|]; [|done]. cbn [if_written].
  apply lookup_insert_is_Some'. by right.
Qed.

(** Property X7. After a successful [build] five of the seven files
    [validate] looks for are there, and [ds.json] records the current
    format version: [validate] answers whether the two videos are there.
    [cv2.VideoWriter] writes no file when it cannot open its output, and
    [build] does not ask; when both writers were opened the dataset
    validates. The [frames] of [ds.json] is the number of files of the raw
    directory that end in 'og.png', which is at least one. *)
Theorem build_validates (raw : raw_files) (clk : build_clock)
    (data_path : string) (dest_path : option string) (d d' : dsdisk)
    (l : gmap string (list dir_entry)) :
  build raw clk data_path dest_path d = (Done tt, d') ->
  let dest := dest_of data_path dest_path in
  validate dest (fs_of l d')
  = (Ok (isfile (fs_of l d') (os_path_join dest "seg_vid.avi")
         && isfile (fs_of l d') (os_path_join dest "og_vid.avi")),
     fs_of l d') /\
  (forall k, k ∈ ["ang.npy"; "ds.json"; "ply.npy"; "seg_img.npy"; "og_img.npy"] ->
     isfile (fs_of l d') (os_path_join dest k) = true) /\
  (exists b,
     reads raw data_path b /\
     (is_Some (cv2_VideoWriter (os_path_join dest "og_vid.avi") (b_og_frames b)) ->
      is_Some (cv2_VideoWriter (os_path_join dest "seg_vid.avi")
                 (b_seg_frames b)) ->
      validate dest (fs_of l d') = (Ok true, fs_of l d'))) /\
  exists names info,
    raw_listdir raw !! data_path = Some names /\
    ds_files d' !! os_path_join dest "ds.json" = Some (JsonFile info) /\
    ds_ver info = Some dataset_version /\
    frames info = length (filter (fun x => endswith "og.png" x) names) /\
    0 < frames info.
Proof.
  intros Hrun dest. apply build_Done in Hrun as (b & Hreads & ->).
  fold dest.
  set (d1 := with_dest_dir dest d).
  assert (forall k, k ∈ ["ang.npy"; "ds.json"; "ply.npy"; "seg_img.npy";
                         "og_img.npy"] ->
            isfile (fs_of l (written dest clk b d1)) (os_path_join dest k)
            = true) as Hfive.
  { intros k Hk. unfold isfile, fs_of, written. cbn [files ds_files].
    apply bool_decide_eq_true_2.
    rewrite !elem_of_cons, elem_of_nil in Hk.
    destruct Hk as [->|[->|[->|[->|[->|[]]]]]];
      repeat first [ apply lookup_insert_is_Some'; left; reflexivity
                   | apply lookup_insert_is_Some'; right
                   | apply if_written_is_Some ]. }
  assert (validate dest (fs_of l (written dest clk b d1))
          = (Ok (isfile (fs_of l (written dest clk b d1))
                   (os_path_join dest "seg_vid.avi")
                 && isfile (fs_of l (written dest clk b d1))
                      (os_path_join dest "og_vid.avi")),
             fs_of l (written dest clk b d1))) as Hval.
  { unfold validate.
    rewrite !Hfive by (rewrite !elem_of_cons; auto 10).
    unfold load_json. unfold fs_of at 1, written at 1. cbn [files ds_files].
    rewrite lookup_insert_eq. cbn [ds_ver].
    rewrite decide_False by (intros Hne; by apply Hne).
    reflexivity. }
  split; [exact Hval|]. split; [exact Hfive|]. split.
  - exists b. split; [done|]. intros [og Hog] [seg Hseg]. rewrite Hval.
    do 2 f_equal. unfold isfile, fs_of, written. cbn [files ds_files].
    rewrite Hog, Hseg. cbn [if_written].
    apply andb_true_intro; split; apply bool_decide_eq_true_2;
      repeat first [ apply lookup_insert_is_Some'; left; reflexivity
                   | apply lookup_insert_is_Some'; right ].
  - destruct Hreads as (Hnames & _ & _ & (img0 & _ & Himg0 & _) & _).
    exists (b_names b), {| ds_ver := Some dataset_version; frames := b_length b |}.
    split; [done|]. split; [cbn [written ds_files]; apply lookup_insert_eq|].
    split; [done|]. split; [done|]. cbn [frames]. unfold b_length.
    by apply lookup_lt_Some in Himg0.
Qed.




End DatasetBuildProps.

Section DatasetOpenProps.
Import DatasetPy DatasetBuild.
Context `{Collaborators} `{Paths} `{!PlySegmenter}.

Lemma outcome_bind_Done {A B} (m : outcome A) (f : A -> outcome B) (y : B) :
  (m ≫= f) = Done y -> exists x, m = Done x /\ f x = Done y.
Proof. destruct m as [x|e]; simpl; [eauto | discriminate]. Qed.

Lemma for_each_py_invariant {A S} (P : S -> Prop) (l : list A)
    (body : A -> S -> outcome S) (s s' : S) :
  P s ->
  (forall x t t', P t -> body x t = Done t' -> P t') ->
  for_each_py l body s = Done s' -> P s'.
Proof.
  intros Hs Hbody. revert s Hs. induction l as [|x l IH]; simpl; intros s Hs Hrun.
  - by injection Hrun as <-.
  - apply outcome_bind_Done in Hrun as (t & Ht & Hrun).
    eapply IH; [|exact Hrun]. eauto.
Qed.

Lemma setSkeleton_same_media (p : string) (l : option (list string))
    (name : string) (self self' : Dataset) :
  setSkeleton p l name self = Done self' -> same_media self self'.
Proof.
  unfold setSkeleton. intros Hrun.
  apply outcome_bind_Done in Hrun as (names & _ & Hrun).
  eapply (for_each_py_invariant (same_media self)); [| |exact Hrun].
  - by repeat split.
  - clear. intros file t t' Ht Hbody. cbn beta in Hbody.
    destruct (str_contains name (splitext_root file));
      [|by injection Hbody as <-].
    apply outcome_bind_Done in Hbody as (dp & _ & Hbody). injection Hbody as <-.
    exact Ht.
Qed.

(** The media of a dataset after [load]. *)
Lemma load_media (p : string) (l : option (list string)) (d : dsdisk)
    (sk : option string) (path name : string) (ls lo : bool) (s1 : Dataset) :
  load p l d sk (Dataset_new path name ls lo) = Done s1 ->
  ds_path s1 = path /\ load_seg s1 = ls /\ load_og s1 = lo /\
  (if lo then exists a, og_img s1 = Some a else og_img s1 = None) /\
  og_vid s1 = (if lo then Some (os_path_join path "og_vid.avi") else None) /\
  (if ls then exists a, seg_img s1 = Some a else seg_img s1 = None) /\
  seg_vid s1 = (if ls then Some (os_path_join path "seg_vid.avi") else None) /\
  og_vid_path s1 = None /\ seg_vid_path s1 = None /\
  resolution_og s1 = None /\ resolution_seg s1 = None /\ resolution s1 = None.
Proof.
  unfold load. intros Hrun.
  apply outcome_bind_Done in Hrun as (info & _ & Hrun).
  apply outcome_bind_Done in Hrun as (t1 & Ht1 & Hrun).
  apply outcome_bind_Done in Hrun as (t2 & Ht2 & Hrun).
  apply outcome_bind_Done in Hrun as (ang & _ & Hrun).
  apply outcome_bind_Done in Hrun as (pl & _ & Hrun).
  assert (exists t3, same_media t3 s1 /\
            ds_path t3 = ds_path t2 /\ load_seg t3 = load_seg t2 /\
            load_og t3 = load_og t2 /\ og_img t3 = og_img t2 /\
            og_vid t3 = og_vid t2 /\ seg_img t3 = seg_img t2 /\
            seg_vid t3 = seg_vid t2 /\ og_vid_path t3 = og_vid_path t2 /\
            seg_vid_path t3 = seg_vid_path t2 /\
            resolution_og t3 = resolution_og t2 /\
            resolution_seg t3 = resolution_seg t2 /\
            resolution t3 = resolution t2)
    as (t3 & Hsame & Hfields).
  { eexists. split.
    - destruct sk as [nm|].
      + eapply setSkeleton_same_media. exact Hrun.
      + injection Hrun as <-. by repeat split.
    - by repeat split. }
  clear Hrun.
  destruct Hsame as (-> & -> & -> & _ & -> & -> & -> & -> & _ & -> & -> & -> & ->
                     & -> & _).
  destruct Hfields as (-> & -> & -> & -> & -> & -> & -> & -> & -> & -> & -> & ->).
  cbn [load_og assign_ds_length Dataset_new] in Ht1.
  destruct lo.
  - apply outcome_bind_Done in Ht1 as (a & _ & Ht1). injection Ht1 as <-.
    cbn [load_seg assign_og_vid assign_og_img assign_ds_length Dataset_new] in Ht2.
    destruct ls.
    + apply outcome_bind_Done in Ht2 as (a' & _ & Ht2). injection Ht2 as <-.
      cbn. by eauto 15.
    + injection Ht2 as <-. cbn. by eauto 15.
  - injection Ht1 as <-.
    cbn [load_seg assign_ds_length Dataset_new] in Ht2.
    destruct ls.
    + apply outcome_bind_Done in Ht2 as (a' & _ & Ht2). injection Ht2 as <-.
      cbn. by eauto 15.
    + injection Ht2 as <-. cbn. by eauto 15.
Qed.


Lemma media_og_Done (s t : Dataset) :
  media_og s = Done t ->
  keeps s t /\ seg_vid_path t = seg_vid_path s /\
  if load_og s
  then exists a, og_img s = Some a /\ resolution t = Some (shape_1_3 a) /\
         og_vid_path t = Some (os_path_join (ds_path s) "og_vid.avi")
  else resolution t = resolution s /\ og_vid_path t = og_vid_path s.
Proof.
  unfold media_og. destruct (load_og s).
  - intros Hrun. apply outcome_bind_Done in Hrun as (a & Ha & Hrun).
    apply outcome_bind_Done in Hrun as (r & Hr & Hrun). injection Hrun as <-.
    cbn [og_img assign_og_vid_path] in Ha. injection Hr as <-.
    destruct (og_img s) as [a'|]; [|discriminate]. injection Ha as ->.
    split; [by repeat split|]. split; [done|]. by exists a.
  - intros [= <-]. by repeat split.
Qed.

Lemma media_seg_Done (s t : Dataset) :
  media_seg s = Done t ->
  keeps s t /\ og_vid_path t = og_vid_path s /\
  if load_seg s
  then exists a, seg_img s = Some a /\ resolution t = Some (shape_1_3 a) /\
         seg_vid_path t = Some (os_path_join (ds_path s) "seg_vid.avi")
  else resolution t = resolution s /\ seg_vid_path t = seg_vid_path s.
Proof.
  unfold media_seg. destruct (load_seg s).
  - intros Hrun. apply outcome_bind_Done in Hrun as (a & Ha & Hrun).
    apply outcome_bind_Done in Hrun as (r & Hr & Hrun). injection Hrun as <-.
    cbn [seg_img assign_seg_vid_path] in Ha. injection Hr as <-.
    destruct (seg_img s) as [a'|]; [|discriminate]. injection Ha as ->.
    split; [by repeat split|]. split; [done|]. by exists a.
  - intros [= <-]. by repeat split.
Qed.

Lemma media_primary_Done (primary : string) (s t : Dataset) :
  media_primary primary s = Done t ->
  keeps s t /\ resolution t = resolution s /\
  if (if load_og s && negb (load_seg s) then true
      else if load_seg s && negb (load_og s) then false
      else bool_decide (primary = "og"))
  then img t = og_img s /\ vid t = og_vid s /\ vid_path t = og_vid_path s /\
       is_Some (og_img s)
  else img t = seg_img s /\ vid t = seg_vid s /\ vid_path t = seg_vid_path s /\
       is_Some (seg_img s).
Proof.
  unfold media_primary.
  assert (forall primary',
    (if decide (primary' = "og")
     then a ← attr "og_img" (og_img s);
          let self := assign_img a s in
          v ← attr "og_vid" (og_vid self);
          let self := assign_vid v self in
          p ← attr "og_vid_path" (og_vid_path self);
          Done (assign_vid_path p self)
     else a ← attr "seg_img" (seg_img s);
          let self := assign_img a s in
          v ← attr "seg_vid" (seg_vid self);
          let self := assign_vid v self in
          p ← attr "seg_vid_path" (seg_vid_path self);
          Done (assign_vid_path p self)) = Done t ->
    keeps s t /\ resolution t = resolution s /\
    if bool_decide (primary' = "og")
    then img t = og_img s /\ vid t = og_vid s /\ vid_path t = og_vid_path s /\
         is_Some (og_img s)
    else img t = seg_img s /\ vid t = seg_vid s /\ vid_path t = seg_vid_path s /\
         is_Some (seg_img s)) as Hsel.
  { intros primary' Hrun. destruct (decide (primary' = "og")) as [Hp|Hp].
    - rewrite bool_decide_eq_true_2 by exact Hp.
      apply outcome_bind_Done in Hrun as (a & Ha & Hrun).
      apply outcome_bind_Done in Hrun as (v & Hv & Hrun).
      apply outcome_bind_Done in Hrun as (p & Hp' & Hrun). injection Hrun as <-.
      cbn [og_vid og_vid_path assign_img assign_vid] in Hv, Hp'.
      destruct (og_img s) as [a'|]; [|discriminate]. injection Ha as ->.
      destruct (og_vid s) as [v'|]; [|discriminate]. injection Hv as ->.
      destruct (og_vid_path s) as [p'|]; [|discriminate]. injection Hp' as ->.
      split; [by repeat split|]. split; [done|]. by repeat split.
    - rewrite bool_decide_eq_false_2 by exact Hp.
      apply outcome_bind_Done in Hrun as (a & Ha & Hrun).
      apply outcome_bind_Done in Hrun as (v & Hv & Hrun).
      apply outcome_bind_Done in Hrun as (p & Hp' & Hrun). injection Hrun as <-.
      cbn [seg_vid seg_vid_path assign_img assign_vid] in Hv, Hp'.
      destruct (seg_img s) as [a'|]; [|discriminate]. injection Ha as ->.
      destruct (seg_vid s) as [v'|]; [|discriminate]. injection Hv as ->.
      destruct (seg_vid_path s) as [p'|]; [|discriminate]. injection Hp' as ->.
      split; [by repeat split|]. split; [done|]. by repeat split. }
  destruct (load_og s), (load_seg s); cbn [andb negb orb]; intros Hrun;
    apply Hsel in Hrun; exact Hrun.
Qed.

(** Property X10. The media of an opened dataset. The constructor succeeds
    only when [load_seg] or [load_og] is set. The resolution is that of the
    segmented images whenever they are loaded, also when the primary media
    are the original images. The primary media are the original images
    when these are loaded and either the segmented ones are not or
    [primary] is 'og'; otherwise they are the segmented images, whatever
    [primary] is. *)
Theorem dataset_open_media (p : string) (l : option (list string)) (d : dsdisk)
    (sk : option string) (primary path name : string) (ls lo : bool)
    (self : Dataset) :
  Dataset_open p l d sk primary (Dataset_new path name ls lo) = Done self ->
  (ls = true \/ lo = true) /\
  (if ls
   then exists a, seg_img self = Some a /\ resolution self = Some (shape_1_3 a)
   else exists a, og_img self = Some a /\ resolution self = Some (shape_1_3 a)) /\
  (if lo && (negb ls || bool_decide (primary = "og"))
   then img self = og_img self /\ vid self = og_vid self /\
        vid_path self = Some (os_path_join path "og_vid.avi")
   else img self = seg_img self /\ vid self = seg_vid self /\
        vid_path self = Some (os_path_join path "seg_vid.avi")) /\
  is_Some (img self).
Proof.
  unfold Dataset_open, Dataset_media. intros Hrun.
  apply outcome_bind_Done in Hrun as (s1 & Hload & Hrun).
  apply outcome_bind_Done in Hrun as (s2 & Hog & Hrun).
  apply outcome_bind_Done in Hrun as (s3 & Hseg & Hrun).
  apply load_media in Hload
    as (Hpath & Hls & Hlo & Li & Lv & Si & Sv & Lop & Lsp & _ & _ & Lr).
  apply media_og_Done in Hog
    as ((P2 & S2 & O2 & Oi2 & Ov2 & Si2 & Sv2 & _) & Sp2 & Hog).
  apply media_seg_Done in Hseg
    as ((P3 & S3 & O3 & Oi3 & Ov3 & Si3 & Sv3 & _) & Op3 & Hseg).
  apply media_primary_Done in Hrun
    as ((P4 & S4 & O4 & Oi4 & Ov4 & Si4 & Sv4 & _) & R4 & Hrun).
  rewrite S2, Hls in Hseg. rewrite Hlo in Hog.
  rewrite S3, S2, O3, O2, Hls, Hlo in Hrun.
  rewrite Oi4, Oi3, Oi2, Ov4, Ov3, Ov2, Si4, Si3, Si2, Sv4, Sv3, Sv2, R4.
  rewrite Oi3, Oi2, Ov3, Ov2, Si3, Si2, Sv3, Sv2 in Hrun.
  destruct lo, ls; cbn [andb negb orb] in Hrun |- *.
  - destruct Hog as (a & Ha & Hr2 & Hp2). destruct Hseg as (b & Hb & Hr3 & Hp3).
    rewrite Si2 in Hb. rewrite P2, Hpath in Hp3. rewrite Hpath in Hp2.
    rewrite <- Op3 in Hp2.
    split; [by left|]. split; [by exists b|].
    destruct (bool_decide (primary = "og"));
      destruct Hrun as (-> & -> & -> & Hsome); by repeat split.
  - destruct Hog as (a & Ha & Hr2 & Hp2). destruct Hseg as [Hr3 Hp3].
    rewrite Hpath in Hp2. rewrite <- Op3 in Hp2. rewrite <- Hr3 in Hr2.
    split; [by right|]. split; [by exists a|].
    destruct Hrun as (-> & -> & -> & Hsome). by repeat split.
  - destruct Hog as [Hr2 Hp2]. destruct Hseg as (b & Hb & Hr3 & Hp3).
    rewrite Si2 in Hb. rewrite P2, Hpath in Hp3.
    split; [by left|]. split; [by exists b|].
    destruct Hrun as (-> & -> & -> & Hsome). by repeat split.
  - exfalso. destruct (bool_decide (primary = "og"));
      destruct Hrun as (_ & _ & _ & [x Hx]); congruence.
Qed.

End DatasetOpenProps.

Section DatasetLoadProps.
Import DatasetPy DatasetBuild.
Context `{Collaborators} `{Paths} `{!PlySegmenter}.

Lemma from_option_last_cons {A B} (f : A -> B) (b : B) (x : A) (l : list A) :
  from_option f (f x) (last l) = from_option f b (last (x :: l)).
Proof.
  destruct l as [|y l]; [reflexivity|].
  change (last (x :: y :: l)) with (last (y :: l)).
  destruct (last (y :: l)) eqn:E; [reflexivity|].
  by apply last_None in E.
Qed.

(** The body of the loop of [setSkeleton]. *)
Lemma setSkeleton_loop (p name : string) (csvs : list string) (self : Dataset)
    (dp : string) :
  deepposeds_path self = Some dp ->
  let matches :=
    filter (fun x => str_contains name (splitext_root x)) csvs in
  exists self',
    for_each_py csvs
      (fun file self =>
         if str_contains name (splitext_root file) then
           let self := assign_skeleton (splitext_root file) self in
           let self := assign_skeleton_path (os_path_join p file) self in
           dp ← attr "deepposeds_path" (deepposeds_path self);
           Done (assign_deepposeds_path
                   (str_replace ".h5" ("_" +:+ splitext_root file +:+ ".h5") dp)
                   self)
         else Done self) self = Done self' /\
    same_media self self' /\
    skeleton self'
    = from_option (fun f => Some (splitext_root f)) (skeleton self)
        (last matches) /\
    skeleton_path self'
    = from_option (fun f => Some (os_path_join p f)) (skeleton_path self)
        (last matches) /\
    deepposeds_path self'
    = Some (foldl (fun dp f =>
                     str_replace ".h5" ("_" +:+ splitext_root f +:+ ".h5") dp)
              dp matches).
Proof.
  revert self dp. induction csvs as [|x csvs IH]; intros self dp Hdp matches.
  - exists self. split; [reflexivity|]. split; [by repeat split|].
    by repeat split.
  - cbn [for_each_py]. unfold matches. rewrite filter_cons.
    destruct (str_contains name (splitext_root x)) eqn:Hx.
    + rewrite decide_True by done.
      cbn [deepposeds_path assign_skeleton assign_skeleton_path].
      rewrite Hdp. cbn [attr mbind outcome_bind].
      set (dp1 := str_replace ".h5" ("_" +:+ splitext_root x +:+ ".h5") dp).
      set (s1 := assign_deepposeds_path dp1
                   (assign_skeleton_path (os_path_join p x)
                      (assign_skeleton (splitext_root x) self))).
      destruct (IH s1 dp1 eq_refl)
        as (self' & Hrun & Hsame & Hsk & Hskp & Hdps).
      exists self'. split; [exact Hrun|].
      split.
      { destruct Hsame as (E1 & E2 & E3 & E4 & E5 & E6 & E7 & E8 & E9 & E10
                           & E11 & E12 & E13 & E14 & E15 & E16 & E17 & E18 & E19).
        by repeat split. }
      split; [|split; [|exact Hdps]].
      * rewrite Hsk.
        exact (from_option_last_cons (fun f => Some (splitext_root f)) _ x _).
      * rewrite Hskp.
        exact (from_option_last_cons (fun f => Some (os_path_join p f)) _ x _).
    + rewrite decide_False by (intros []). cbn [mbind outcome_bind].
      exact (IH self dp Hdp).
Qed.

(** Property X12. [setSkeleton] has no [break]: among the [.csv] files of the
    skeleton directory whose root contains the given name, the skeleton and
    its path are those of the last one in the order of the listing, while
    the path of the DeepPoseKit dataset gets the suffix of every one of
    them, in that order. With no such file the three attributes are as
    before. Nothing else of the dataset changes. *)
Theorem setSkeleton_last_match (p name : string) (names : list string)
    (self : Dataset) (dp : string) :
  deepposeds_path self = Some dp ->
  let matches :=
    filter (fun x => str_contains name (splitext_root x))
      (filter (fun x => endswith ".csv" x) names) in
  exists self',
    setSkeleton p (Some names) name self = Done self' /\
    same_media self self' /\
    skeleton self'
    = from_option (fun f => Some (splitext_root f)) (skeleton self)
        (last matches) /\
    skeleton_path self'
    = from_option (fun f => Some (os_path_join p f)) (skeleton_path self)
        (last matches) /\
    deepposeds_path self'
    = Some (foldl (fun dp f =>
                     str_replace ".h5" ("_" +:+ splitext_root f +:+ ".h5") dp)
              dp matches).
Proof.
  intros Hdp matches. unfold setSkeleton.
  cbn [or_raise of_result mbind outcome_bind].
  exact (setSkeleton_loop p name _ self dp Hdp).
Qed.

(** [load] up to the skeleton: the dataset [s0] it has read, then
    [setSkeleton] when a name is given. *)
Lemma load_inv (p : string) (l : option (list string)) (d : dsdisk)
    (sk : option string) (path name : string) (ls lo : bool) (s1 : Dataset) :
  load p l d sk (Dataset_new path name ls lo) = Done s1 ->
  exists s0 info ang pl,
    match sk with
    | Some nm => setSkeleton p l nm s0 = Done s1
    | None => s1 = s0
    end /\
    ds_files d !! os_path_join path "ds.json" = Some (JsonFile info) /\
    ds_npy d !! os_path_join path "ang.npy" = Some ang /\
    ds_ply d !! os_path_join path "ply.npy" = Some pl /\
    ds_path s0 = path /\ load_seg s0 = ls /\ load_og s0 = lo /\
    ds_length s0 = Some (frames info) /\ angles s0 = Some ang /\
    ply s0 = Some pl /\
    og_img s0 = (if lo then ds_npy d !! os_path_join path "og_img.npy" else None) /\
    seg_img s0
    = (if ls then ds_npy d !! os_path_join path "seg_img.npy" else None) /\
    deepposeds_path s0 = Some (os_path_join path "deeppose.h5") /\
    skeleton s0 = None /\ skeleton_path s0 = None.
Proof.
  unfold load. intros Hrun.
  apply outcome_bind_Done in Hrun as (info & Hinfo & Hrun).
  apply outcome_bind_Done in Hrun as (t1 & Ht1 & Hrun).
  apply outcome_bind_Done in Hrun as (t2 & Ht2 & Hrun).
  apply outcome_bind_Done in Hrun as (ang & Hang & Hrun).
  apply outcome_bind_Done in Hrun as (pl & Hpl & Hrun).
  cbn [ds_path assign_angles] in Hpl.
  assert (ds_files d !! os_path_join path "ds.json" = Some (JsonFile info))
    as Hjson.
  { unfold load_json, fs_of in Hinfo. cbn [files ds_path Dataset_new] in Hinfo.
    destruct (ds_files d !! os_path_join path "ds.json") as [[i|]|];
      [|discriminate..]. by injection Hinfo as ->. }
  assert (forall q, np_load_npy d q = Done ang -> ds_npy d !! q = Some ang)
    as Hnpy.
  { intros q. unfold np_load_npy. destruct (ds_npy d !! q); [congruence|].
    by destruct (ds_files d !! q). }
  apply Hnpy in Hang. clear Hnpy.
  assert (ds_ply d !! os_path_join (ds_path t2) "ply.npy" = Some pl) as Hply.
  { revert Hpl. unfold np_load_ply.
    destruct (ds_ply d !! os_path_join (ds_path t2) "ply.npy"); [congruence|].
    by destruct (ds_files d !! os_path_join (ds_path t2) "ply.npy"). }
  clear Hpl.
  assert (ds_path t1 = path /\ load_seg t1 = ls /\ load_og t1 = lo /\
          ds_length t1 = Some (frames info) /\
          og_img t1
          = (if lo then ds_npy d !! os_path_join path "og_img.npy" else None) /\
          seg_img t1 = None /\ angles t1 = None /\ ply t1 = None /\
          deepposeds_path t1 = None /\ skeleton t1 = None /\
          skeleton_path t1 = None) as (P1 & S1 & O1 & L1 & Oi1 & Si1 & A1 & Y1 & D1
                                       & K1 & Kp1).
  { cbn [load_og assign_ds_length Dataset_new] in Ht1. destruct lo.
    - apply outcome_bind_Done in Ht1 as (a & Ha & Ht1). injection Ht1 as <-.
      cbn [ds_path assign_ds_length Dataset_new] in Ha.
      assert (ds_npy d !! os_path_join path "og_img.npy" = Some a) as ->.
      { revert Ha. unfold np_load_npy.
        destruct (ds_npy d !! os_path_join path "og_img.npy"); [congruence|].
        by destruct (ds_files d !! os_path_join path "og_img.npy"). }
      by repeat split.
    - injection Ht1 as <-. by repeat split. }
  assert (ds_path t2 = path /\ load_seg t2 = ls /\ load_og t2 = lo /\
          ds_length t2 = Some (frames info) /\
          og_img t2
          = (if lo then ds_npy d !! os_path_join path "og_img.npy" else None) /\
          seg_img t2
          = (if ls then ds_npy d !! os_path_join path "seg_img.npy" else None) /\
          angles t2 = None /\ ply t2 = None /\
          deepposeds_path t2 = None /\ skeleton t2 = None /\
          skeleton_path t2 = None) as (P2 & S2 & O2 & L2 & Oi2 & Si2 & A2 & Y2 & D2
                                       & K2 & Kp2).
  { rewrite S1 in Ht2. destruct ls.
    - apply outcome_bind_Done in Ht2 as (a & Ha & Ht2). injection Ht2 as <-.
      rewrite P1 in Ha.
      assert (ds_npy d !! os_path_join path "seg_img.npy" = Some a) as ->.
      { revert Ha. unfold np_load_npy.
        destruct (ds_npy d !! os_path_join path "seg_img.npy"); [congruence|].
        by destruct (ds_files d !! os_path_join path "seg_img.npy"). }
      by repeat split.
    - injection Ht2 as <-. by repeat split. }
  rewrite P2 in Hang, Hply. cbn [ds_path assign_ply assign_angles] in Hrun.
  rewrite P2 in Hrun.
  eexists _, info, ang, pl.
  split; [destruct sk; [exact Hrun|by injection Hrun as <-]|].
  cbn [ds_path load_seg load_og ds_length angles ply og_img seg_img
       deepposeds_path skeleton skeleton_path
       assign_deepposeds_path assign_ply assign_angles].
  by repeat split.
Qed.

Lemma np_load_npy_Some (d : dsdisk) (q : string) (a : npy) :
  ds_npy d !! q = Some a -> np_load_npy d q = Done a.
Proof. unfold np_load_npy. by intros ->. Qed.

Lemma np_load_ply_Some (d : dsdisk) (q : string) (a : list ndarray) :
  ds_ply d !! q = Some a -> np_load_ply d q = Done a.
Proof. unfold np_load_ply. by intros ->. Qed.

Lemma load_run (p : string) (l : option (list string)) (d : dsdisk)
    (path name : string) (ls lo : bool) (info : ds_info) (og seg ang : npy)
    (pl : list ndarray) :
  ds_files d !! os_path_join path "ds.json" = Some (JsonFile info) ->
  (lo = true -> ds_npy d !! os_path_join path "og_img.npy" = Some og) ->
  (ls = true -> ds_npy d !! os_path_join path "seg_img.npy" = Some seg) ->
  ds_npy d !! os_path_join path "ang.npy" = Some ang ->
  ds_ply d !! os_path_join path "ply.npy" = Some pl ->
  exists s1, load p l d None (Dataset_new path name ls lo) = Done s1.
Proof.
  intros Hjson Hog Hseg Hang%np_load_npy_Some Hply%np_load_ply_Some.
  unfold load, load_json, fs_of.
  cbn [files ds_path Dataset_new]. rewrite Hjson.
  cbn [of_result mbind outcome_bind].
  remember (assign_ds_length (frames info) (Dataset_new path name ls lo))
    as s0 eqn:E0.
  assert (ds_path s0 = path /\ load_og s0 = lo /\ load_seg s0 = ls)
    as (P0 & O0 & L0) by (by rewrite E0).
  clear E0. cbv zeta. rewrite O0.
  assert (exists t1,
            (if lo
             then a ← np_load_npy d (os_path_join (ds_path s0) "og_img.npy");
                  Done (assign_og_vid
                          (os_path_join (ds_path (assign_og_img a s0))
                             "og_vid.avi") (assign_og_img a s0))
             else Done s0) = Done t1 /\
            ds_path t1 = path /\ load_seg t1 = ls) as (t1 & -> & P1 & L1).
  { destruct lo; [|by eauto]. rewrite P0, (np_load_npy_Some _ _ _ (Hog eq_refl)).
    eexists. split; [reflexivity|]. by split. }
  cbn [mbind outcome_bind]. rewrite L1.
  assert (exists t2,
            (if ls
             then a ← np_load_npy d (os_path_join (ds_path t1) "seg_img.npy");
                  Done (assign_seg_vid
                          (os_path_join (ds_path (assign_seg_img a t1))
                             "seg_vid.avi") (assign_seg_img a t1))
             else Done t1) = Done t2 /\
            ds_path t2 = path) as (t2 & -> & P2).
  { destruct ls; [|by eauto]. rewrite P1, (np_load_npy_Some _ _ _ (Hseg eq_refl)).
    eexists. split; [reflexivity|]. done. }
  cbn [mbind outcome_bind]. rewrite P2, Hang.
  cbn [mbind outcome_bind ds_path assign_angles]. rewrite P2, Hply.
  by eexists.
Qed.

Lemma media_og_run (s : Dataset) :
  (load_og s = true -> is_Some (og_img s)) -> exists t, media_og s = Done t.
Proof.
  unfold media_og. destruct (load_og s); [|by eauto].
  intros Hog. destruct (Hog eq_refl) as [a Ha].
  cbn [og_img assign_og_vid_path]. rewrite Ha. by eexists.
Qed.

Lemma media_seg_run (s : Dataset) :
  (load_seg s = true -> is_Some (seg_img s)) -> exists t, media_seg s = Done t.
Proof.
  unfold media_seg. destruct (load_seg s); [|by eauto].
  intros Hseg. destruct (Hseg eq_refl) as [a Ha].
  cbn [seg_img assign_seg_vid_path]. rewrite Ha. by eexists.
Qed.

Lemma media_primary_run (primary : string) (s : Dataset) :
  (load_og s = true ->
   is_Some (og_img s) /\ is_Some (og_vid s) /\ is_Some (og_vid_path s)) ->
  (load_seg s = true ->
   is_Some (seg_img s) /\ is_Some (seg_vid s) /\ is_Some (seg_vid_path s)) ->
  load_seg s = true \/ load_og s = true ->
  exists t, media_primary primary s = Done t.
Proof.
  intros Hog Hseg Hflag. unfold media_primary.
  assert (forall primary',
            (primary' = "og" -> load_og s = true) ->
            (primary' <> "og" -> load_seg s = true) ->
            exists t,
              (if decide (primary' = "og")
               then a ← attr "og_img" (og_img s);
                    let self := assign_img a s in
                    v ← attr "og_vid" (og_vid self);
                    let self := assign_vid v self in
                    p ← attr "og_vid_path" (og_vid_path self);
                    Done (assign_vid_path p self)
               else a ← attr "seg_img" (seg_img s);
                    let self := assign_img a s in
                    v ← attr "seg_vid" (seg_vid self);
                    let self := assign_vid v self in
                    p ← attr "seg_vid_path" (seg_vid_path self);
                    Done (assign_vid_path p self)) = Done t) as Hsel.
  { intros primary' R1 R2. destruct (decide (primary' = "og")) as [E|E].
    - destruct (Hog (R1 E)) as ([a Ha] & [v Hv] & [q Hq]).
      rewrite Ha. cbn [attr mbind outcome_bind og_vid assign_img].
      rewrite Hv. cbn [attr mbind outcome_bind og_vid_path assign_vid assign_img].
      rewrite Hq. by eexists.
    - destruct (Hseg (R2 E)) as ([a Ha] & [v Hv] & [q Hq]).
      rewrite Ha. cbn [attr mbind outcome_bind seg_vid assign_img].
      rewrite Hv.
      cbn [attr mbind outcome_bind seg_vid_path assign_vid assign_img].
      rewrite Hq. by eexists. }
  destruct (load_og s), (load_seg s); cbn [andb negb]; apply Hsel;
    try done; by destruct Hflag.
Qed.

(** Property X11. A dataset that [build] has written can be opened: with
    [load_seg] or [load_og] set and no skeleton, [Dataset.__init__] succeeds
    on the destination of [build]. The length of the dataset is the number
    of files of the raw directory that end in 'og.png'; the angles are an
    array of that many rows of six; the primary images have that many
    frames; when the segmented images are loaded the resolution is that of
    the segmenter. *)
Theorem build_then_open (raw : raw_files) (clk : build_clock)
    (data_path : string) (dest_path : option string) (d d' : dsdisk)
    (p : string) (l : option (list string)) (primary name : string)
    (ls lo : bool) :
  let dest := dest_of data_path dest_path in
  os_path_join dest "og_img.npy" <> os_path_join dest "seg_img.npy" ->
  os_path_join dest "og_img.npy" <> os_path_join dest "ang.npy" ->
  os_path_join dest "seg_img.npy" <> os_path_join dest "ang.npy" ->
  build raw clk data_path dest_path d = (Done tt, d') ->
  ls = true \/ lo = true ->
  exists self names,
    raw_listdir raw !! data_path = Some names /\
    Dataset_open p l d' None primary (Dataset_new dest name ls lo) = Done self /\
    Dataset_len self = length (filter (fun x => endswith "og.png" x) names) /\
    (exists a, angles self = Some a /\ npy_shape a = [Dataset_len self; 6]) /\
    (exists a, img self = Some a /\ npy_shape a !! 0 = Some (Dataset_len self)) /\
    (ls = true -> resolution self = Some [segmenter_height; segmenter_width]).
Proof.
  intros dest N1 N2 N3 Hrun Hflag.
  apply build_Done in Hrun as (b & Hreads & ->). fold dest.
  destruct Hreads as (Hnames & _).
  set (d0 := with_dest_dir dest d).
  assert (ds_files (written dest clk b d0) !! os_path_join dest "ds.json"
          = Some (JsonFile {| ds_ver := Some dataset_version;
                              frames := b_length b |})) as Hjson
    by (cbn [written ds_files]; apply lookup_insert_eq).
  assert (ds_npy (written dest clk b d0) !! os_path_join dest "ang.npy"
          = Some {| npy_shape := [b_length b; 6]; npy_rows := b_angles b |})
    as Hang by (cbn [written ds_npy]; apply lookup_insert_eq).
  assert (ds_npy (written dest clk b d0) !! os_path_join dest "seg_img.npy"
          = Some {| npy_shape :=
                      [b_length b; segmenter_height; segmenter_width; 3];
                    npy_rows := b_seg b |}) as Hseg.
  { cbn [written ds_npy]. rewrite lookup_insert_ne by (intros E; by apply N3).
    apply lookup_insert_eq. }
  assert (ds_npy (written dest clk b d0) !! os_path_join dest "og_img.npy"
          = Some {| npy_shape := [b_length b; b_height b; b_width b; 3];
                    npy_rows := b_orig b |}) as Hog.
  { cbn [written ds_npy]. rewrite lookup_insert_ne by (intros E; by apply N2).
    rewrite lookup_insert_ne by (intros E; by apply N1).
    apply lookup_insert_eq. }
  assert (ds_ply (written dest clk b d0) !! os_path_join dest "ply.npy"
          = Some (b_ply b)) as Hply
    by (cbn [written ds_ply]; apply lookup_insert_eq).
  generalize dependent (written dest clk b d0). intros d1 Hjson Hang Hseg Hog Hply.
  destruct (load_run p l d1 dest name ls lo _ _ _ _ _ Hjson (fun _ => Hog)
              (fun _ => Hseg) Hang Hply) as [s1 Hload].
  pose proof (load_media _ _ _ _ _ _ _ _ _ Hload)
    as (_ & _ & _ & _ & Ov1 & _ & Sv1 & _).
  pose proof (load_inv _ _ _ _ _ _ _ _ _ Hload)
    as (s0 & info & ang & pl & <- & Hj & Ha & _ & P1 & L1 & O1 & Len1 & A1 & _
        & Oi1 & Si1 & _).
  rewrite Hjson in Hj. injection Hj as <-. rewrite Hang in Ha. injection Ha as <-.
  rewrite Hog in Oi1. rewrite Hseg in Si1. cbn [frames] in Len1.
  destruct (media_og_run s1) as [s2 Hs2].
  { rewrite O1, Oi1. intros ->. by eexists. }
  pose proof (media_og_Done _ _ Hs2)
    as ((P2 & L2 & O2 & Oi2 & Ov2 & Si2 & Sv2 & Len2 & A2 & _) & Sp2 & Hog2).
  destruct (media_seg_run s2) as [s3 Hs3].
  { rewrite L2, L1, Si2, Si1. intros ->. by eexists. }
  pose proof (media_seg_Done _ _ Hs3)
    as ((P3 & L3 & O3 & Oi3 & Ov3 & Si3 & Sv3 & Len3 & A3 & _) & Op3 & Hseg3).
  rewrite O1 in Hog2. rewrite L2, L1, Si2, Si1 in Hseg3.
  destruct (media_primary_run primary s3) as [self Hself].
  { rewrite O3, O2, O1, Oi3, Oi2, Oi1, Ov3, Ov2, Ov1, Op3. intros ->.
    destruct Hog2 as (a & _ & _ & ->). by repeat split. }
  { rewrite L3, L2, L1, Si3, Si2, Si1, Sv3, Sv2, Sv1. intros ->.
    destruct Hseg3 as (a & _ & _ & ->). by repeat split. }
  { rewrite L3, L2, L1, O3, O2, O1. exact Hflag. }
  pose proof (media_primary_Done _ _ _ Hself)
    as ((P4 & L4 & O4 & Oi4 & Ov4 & Si4 & Sv4 & Len4 & A4 & _) & R4 & Hprim).
  rewrite L3, L2, L1, O3, O2, O1, Oi3, Oi2, Oi1, Si3, Si2, Si1 in Hprim.
  exists self, (b_names b). split; [exact Hnames|].
  split.
  { unfold Dataset_open, Dataset_media. rewrite Hload.
    cbn [mbind outcome_bind]. rewrite Hs2. cbn [mbind outcome_bind].
    rewrite Hs3. exact Hself. }
  assert (Dataset_len self = b_length b) as Hlen
    by (unfold Dataset_len; by rewrite Len4, Len3, Len2, Len1).
  rewrite Hlen. split; [reflexivity|].
  split; [eexists; split; [by rewrite A4, A3, A2, A1|reflexivity]|].
  split.
  - destruct lo, ls; cbn [andb negb] in Hprim;
      repeat match type of Hprim with
             | context [bool_decide ?P] => destruct (bool_decide P)
             end;
      destruct Hprim as (-> & _); try (eexists; split; reflexivity);
      by destruct Hflag.
  - intros ->. rewrite R4. by destruct Hseg3 as (a & [= <-] & -> & _).
Qed.

(** Property X13. A dataset opened with the segmented images and without a
    skeleton, or with a skeleton name that no [.csv] file of the skeleton
    directory contains, has no [skeleton_path]: [makeDeepPoseDS] raises
    [AttributeError] whenever it is to call [initialize_dataset], that is
    when forced or when the file [deeppose.h5] of the dataset does not
    exist, and leaves the disk as it is. *)
Theorem makeDeepPoseDS_without_skeleton
    (initialize_dataset : npy -> string -> string -> bool -> PY dsdisk unit)
    (p : string) (l : option (list string)) (d d0 : dsdisk)
    (sk : option string) (primary path name : string) (lo force : bool)
    (self : Dataset) :
  (forall nm names,
     sk = Some nm -> l = Some names ->
     filter (fun x => str_contains nm (splitext_root x))
       (filter (fun x => endswith ".csv" x) names) = []) ->
  Dataset_open p l d sk primary (Dataset_new path name true lo) = Done self ->
  force = true \/ ds_files d0 !! os_path_join path "deeppose.h5" = None ->
  makeDeepPoseDS initialize_dataset force self d0
  = (Raise (AttributeError "'Dataset' object has no attribute 'skeleton_path'"),
     d0).
Proof.
  intros Hnone Hopen Hcall. unfold Dataset_open, Dataset_media in Hopen.
  apply outcome_bind_Done in Hopen as (s1 & Hload & Hopen).
  apply outcome_bind_Done in Hopen as (s2 & Hog & Hopen).
  apply outcome_bind_Done in Hopen as (s3 & Hseg & Hopen).
  pose proof (load_media _ _ _ _ _ _ _ _ _ Hload)
    as (_ & _ & _ & _ & _ & [a Si1] & _).
  apply load_inv in Hload
    as (s0 & _ & _ & _ & Hsk & _ & _ & _ & _ & _ & _ & _ & _ & _ & _ & _ & D0 & _
        & K0).
  assert (deepposeds_path s1 = Some (os_path_join path "deeppose.h5") /\
          skeleton_path s1 = None) as [D1 K1].
  { destruct sk as [nm|]; [|by subst s1].
    destruct l as [names|]; [|discriminate Hsk].
    destruct (setSkeleton_loop p nm (filter (fun x => endswith ".csv" x) names)
                s0 _ D0) as (s1' & Hrun & _ & _ & Hkp & Hdp).
    pose proof (eq_trans (eq_sym Hrun) Hsk) as E. injection E as ->.
    rewrite (Hnone nm names eq_refl eq_refl) in Hkp, Hdp.
    cbn [last from_option foldl] in Hkp, Hdp. by rewrite Hkp, Hdp. }
  apply media_og_Done in Hog
    as ((_ & _ & _ & _ & _ & Si2 & _ & _ & _ & _ & D2 & _ & K2) & _).
  apply media_seg_Done in Hseg
    as ((_ & _ & _ & _ & _ & Si3 & _ & _ & _ & _ & D3 & _ & K3) & _).
  apply media_primary_Done in Hopen
    as ((_ & _ & _ & _ & _ & Si4 & _ & _ & _ & _ & D4 & _ & K4) & _).
  assert (seg_img self = Some a) as Hsi by (by rewrite Si4, Si3, Si2).
  assert (deepposeds_path self = Some (os_path_join path "deeppose.h5")) as Hdp
    by (by rewrite D4, D3, D2).
  assert (skeleton_path self = None) as Hkp by (by rewrite K4, K3, K2).
  unfold makeDeepPoseDS, call_initialize_dataset. rewrite Hsi, Hdp, Hkp.
  destruct force; [reflexivity|]. destruct Hcall as [|Hfile]; [done|].
  cbn [attr]. rewrite py_lift_run, (py_bind_run py_get _ d0 d0 d0) by reflexivity.
  rewrite Hfile. reflexivity.
Qed.

End DatasetLoadProps.

Section DatasetFrames.
Import DatasetPy DatasetBuild.
Context `{Collaborators} `{Paths} `{!PlySegmenter}.

(** The segmentation loop from the frame [k] on, with [m] frames to go. *)
Lemma segment_loop (data_path : string) (plys : list string)
    (orig : list ndarray) (z : ndarray) :
  forall (m k : nat) (filled pl segs plyd : list ndarray),
    length filled = k ->
    for_each (seq k m)
      (fun idx '(seg_arr, ply_data) =>
         ply_name ← getitem plys idx;
         let ply_path := os_path_join data_path ply_name in
         img ← getitem orig idx;
         let '(seg, ply) := segmentImagePly img ply_path in
         seg_arr ← setrow seg_arr idx seg;
         Ok (seg_arr, ply_data ++ [ply]))
      (filled ++ replicate m z, pl) = Ok (segs, plyd) ->
    exists rows ps,
      segs = filled ++ rows /\ plyd = pl ++ ps /\
      forall j, j < m ->
        exists ply_name img row,
          plys !! (k + j) = Some ply_name /\ orig !! (k + j) = Some img /\
          np_assign z (segmentImagePly img (os_path_join data_path ply_name)).1
          = Some row /\
          rows !! j = Some row /\
          ps !! j
          = Some (segmentImagePly img (os_path_join data_path ply_name)).2.
Proof.
  induction m as [|m IH]; intros k filled pl segs plyd Hk Hrun.
  - injection Hrun as <- <-. exists [], [].
    cbn [replicate]. split; [done|]. split; [by rewrite app_nil_r|]. lia.
  - cbn [seq for_each replicate] in Hrun.
    bind_split Hrun as [arr1 pl1] Hbody.
    bind_split Hbody as ply_name Hply. apply getitem_Ok in Hply.
    bind_split Hbody as img Himg. apply getitem_Ok in Himg.
    destruct (segmentImagePly img (os_path_join data_path ply_name))
      as [sg pd] eqn:Hseg.
    bind_split Hbody as arr Harr. injection Hbody as <- <-.
    apply (setrow_at filled _ arr k z sg Hk) in Harr as (row & Hrow & ->).
    apply IH in Hrun as (rows & ps & -> & -> & Hrows);
      [|rewrite length_app; simpl; lia].
    exists (row :: rows), (pd :: ps).
    split; [by rewrite <- app_assoc|]. split; [by rewrite <- app_assoc|].
    intros [|j] Hj.
    + exists ply_name, img, row. rewrite Nat.add_0_r, Hseg. by repeat split.
    + destruct (Hrows j) as (pn & im & rw & R1 & R2 & R3 & R4 & R5); [lia|].
      exists pn, im, rw. replace (k + S j) with (S k + j) by lia.
      by repeat split.
Qed.

(** Property X14. [build] pairs the files of a frame by position only:
    frame [i] of [og_img.npy] is the [i]-th file of the listing that ends
    in 'og.png'; frame [i] of [seg_img.npy] and entry [i] of [ply.npy] are
    what the segmenter gives for that frame and the [i]-th file that ends
    in 'full.ply', in the order of [os.listdir]. *)
Theorem build_frames_by_position (raw : raw_files) (clk : build_clock)
    (data_path : string) (dest_path : option string) (d d' : dsdisk) :
  let dest := dest_of data_path dest_path in
  os_path_join dest "og_img.npy" <> os_path_join dest "seg_img.npy" ->
  os_path_join dest "og_img.npy" <> os_path_join dest "ang.npy" ->
  os_path_join dest "seg_img.npy" <> os_path_join dest "ang.npy" ->
  build raw clk data_path dest_path d = (Done tt, d') ->
  exists names og seg points h w,
    raw_listdir raw !! data_path = Some names /\
    ds_npy d' !! os_path_join dest "og_img.npy" = Some og /\
    ds_npy d' !! os_path_join dest "seg_img.npy" = Some seg /\
    ds_ply d' !! os_path_join dest "ply.npy" = Some points /\
    npy_shape og
    = [length (filter (fun x => endswith "og.png" x) names); h; w; 3] /\
    forall i img_name,
      filter (fun x => endswith "og.png" x) names !! i = Some img_name ->
      exists ply_name img row seg_row,
        filter (fun x => endswith "full.ply" x) names !! i = Some ply_name /\
        raw_png raw !! os_path_join data_path img_name = Some img /\
        np_assign (np_zeros [h; w; 3] uint8) img = Some row /\
        npy_rows og !! i = Some row /\
        np_assign (np_zeros [segmenter_height; segmenter_width; 3] uint8)
          (segmentImagePly row (os_path_join data_path ply_name)).1
        = Some seg_row /\
        npy_rows seg !! i = Some seg_row /\
        points !! i
        = Some (segmentImagePly row (os_path_join data_path ply_name)).2.
Proof.
  intros dest N1 N2 N3 Hrun.
  apply build_Done in Hrun as (b & Hreads & ->). fold dest.
  destruct Hreads as (Hnames & _ & _ & _ & Himgs & _ & Hseg & _).
  eexists (b_names b), _, _, (b_ply b), (b_height b), (b_width b).
  split; [exact Hnames|].
  split.
  { cbn [written ds_npy]. rewrite lookup_insert_ne by (intros E; by apply N2).
    rewrite lookup_insert_ne by (intros E; by apply N1).
    apply lookup_insert_eq. }
  split.
  { cbn [written ds_npy]. rewrite lookup_insert_ne by (intros E; by apply N3).
    apply lookup_insert_eq. }
  split; [cbn [written ds_ply]; apply lookup_insert_eq|].
  split; [reflexivity|].
  cbn [npy_rows]. intros i img_name Hi.
  assert (i < b_length b) as Hlt by (by apply lookup_lt_Some in Hi).
  unfold read_images in Himgs.
  destruct (fill_rows_lookup
              (fun path => raw_png raw !! path
                           ?! TypeError "cannot store None in an array")
              _ _ _ _ i (os_path_join data_path img_name) Himgs Hlt)
    as (img & row & Himg & Hrow & Hget);
    [by rewrite list_lookup_fmap, Hi|].
  apply or_raise_Ok in Himg.
  unfold segment_all, py_range in Hseg. rewrite Nat.sub_0_r in Hseg.
  apply (segment_loop _ _ _ _ (b_length b) 0 [] [] _ _ eq_refl) in Hseg
    as (rows & ps & -> & -> & Hrows).
  destruct (Hrows i Hlt) as (ply_name & img' & seg_row & Hply & Himg' & Hassign
                             & Hsegrow & Hpoints).
  cbn [Nat.add] in Hply, Himg'. rewrite Hget in Himg'. injection Himg' as <-.
  exists ply_name, img, row, seg_row. by repeat split.
Qed.

End DatasetFrames.

(** * The further properties on the small inputs *)

(** ** The full build *)

(** The container of the full build of the toy capture. *)
Lemma build_full_container_witness :
  exists f,
    h5 Toy.toy_built !! "data/set1/set1.h5" = Some f /\
    attrs f !! "name" = Some (AStr "set1") /\
    attrs f !! "type" = Some (AStr "full") /\
    attrs f !! "length" = Some (AInt 2) /\
    attrs f !! "compile_time" = Some (AFloat 60%Z).
Proof.
  destruct (build_full_container Toy.toy_capture Toy.toy_clock (Toy.toy_self 100)
              "raw/set1" (AFloat 1%Z) None Toy.empty_disk Toy.toy_built
              "data/set1/set1.h5" toy_build_runs)
    as (_ & _ & f & Hf & Hname & _ & Htype & Hlen & _ & _ & Hct & _).
  exists f. split; [exact Hf|]. split; [exact Hname|]. split; [exact Htype|].
  split; [exact Hlen|exact Hct].
Defined.

(** Reading the container of the toy capture back. *)
Lemma build_full_read_back_witness :
  exists s,
    _read_full (Toy.toy_self 0) "data/set1/set1.h5" Toy.toy_built
    = (Ok s, Toy.toy_built) /\
    file_view s
    = Some {| view_path := "data/set1/set1.h5"; view_name := AStr "set1";
              view_length := AInt 2 |} /\
    depth_scale s = AFloat 2%Z /\
    self_rows s (ang_arr s) [1; 0]
    = Err (ValueError "Invalid dataset identifier").
Proof.
  destruct (build_full_read_back Toy.toy_capture Toy.toy_clock (Toy.toy_self 100)
              (Toy.toy_self 0) "raw/set1" (AFloat 1%Z) None Toy.empty_disk
              Toy.toy_built "data/set1/set1.h5" toy_build_runs)
    as (s5 & s & Hload & Hread & Hview & _ & _ & Hscale & Hrows).
  assert (self_length s5 = 2 /\ depth_scale s5 = AFloat 2%Z) as [Hlen Hds].
  { vm_compute in Hload. injection Hload as <-. split; reflexivity. }
  exists s. split; [exact Hread|].
  split; [rewrite Hview, Hlen; reflexivity|].
  split; [rewrite Hscale; exact Hds|apply Hrows].
Defined.

(** The full build of a capture directory without files. *)
Lemma build_full_empty_capture_witness :
  exists d',
    build_full ToyDataset.toy_capture_empty Toy.toy_clock (Toy.toy_self 100)
      "raw/none" (AFloat 1%Z) None Toy.empty_disk
    = (Err (AssertionError "Camera settings must be uniform over the dataset."),
       d') /\
    h5 d' = h5 Toy.empty_disk /\ videos d' = videos Toy.empty_disk.
Proof.
  destruct (build_full_empty_capture ToyDataset.toy_capture_empty Toy.toy_clock
              (Toy.toy_self 100) "raw/none" (AFloat 1%Z) None Toy.empty_disk)
    as (d' & Hrun & _ & Hh5 & Hvid); [reflexivity..|].
  exists d'. split; [exact Hrun|]. split; [exact Hh5|exact Hvid].
Defined.

(** ** Reading a container and loading the frames *)

(** A subset of a file that is not on the toy disk. *)
Lemma build_subset_unreadable_witness :
  build_subset "2021-03-09 09:00:00" (Toy.toy_self 0) "data/none.h5" "train" [0]
    Toy.toy_disk
  = (Err (FileNotFoundError "data/none.h5"), Toy.toy_disk).
Proof.
  apply (proj1 (build_subset_unreadable "2021-03-09 09:00:00" (Toy.toy_self 0)
                  "data/none.h5" "train" [0] Toy.toy_disk)).
  unfold Toy.toy_disk. cbn [h5]. by toy_lookup.
Defined.

(** The first image of the toy capture is [b.png]. *)
Lemma load_imgs_and_depthmaps_frames_witness :
  exists s' img row,
    _load_imgs_and_depthmaps Toy.toy_capture ToyDataset.toy_scanned = Ok s' /\
    png_files Toy.toy_capture !! "raw/set1/b.png" = Some img /\
    np_assign (np_zeros [img_height s'; img_width s'; 3] uint8) img = Some row /\
    orig_img_arr s' !! 0 = Some row.
Proof.
  assert (exists s', _load_imgs_and_depthmaps Toy.toy_capture
                       ToyDataset.toy_scanned = Ok s') as [s' Hs']
    by (eexists; vm_compute; reflexivity).
  destruct (load_imgs_and_depthmaps_frames Toy.toy_capture
              ToyDataset.toy_scanned s' Hs') as (_ & Himgs & _).
  destruct (Himgs 0 "raw/set1/b.png") as (img & row & Himg & Hrow & Hget);
    [vm_compute; lia | vm_compute; reflexivity |].
  exists s', img, row. split; [exact Hs'|]. split; [exact Himg|].
  split; [exact Hrow|exact Hget].
Defined.

(** ** The build of a dataset and its loading *)

Section ToyDatasetBuild.
Import DatasetPy DatasetBuild.

(** [build] of the toy raw directory on an empty disk succeeds. *)
Lemma toy_ds_build_runs :
  build ToyDataset.toy_raw ToyDataset.toy_build_clock "raw/set1" None
    ToyDataset.empty_dsdisk
  = (Done tt, ToyDataset.toy_ds_built).
Proof.
  assert ((build ToyDataset.toy_raw ToyDataset.toy_build_clock "raw/set1" None
             ToyDataset.empty_dsdisk).1 = Done tt) as Hdone
    by (vm_compute; reflexivity).
  unfold ToyDataset.toy_ds_built. revert Hdone.
  destruct (build ToyDataset.toy_raw ToyDataset.toy_build_clock "raw/set1" None
              ToyDataset.empty_dsdisk) as [r d].
  cbn [fst snd]. by intros ->.
Qed.

Lemma toy_dest : dest_of "raw/set1" None = "data/set1".
Proof. vm_compute. reflexivity. Qed.

(** The dataset built from the toy raw directory validates and has two
    frames. *)
Lemma build_validates_witness :
  validate "data/set1" (fs_of ∅ ToyDataset.toy_ds_built)
  = (Ok true, fs_of ∅ ToyDataset.toy_ds_built) /\
  exists info,
    ds_files ToyDataset.toy_ds_built !! "data/set1/ds.json" = Some (JsonFile info) /\
    frames info = 2.
Proof.
  pose proof (build_validates ToyDataset.toy_raw ToyDataset.toy_build_clock
                "raw/set1" None ToyDataset.empty_dsdisk ToyDataset.toy_ds_built ∅
                toy_ds_build_runs) as Hvalid.
  cbv zeta in Hvalid. rewrite toy_dest in Hvalid.
  destruct Hvalid as (_ & _ & (b & _ & Hval) & names & info & Hnames & Hinfo & _
                      & Hframes & _).
  split; [apply Hval; eexists; reflexivity|].
  exists info. split; [exact Hinfo|].
  rewrite Hframes. vm_compute in Hnames. injection Hnames as <-.
  vm_compute. reflexivity.
Defined.



(** The built toy dataset opened with both kinds of images and the
    original ones as primary media. *)
Lemma dataset_open_media_witness :
  exists self a,
    Dataset_open "data/skeletons" (Some ToyDataset.toy_skeletons)
      ToyDataset.toy_ds_built None "og" (Dataset_new "data/set1" "set1" true true)
    = Done self /\
    seg_img self = Some a /\ resolution self = Some (shape_1_3 a) /\
    img self = og_img self /\ vid self = og_vid self /\
    vid_path self = Some "data/set1/og_vid.avi".
Proof.
  assert (exists self,
            Dataset_open "data/skeletons" (Some ToyDataset.toy_skeletons)
              ToyDataset.toy_ds_built None "og"
              (Dataset_new "data/set1" "set1" true true) = Done self)
    as [self Hopen] by (eexists; vm_compute; reflexivity).
  pose proof (dataset_open_media _ _ _ _ _ _ _ _ _ _ Hopen) as Hmedia.
  cbn [andb negb orb] in Hmedia.
  rewrite bool_decide_eq_true_2 in Hmedia by reflexivity.
  destruct Hmedia as (_ & (a & Hseg & Hres) & (Himg & Hvid & Hpath) & _).
  exists self, a. split; [exact Hopen|]. split; [exact Hseg|].
  split; [exact Hres|]. split; [exact Himg|]. split; [exact Hvid|exact Hpath].
Defined.

Lemma toy_npy_paths :
  os_path_join "data/set1" "og_img.npy" <> os_path_join "data/set1" "seg_img.npy" /\
  os_path_join "data/set1" "og_img.npy" <> os_path_join "data/set1" "ang.npy" /\
  os_path_join "data/set1" "seg_img.npy" <> os_path_join "data/set1" "ang.npy".
Proof. repeat split; intros E; vm_compute in E; discriminate E. Qed.

(** The built toy dataset opened with the defaults of the constructor. *)
Lemma build_then_open_witness :
  exists self,
    Dataset_open "data/skeletons" (Some ToyDataset.toy_skeletons)
      ToyDataset.toy_ds_built None "seg"
      (Dataset_new "data/set1" "set1" true false) = Done self /\
    Dataset_len self = 2 /\
    resolution self = Some [segmenter_height; segmenter_width].
Proof.
  pose proof (build_then_open ToyDataset.toy_raw ToyDataset.toy_build_clock
                "raw/set1" None ToyDataset.empty_dsdisk ToyDataset.toy_ds_built
                "data/skeletons" (Some ToyDataset.toy_skeletons) "seg" "set1"
                true false) as Hopen.
  cbv zeta in Hopen. rewrite toy_dest in Hopen.
  destruct (Hopen (proj1 toy_npy_paths) (proj1 (proj2 toy_npy_paths))
              (proj2 (proj2 toy_npy_paths)) toy_ds_build_runs
              (or_introl eq_refl))
    as (self & names & Hnames & Hrun & Hlen & _ & _ & Hres).
  exists self. split; [exact Hrun|].
  split; [|exact (Hres eq_refl)].
  rewrite Hlen. vm_compute in Hnames. injection Hnames as <-.
  vm_compute. reflexivity.
Defined.

(** The skeleton 'A' in a directory with [A.csv] and [AB.csv]. *)
Lemma setSkeleton_last_match_witness :
  exists self',
    setSkeleton "data/skeletons" (Some ToyDataset.toy_skeletons) "A"
      (assign_deepposeds_path "data/set1/deeppose.h5"
         (Dataset_new "data/set1" "set1" true false)) = Done self' /\
    skeleton self' = Some "AB" /\
    skeleton_path self' = Some "data/skeletons/AB.csv" /\
    deepposeds_path self' = Some "data/set1/deeppose_A_AB.h5".
Proof.
  pose proof (setSkeleton_last_match "data/skeletons" "A"
                ToyDataset.toy_skeletons
                (assign_deepposeds_path "data/set1/deeppose.h5"
                   (Dataset_new "data/set1" "set1" true false))
                "data/set1/deeppose.h5" eq_refl) as Hlast.
  cbv zeta in Hlast.
  destruct Hlast as (self' & Hrun & _ & Hsk & Hskp & Hdp).
  exists self'. split; [exact Hrun|].
  rewrite Hsk, Hskp, Hdp. repeat split; vm_compute; reflexivity.
Defined.

(** The built toy dataset opened with the skeleton 'C', which no file of
    the skeleton directory has. *)
Lemma makeDeepPoseDS_without_skeleton_witness :
  exists self,
    Dataset_open "data/skeletons" (Some ToyDataset.toy_skeletons)
      ToyDataset.toy_ds_built (Some "C") "seg"
      (Dataset_new "data/set1" "set1" true false) = Done self /\
    makeDeepPoseDS ToyDataset.toy_initialize_dataset true self
      ToyDataset.toy_ds_built
    = (Raise (AttributeError "'Dataset' object has no attribute 'skeleton_path'"),
       ToyDataset.toy_ds_built).
Proof.
  assert (exists self,
            Dataset_open "data/skeletons" (Some ToyDataset.toy_skeletons)
              ToyDataset.toy_ds_built (Some "C") "seg"
              (Dataset_new "data/set1" "set1" true false) = Done self)
    as [self Hopen] by (eexists; vm_compute; reflexivity).
  exists self. split; [exact Hopen|].
  apply (makeDeepPoseDS_without_skeleton ToyDataset.toy_initialize_dataset
           "data/skeletons" (Some ToyDataset.toy_skeletons)
           ToyDataset.toy_ds_built ToyDataset.toy_ds_built (Some "C") "seg"
           "data/set1" "set1" false true self);
    [|exact Hopen|by left].
  intros nm names [= <-] [= <-]. vm_compute. reflexivity.
Defined.

(** The second frame of the built toy dataset is [b_og.png] with
    [b_full.ply]. *)
Lemma build_frames_by_position_witness :
  exists og points img,
    ds_npy ToyDataset.toy_ds_built !! "data/set1/og_img.npy" = Some og /\
    ds_ply ToyDataset.toy_ds_built !! "data/set1/ply.npy" = Some points /\
    raw_png ToyDataset.toy_raw !! "raw/set1/b_og.png" = Some img /\
    npy_rows og !! 1 = Some img /\
    points !! 1 = Some (segmentImagePly img "raw/set1/b_full.ply").2.
Proof.
  pose proof (build_frames_by_position ToyDataset.toy_raw
                ToyDataset.toy_build_clock "raw/set1" None
                ToyDataset.empty_dsdisk ToyDataset.toy_ds_built) as Hframes.
  cbv zeta in Hframes. rewrite toy_dest in Hframes.
  destruct (Hframes (proj1 toy_npy_paths) (proj1 (proj2 toy_npy_paths))
              (proj2 (proj2 toy_npy_paths)) toy_ds_build_runs)
    as (names & og & seg & points & h & w & Hnames & Hog & _ & Hpoints & _
        & Hpairs).
  vm_compute in Hnames. injection Hnames as <-.
  destruct (Hpairs 1 "b_og.png") as (ply_name & img & row & seg_row & Hply & Himg
                                     & Hrow & Hget & _ & _ & Hpt);
    [vm_compute; reflexivity|].
  vm_compute in Hply. injection Hply as <-.
  cbn [np_assign Toy.toy_numpy] in Hrow. injection Hrow as <-.
  exists og, points, img. split; [exact Hog|]. split; [exact Hpoints|].
  split; [exact Himg|]. split; [exact Hget|exact Hpt].
Defined.

End ToyDatasetBuild.
